(** * Prompts extension: prompt store and slash-command resolver

    A shallow embedding of [script.py] (the Prompts extension for
    text-generation-webui): the global mapping [prompts_data], its
    persistence to [prompts.json] by [save_prompts] and [setup], the
    management calls [create_prompt], [update_prompt], [delete_prompt],
    and the chat hook [chat_input_modifier].

    Modelling choices.
    - A Python [str] is a sequence of Unicode code points: [list N].
      The string methods the source calls ([startswith], [split] with a
      separator and a limit of one, [in], [replace]) are written out on
      such lists.
    - [prompts_data] is a Python [dict], which iterates in insertion
      order: an association list whose keys are pairwise distinct
      ([dict_wf]).  Assignment to an existing key keeps its position,
      assignment to a new key appends.
    - A stored prompt is the six-key dictionary built by
      [create_prompt], all of whose values are strings: a record.
    - [json.dump(..., indent=2)] and [json.load] are written out for the
      documents a store gives: objects of objects of strings.
    - The global dictionary, the file and the wall clock are threaded
      through a state monad over [world].  The management calls return
      the message and the list of titles that the source returns.
      Failures of the file system are not modelled. *)

From Stdlib Require Import List NArith ZArith Ascii String Bool Arith Lia Zify.
Import ListNotations.

(* ------------------------------------------------------------------ *)
(** ** Python strings *)

Module PyStr.

Definition codepoint := N.
Definition pystr := list codepoint.

(** A string literal of the source, as code points. *)
Definition py (s : string) : pystr :=
  List.map N_of_ascii (list_ascii_of_string s).

(** [a == b] on [str]. *)
Fixpoint eqb (a b : pystr) : bool :=
  match a, b with
  | [], [] => true
  | x :: a', y :: b' => N.eqb x y && eqb a' b'
  | _, _ => false
  end.

(** Truth value of a string: [not s] holds exactly for the empty one. *)
Definition truthy (s : pystr) : bool :=
  match s with [] => false | _ :: _ => true end.

(** [strip_prefix p s] is [Some r] when [s = p + r]. *)
Fixpoint strip_prefix (p s : pystr) : option pystr :=
  match p, s with
  | [], _ => Some s
  | x :: p', y :: s' => if N.eqb x y then strip_prefix p' s' else None
  | _ :: _, [] => None
  end.

(** [s.startswith(p)]. *)
Definition startswith (s p : pystr) : bool :=
  match strip_prefix p s with Some _ => true | None => false end.

(** [s.partition(sep)] when [sep] occurs: the text before the leftmost
    occurrence of [sep] and the text after it.  [sep] is never empty in
    the source (Python raises on an empty separator). *)
Fixpoint partition_at (sep s : pystr) : option (pystr * pystr) :=
  match strip_prefix sep s with
  | Some rest => Some ([], rest)
  | None =>
      match s with
      | [] => None
      | c :: s' =>
          match partition_at sep s' with
          | Some (a, b) => Some (c :: a, b)
          | None => None
          end
      end
  end.

(** [sub in s]. *)
Definition contains (sub s : pystr) : bool :=
  match partition_at sub s with Some _ => true | None => false end.

(** [s.split(sep, 1)]: at most one split, at the leftmost [sep]. *)
Definition split_1 (s sep : pystr) : list pystr :=
  match partition_at sep s with
  | Some (a, b) => [a; b]
  | None => [s]
  end.

(** [s.replace(old, new)] for a non-empty [old]: scan from the left,
    copy up to the next occurrence, emit [new], continue after the
    occurrence.  Every round consumes at least one code point, so
    [length s] rounds always suffice. *)
Fixpoint replace_rounds (rounds : nat) (old new s : pystr) : pystr :=
  match rounds with
  | O => s
  | S k =>
      match partition_at old s with
      | Some (a, b) => a ++ new ++ replace_rounds k old new b
      | None => s
      end
  end.

Definition replace (s old new : pystr) : pystr :=
  replace_rounds (List.length s) old new s.

(** [sep.join(parts)]. *)
Fixpoint join (sep : pystr) (parts : list pystr) : pystr :=
  match parts with
  | [] => []
  | [p] => p
  | p :: rest => p ++ sep ++ join sep rest
  end.

End PyStr.
Export PyStr.

(* ------------------------------------------------------------------ *)
(** ** Insertion-ordered dictionaries keyed by [str] *)

Module PyDict.
Section Dict.
Variable V : Type.

Definition dict := list (pystr * V).

Definition keys (d : dict) : list pystr := List.map fst d.
Definition values (d : dict) : list V := List.map snd d.
Definition items (d : dict) : list (pystr * V) := d.

(** Python dictionaries never hold a key twice. *)
Definition dict_wf (d : dict) : Prop := NoDup (keys d).

(** [d.get(k)] *)
Fixpoint get (k : pystr) (d : dict) : option V :=
  match d with
  | [] => None
  | (k', v) :: d' => if PyStr.eqb k' k then Some v else get k d'
  end.

(** [k in d] *)
Definition mem (k : pystr) (d : dict) : bool :=
  match get k d with Some _ => true | None => false end.

(** [d[k] = v]: in place when [k] is present, appended otherwise. *)
Fixpoint setitem (k : pystr) (v : V) (d : dict) : dict :=
  match d with
  | [] => [(k, v)]
  | (k', v') :: d' =>
      if PyStr.eqb k' k then (k', v) :: d' else (k', v') :: setitem k v d'
  end.

(** [del d[k]] and the mapping left by [d.pop(k)], for a present [k]. *)
Fixpoint delitem (k : pystr) (d : dict) : dict :=
  match d with
  | [] => []
  | (k', v') :: d' =>
      if PyStr.eqb k' k then d' else (k', v') :: delitem k d'
  end.

End Dict.

Arguments keys {V} d.
Arguments values {V} d.
Arguments items {V} d.
Arguments dict_wf {V} d.
Arguments get {V} k d.
Arguments mem {V} k d.
Arguments setitem {V} k v d.
Arguments delitem {V} k d.

End PyDict.

(* ------------------------------------------------------------------ *)
(** ** The store *)

(** The dictionary literal of [create_prompt]. *)
Record prompt := mkPrompt {
  title : pystr;
  command : pystr;
  content : pystr;
  creator : pystr;
  created : pystr;
  modified : pystr
}.

Definition store := PyDict.dict prompt.

(** [current_user = "default_user"] *)
Definition current_user : pystr := py "default_user".

(* ------------------------------------------------------------------ *)
(** ** The slash-command resolver *)

Module Resolver.

(** The placeholder token of [chat_input_modifier]. *)
Definition placeholder : pystr := py "{input}".

(** Body of the loop for the prompt that matched: the text handed on. *)
Definition expand (prompt : prompt) (user_input : pystr) : pystr :=
  let prompt_content := content prompt in
  if contains placeholder prompt_content && truthy user_input then
    replace prompt_content placeholder user_input
  else if truthy user_input then
    prompt_content ++ [10; 10]%N ++ user_input   (* two line feeds *)
  else prompt_content.

(** [for prompt in prompts_data.values(): if prompt['command'] == command:
    ... return prompt_content, prompt_content].  [None] when the loop
    runs to its end without returning. *)
Fixpoint scan_prompts (command_ user_input : pystr) (prompts : list prompt)
  : option (pystr * pystr) :=
  match prompts with
  | [] => None
  | prompt :: rest =>
      if PyStr.eqb (command prompt) command_ then
        let prompt_content := expand prompt user_input in
        Some (prompt_content, prompt_content)
      else scan_prompts command_ user_input rest
  end.

(** [parts = text.split(' ', 1)]; [parts[0]]. *)
Definition command_part (text : pystr) : pystr :=
  nth 0 (split_1 text (py " ")) [].

(** [parts[1] if len(parts) > 1] and the empty string otherwise. *)
Definition user_input_part (text : pystr) : pystr :=
  let parts := split_1 text (py " ") in
  if 1 <? List.length parts then nth 1 parts [] else [].

(** [chat_input_modifier(text, visible_text, state)], reading the global
    [prompts_data].  The [state] argument is not inspected. *)
Definition chat_input_modifier {State : Type} (prompts_data : store)
    (text visible_text : pystr) (state : State) : pystr * pystr :=
  if startswith text (py "/") then
    match scan_prompts (command_part text) (user_input_part text)
            (PyDict.values prompts_data) with
    | Some r => r
    | None => (text, visible_text)
    end
  else (text, visible_text).

(** The resolver seen as [resolve(text) -> (resolvedText, matched)]:
    the first component of what [chat_input_modifier] returns, and
    whether it returned from inside the loop. *)
Definition resolve (prompts_data : store) (text : pystr) : pystr * bool :=
  if startswith text (py "/") then
    match scan_prompts (command_part text) (user_input_part text)
            (PyDict.values prompts_data) with
    | Some (resolved, _) => (resolved, true)
    | None => (text, false)
    end
  else (text, false).

End Resolver.
Export Resolver.

(** *** The resolver in the words of the specification *)

Module ResolverSpec.

(** The whitespace that [str.split()] without a separator would cut at,
    within ASCII: tab, line feed, vertical tab, form feed, carriage
    return, the four separators 28 to 31, and space. *)
Definition spec_is_whitespace (c : codepoint) : bool :=
  ((9 <=? c) && (c <=? 13) || (28 <=? c) && (c <=? 32))%N.

(** The split as the specification words it: the command is the text up
    to the first whitespace character of any kind. *)
Fixpoint spec_command_part (text : pystr) : pystr :=
  match text with
  | [] => []
  | c :: rest => if spec_is_whitespace c then [] else c :: spec_command_part rest
  end.

(** ... and the remainder is what follows that whitespace character. *)
Fixpoint spec_remainder_part (text : pystr) : pystr :=
  match text with
  | [] => []
  | c :: rest => if spec_is_whitespace c then rest else spec_remainder_part rest
  end.

(** A stored command matches the input: the input is a slash command
    and some stored prompt holds its command part. *)
Definition matches (d : store) (text : pystr) : Prop :=
  startswith text (py "/") = true
  /\ exists p, In p (PyDict.values d) /\ command p = command_part text.

End ResolverSpec.
Export ResolverSpec.

(* ------------------------------------------------------------------ *)
(** ** The JSON text written by [json.dump(..., indent=2)] and read by
       [json.load]

    The store only ever holds strings inside dictionaries inside a
    dictionary, so the codec is modelled on that part of JSON: objects
    whose members are strings or objects.  Strings follow
    [encode_basestring_ascii] and [scanstring] of CPython's [json]. *)

Module Json.
Local Open Scope N_scope.

Definition quote : codepoint := 34.      (* the double quote *)
Definition backslash : codepoint := 92.  (* the backslash *)
Definition letter_u : codepoint := 117.  (* the letter u *)

(** One digit of ['{0:04x}'.format(n)]. *)
Definition hex_digit (d : N) : codepoint :=
  if (d <? 10) then (48 + d) else (87 + d).

(** ['\\u{0:04x}'.format(n)] for [n < 0x10000]. *)
Definition u_escape (n : N) : pystr :=
  [backslash; letter_u;
   hex_digit (N.shiftr n 12 mod 16); hex_digit (N.shiftr n 8 mod 16);
   hex_digit (N.shiftr n 4 mod 16); hex_digit (n mod 16)].

(** The replacement function of [py_encode_basestring_ascii]:
    [ESCAPE_DCT] first, then [\uXXXX], with a surrogate pair above the
    basic plane.  Code points from space to tilde other than the quote
    and the backslash are not matched by [ESCAPE_ASCII] and stay. *)
Definition escape_char (c : codepoint) : pystr :=
  if (c =? 92) then [backslash; backslash]
  else if (c =? 34) then [backslash; quote]
  else if (c =? 8) then [backslash; 98]     (* \b *)
  else if (c =? 12) then [backslash; 102]   (* \f *)
  else if (c =? 10) then [backslash; 110]   (* \n *)
  else if (c =? 13) then [backslash; 114]   (* \r *)
  else if (c =? 9) then [backslash; 116]    (* \t *)
  else if ((32 <=? c) && (c <=? 126)) then [c]
  else if (c <? 65536) then u_escape c
  else
    let n := (c - 65536) in
    let s1 := N.lor 55296 (N.land (N.shiftr n 10) 1023) in
    let s2 := N.lor 56320 (N.land n 1023) in
    u_escape s1 ++ u_escape s2.

(** [encode_basestring_ascii(s)] *)
Definition encode_basestring_ascii (s : pystr) : pystr :=
  quote :: List.flat_map escape_char s ++ [quote].

(** ['\n' + ' ' * (2 * level)] *)
Definition newline_indent (level : nat) : pystr :=
  10 :: List.repeat 32 (2 * level)%nat.

(** One member of an object: the key, the key separator, the value. *)
Definition enc_member {V : Type} (encode_value : nat -> V -> pystr)
    (level : nat) (kv : pystr * V) : pystr :=
  encode_basestring_ascii (fst kv) ++ py ": " ++ encode_value level (snd kv).

(** [_iterencode_dict] at nesting depth [level], the members' values
    being written by [encode_value]. *)
Definition encode_dict {V : Type} (encode_value : nat -> V -> pystr)
    (level : nat) (dct : PyDict.dict V) : pystr :=
  match dct with
  | [] => py "{}"
  | _ :: _ =>
      py "{" ++ newline_indent (S level)
      ++ join (py "," ++ newline_indent (S level))
           (List.map (enc_member encode_value (S level)) (PyDict.items dct))
      ++ newline_indent level ++ py "}"
  end.

(** The in-memory form of a stored prompt: a dictionary with the six
    keys of the literal in [create_prompt], in that order. *)
Definition prompt_fields (p : prompt) : PyDict.dict pystr :=
  [(py "title", title p); (py "command", command p);
   (py "content", content p); (py "creator", creator p);
   (py "created", created p); (py "modified", modified p)].

(** A stored prompt, written as an object of strings. *)
Definition encode_fields (level : nat) (p : prompt) : pystr :=
  encode_dict (fun _ s => encode_basestring_ascii s) level (prompt_fields p).

(** [json.dumps(prompts_data, indent=2)] *)
Definition dumps (prompts_data : store) : pystr :=
  encode_dict encode_fields 0%nat prompts_data.

(** *** Reading *)

(** One hexadecimal digit of a [\uXXXX] escape, either case. *)
Definition hex_value (c : codepoint) : option N :=
  if (48 <=? c) && (c <=? 57) then Some (c - 48)
  else if (97 <=? c) && (c <=? 102) then Some (c - 87)
  else if (65 <=? c) && (c <=? 70) then Some (c - 55)
  else None.

(** Four digits, accumulated as [c <<= 4; c |= digit]. *)
Definition hex4 (a b c d : codepoint) : option N :=
  match hex_value a, hex_value b, hex_value c, hex_value d with
  | Some x, Some y, Some z, Some t =>
      Some (N.lor (N.shiftl (N.lor (N.shiftl (N.lor (N.shiftl x 4) y) 4) z) 4) t)
  | _, _, _, _ => None
  end.

Definition is_high_surrogate (c : N) : bool := (55296 <=? c) && (c <=? 56319).
Definition is_low_surrogate (c : N) : bool := (56320 <=? c) && (c <=? 57343).

(** [Py_UNICODE_JOIN_SURROGATES] *)
Definition join_surrogates (hi lo : N) : N :=
  65536 + N.lor (N.shiftl (N.land hi 1023) 10) (N.land lo 1023).

(** The one-letter escapes of [scanstring]. *)
Definition simple_escape (e : codepoint) : option codepoint :=
  if e =? 34 then Some 34
  else if e =? 92 then Some 92
  else if e =? 47 then Some 47
  else if e =? 98 then Some 8
  else if e =? 102 then Some 12
  else if e =? 110 then Some 10
  else if e =? 114 then Some 13
  else if e =? 116 then Some 9
  else None.

Definition push (c : codepoint) (r : option (pystr * pystr)) : option (pystr * pystr) :=
  match r with
  | Some (t, rest) => Some (c :: t, rest)
  | None => None
  end.

(** [scanstring(s, end, strict=True)], started just after the opening
    quote: the decoded string and the text after the closing quote, or
    [None] where the decoder raises. *)
Fixpoint scanstring (s : pystr) : option (pystr * pystr) :=
  match s with
  | [] => None
  | c :: s1 =>
      if c =? quote then Some ([], s1)
      else if c =? backslash then
        match s1 with
        | [] => None
        | e :: s2 =>
            if e =? letter_u then
              match s2 with
              | h1 :: h2 :: h3 :: h4 :: s3 =>
                  match hex4 h1 h2 h3 h4 with
                  | None => None
                  | Some u =>
                      if is_high_surrogate u then
                        match s3 with
                        | b :: l :: l1 :: l2 :: l3 :: l4 :: s4 =>
                            if (b =? backslash) && (l =? letter_u) then
                              match hex4 l1 l2 l3 l4 with
                              | None => None
                              | Some u2 =>
                                  if is_low_surrogate u2
                                  then push (join_surrogates u u2) (scanstring s4)
                                  else push u (scanstring s3)
                              end
                            else push u (scanstring s3)
                        | _ => push u (scanstring s3)
                        end
                      else push u (scanstring s3)
                  end
              | _ => None
              end
            else
              match simple_escape e with
              | Some d => push d (scanstring s2)
              | None => None
              end
        end
      else if c <=? 31 then None
      else push c (scanstring s1)
  end.

Definition is_whitespace (c : codepoint) : bool :=
  (c =? 32) || (c =? 9) || (c =? 10) || (c =? 13).

Fixpoint skip_whitespace (s : pystr) : pystr :=
  match s with
  | c :: s' => if is_whitespace c then skip_whitespace s' else s
  | [] => []
  end.

(** The member loop of [JSONObject], entered at a key.  [rval] is the
    dictionary built so far ([rval[key] = value], so a repeated key
    keeps its first position and its last value).  Every turn consumes
    the quote that opens the key, so [length s] turns always suffice. *)
Fixpoint parse_members {V : Type} (parse_value : pystr -> option (V * pystr))
    (turns : nat) (rval : PyDict.dict V) (s : pystr)
  : option (PyDict.dict V * pystr) :=
  match turns with
  | O => None
  | S turns' =>
      match s with
      | c :: s1 =>
          if c =? quote then
            match scanstring s1 with
            | None => None
            | Some (key, s2) =>
                match skip_whitespace s2 with
                | c2 :: s3 =>
                    if c2 =? 58 then
                      match parse_value (skip_whitespace s3) with
                      | None => None
                      | Some (val, s4) =>
                          let rval' := PyDict.setitem key val rval in
                          match skip_whitespace s4 with
                          | c3 :: s5 =>
                              if c3 =? 125 then Some (rval', s5)
                              else if c3 =? 44 then
                                parse_members parse_value turns' rval' (skip_whitespace s5)
                              else None
                          | [] => None
                          end
                      end
                    else None
                | [] => None
                end
            end
          else None
      | [] => None
      end
  end.

(** [JSONObject], started just after the opening brace. *)
Definition parse_object {V : Type} (parse_value : pystr -> option (V * pystr))
    (s : pystr) : option (PyDict.dict V * pystr) :=
  match skip_whitespace s with
  | c :: s1 =>
      if c =? 125 then Some ([], s1)
      else parse_members parse_value (List.length s) [] (c :: s1)
  | [] => None
  end.

(** [scan_once] where the value is a string. *)
Definition parse_string_value (s : pystr) : option (pystr * pystr) :=
  match s with
  | c :: s1 => if c =? quote then scanstring s1 else None
  | [] => None
  end.

(** [scan_once] at an object whose values are read by [parse_value]. *)
Definition parse_object_value {V : Type} (parse_value : pystr -> option (V * pystr))
    (s : pystr) : option (PyDict.dict V * pystr) :=
  match s with
  | c :: s1 => if c =? 123 then parse_object parse_value s1 else None
  | [] => None
  end.

(** [scan_once] where the value is an object of strings. *)
Definition parse_fields_value : pystr -> option (PyDict.dict pystr * pystr) :=
  parse_object_value parse_string_value.

(** The record of a six-key dictionary. *)
Definition prompt_of_fields (f : PyDict.dict pystr) : option prompt :=
  match PyDict.get (py "title") f, PyDict.get (py "command") f,
        PyDict.get (py "content") f, PyDict.get (py "creator") f,
        PyDict.get (py "created") f, PyDict.get (py "modified") f with
  | Some t, Some c, Some x, Some u, Some cr, Some m =>
      if Nat.eqb (List.length f) 6 then Some (mkPrompt t c x u cr m) else None
  | _, _, _, _, _, _ => None
  end.

Fixpoint store_of_document (doc : PyDict.dict (PyDict.dict pystr)) : option store :=
  match doc with
  | [] => Some []
  | (k, f) :: doc' =>
      match prompt_of_fields f, store_of_document doc' with
      | Some p, Some d => Some ((k, p) :: d)
      | _, _ => None
      end
  end.

(** [json.loads(text)] for a text that holds a store: leading
    whitespace, one object of objects of strings, trailing whitespace,
    end of text.  [None] where [json.loads] raises, and also for the
    documents that parse to something the record [prompt] cannot hold
    (a value that is not a string, a missing or additional key); those
    are outside this model. *)
Definition loads (text : pystr) : option store :=
  match parse_object_value parse_fields_value (skip_whitespace text) with
  | Some (doc, rest) =>
      match skip_whitespace rest with
      | [] => store_of_document doc
      | _ :: _ => None
      end
  | None => None
  end.

(** *** Strings that a dump and a load give back *)

(** Python strings hold code points below 0x110000. *)
Definition valid_codepoint (c : codepoint) : bool := c <? 1114112.

(** No high surrogate is immediately followed by a low surrogate. *)
Fixpoint surrogate_pair_free (s : pystr) : bool :=
  match s with
  | [] => true
  | hi :: rest =>
      match rest with
      | lo :: _ => negb (is_high_surrogate hi && is_low_surrogate lo)
      | [] => true
      end && surrogate_pair_free rest
  end.

Definition json_safe (s : pystr) : bool :=
  forallb valid_codepoint s && surrogate_pair_free s.

Definition prompt_json_safe (p : prompt) : bool :=
  json_safe (title p) && json_safe (command p) && json_safe (content p)
  && json_safe (creator p) && json_safe (created p) && json_safe (modified p).

Definition store_json_safe (d : store) : bool :=
  forallb (fun kv => json_safe (fst kv) && prompt_json_safe (snd kv)) d.

(** *** Auxiliary notions for the round trip *)

(** The four forms [escape_char] gives a code point. *)
Inductive escape_shape (c : codepoint) : pystr -> Prop :=
| shape_plain : c <> 34 -> c <> 92 -> 32 <= c -> escape_shape c [c]
| shape_simple e : e <> 117 -> simple_escape e = Some c -> escape_shape c [backslash; e]
| shape_u : c < 65536 -> escape_shape c (u_escape c)
| shape_pair s1 s2 :
    65536 <= c -> s1 < 65536 -> s2 < 65536 ->
    is_high_surrogate s1 = true -> is_low_surrogate s2 = true ->
    join_surrogates s1 s2 = c ->
    escape_shape c (u_escape s1 ++ u_escape s2).

(** What may follow the escape of a high surrogate without being taken
    for its second half. *)
Definition no_low_escape (t : pystr) : Prop :=
  forall l1 l2 l3 l4 s4,
    t = backslash :: letter_u :: l1 :: l2 :: l3 :: l4 :: s4 ->
    exists u2, hex4 l1 l2 l3 l4 = Some u2 /\ is_low_surrogate u2 = false.

(** The dictionary the member loop builds from the members [ms], each
    value being read back as [f] of what was written. *)
Definition parsed {V W : Type} (f : V -> W) (rval : PyDict.dict W)
    (ms : list (pystr * V)) : PyDict.dict W :=
  fold_left (fun d kv => PyDict.setitem (fst kv) (f (snd kv)) d) ms rval.

(** A member whose key and value are given back by a load. *)
Definition good_member {V : Type} (good : V -> Prop) (kv : pystr * V) : Prop :=
  json_safe (fst kv) = true /\ good (snd kv).

End Json.

(* ------------------------------------------------------------------ *)
(** ** Global state and effects *)

(** What the module reads and writes: the global [prompts_data], the file
    [extensions/prompts/prompts.json] ([None] when it does not exist), and
    the wall clock, whose successive readings
    [datetime.now().isoformat()] are [clock 0], [clock 1], ...
    [writes] counts the calls that opened the file for writing. *)
Record world := mkWorld {
  prompts_data : store;
  prompts_file : option pystr;
  writes : nat;
  clock : nat -> pystr;
  ticks : nat
}.

Definition M (A : Type) : Type := world -> A * world.

Definition ret {A} (a : A) : M A := fun w => (a, w).
Definition bind {A B} (m : M A) (k : A -> M B) : M B :=
  fun w => let (a, w') := m w in k a w'.

Declare Scope py_scope.
Delimit Scope py_scope with py.
Notation "x <- m ;; k" := (bind m (fun x => k))
  (at level 61, m at next level, right associativity) : py_scope.
Notation "m ;;; k" := (bind m (fun _ => k))
  (at level 61, right associativity) : py_scope.
Local Open Scope py_scope.

Definition read_prompts_data : M store := fun w => (prompts_data w, w).

Definition write_prompts_data (d : store) : M unit := fun w =>
  (tt, mkWorld d (prompts_file w) (writes w) (clock w) (ticks w)).

(** [datetime.now().isoformat()] *)
Definition datetime_now_isoformat : M pystr := fun w =>
  (clock w (ticks w),
   mkWorld (prompts_data w) (prompts_file w) (writes w) (clock w) (S (ticks w))).

(** [open(prompts_file, 'w')] followed by writing [text]. *)
Definition write_file (text : pystr) : M unit := fun w =>
  (tt, mkWorld (prompts_data w) (Some text) (S (writes w)) (clock w) (ticks w)).

Definition read_file : M (option pystr) := fun w => (prompts_file w, w).

(* ------------------------------------------------------------------ *)
(** ** The prompt store *)

(** [save_prompts()]: [json.dump(prompts_data, f, indent=2)] into the
    file opened for writing. *)
Definition save_prompts : M unit :=
  d <- read_prompts_data ;;
  write_file (Json.dumps d).

(** [setup()], from the point where [extension_dir.mkdir(exist_ok=True)]
    has returned; the call raises when the directory [extensions] does
    not exist, which is a failure of the file system and outside this
    model.  The model follows the source when the file is absent, when
    it holds a store of prompts and when [json.load] raises.  When
    [json.load] returns a value of another shape the source keeps that
    value, which [store] cannot hold; the model does not follow the
    source there, and nothing below is stated about that case. *)
Definition setup : M unit :=
  f <- read_file ;;
  match f with
  | Some text =>
      match Json.loads text with
      | Some d => write_prompts_data d
      | None => write_prompts_data []
      end
  | None =>
      write_prompts_data [] ;;;
      save_prompts
  end.

(** [get_prompts_list()] *)
Definition get_prompts_list : M (list pystr) :=
  d <- read_prompts_data ;;
  ret (PyDict.keys d).

(** [command if command.startswith('/') else '/' + command] *)
Definition normalize_command (command_ : pystr) : pystr :=
  if startswith command_ (py "/") then command_ else py "/" ++ command_.

(** The loop that looks for [command_] under a key other than [own]. *)
Definition command_taken (command_ own : pystr) (d : store) : bool :=
  existsb (fun kv => PyStr.eqb (command (snd kv)) command_
                     && negb (PyStr.eqb (fst kv) own))
          (PyDict.items d).

(** [create_prompt(title, command, content)] *)
Definition create_prompt (title_ command_ content_ : pystr)
  : M (pystr * list pystr) :=
  if negb (truthy title_) || negb (truthy command_) || negb (truthy content_) then
    l <- get_prompts_list ;;
    ret (py "Error: All fields are required", l)
  else
    let command_ := normalize_command command_ in
    d <- read_prompts_data ;;
    if command_taken command_ title_ d then
      l <- get_prompts_list ;;
      ret (py "Error: Command " ++ command_ ++ py " already exists", l)
    else
      created_ <- datetime_now_isoformat ;;
      modified_ <- datetime_now_isoformat ;;
      write_prompts_data
        (PyDict.setitem title_
           (mkPrompt title_ command_ content_ current_user created_ modified_) d) ;;;
      save_prompts ;;;
      l <- get_prompts_list ;;
      ret (py "Prompt '" ++ title_ ++ py "' created successfully!", l).

(** The dictionary literal that [create_prompt] stores: the clock is
    read once for [created] and once more for [modified]. *)
Definition created_prompt (title_ command_ content_ : pystr) (w : world) : prompt :=
  mkPrompt title_ (normalize_command command_) content_ current_user
           (clock w (ticks w)) (clock w (S (ticks w))).

(** [prompts_data[title].update({...})] on the record. *)
Definition update_fields (p : prompt) (title_ command_ content_ modified_ : pystr)
  : prompt :=
  mkPrompt title_ command_ content_ (creator p) (created p) modified_.

(** [update_prompt(selected_prompt, title, command, content)] *)
Definition update_prompt (selected_prompt title_ command_ content_ : pystr)
  : M (pystr * list pystr) :=
  d <- read_prompts_data ;;
  match (if truthy selected_prompt then PyDict.get selected_prompt d else None) with
  | None =>
      l <- get_prompts_list ;;
      ret (py "Error: Please select a prompt to update", l)
  | Some selected =>
      if negb (truthy title_) || negb (truthy command_) || negb (truthy content_) then
        l <- get_prompts_list ;;
        ret (py "Error: All fields are required", l)
      else
        let command_ := normalize_command command_ in
        if command_taken command_ selected_prompt d then
          l <- get_prompts_list ;;
          ret (py "Error: Command " ++ command_ ++ py " already exists", l)
        else
          let d1 :=
            if negb (PyStr.eqb selected_prompt title_)
            then PyDict.setitem title_ selected (PyDict.delitem selected_prompt d)
            else d in
          modified_ <- datetime_now_isoformat ;;
          write_prompts_data
            (PyDict.setitem title_
               (update_fields selected title_ command_ content_ modified_) d1) ;;;
          save_prompts ;;;
          l <- get_prompts_list ;;
          ret (py "Prompt '" ++ title_ ++ py "' updated successfully!", l)
  end.

(** [delete_prompt(selected_prompt)] *)
Definition delete_prompt (selected_prompt : pystr) : M (pystr * list pystr) :=
  d <- read_prompts_data ;;
  if negb (truthy selected_prompt) || negb (PyDict.mem selected_prompt d) then
    l <- get_prompts_list ;;
    ret (py "Error: Please select a prompt to delete", l)
  else
    write_prompts_data (PyDict.delitem selected_prompt d) ;;;
    save_prompts ;;;
    l <- get_prompts_list ;;
    ret (py "Prompt '" ++ selected_prompt ++ py "' deleted successfully!", l).

(** [load_prompt_details(selected_prompt)] *)
Definition load_prompt_details (selected_prompt : pystr)
  : M (pystr * pystr * pystr) :=
  d <- read_prompts_data ;;
  match (if truthy selected_prompt then PyDict.get selected_prompt d else None) with
  | None => ret ([], [], [])
  | Some p => ret (title p, command p, content p)
  end.

(** The chat hook on the current state. *)
Definition chat_hook {State : Type} (text visible_text : pystr) (state : State)
  : M (pystr * pystr) :=
  d <- read_prompts_data ;;
  ret (chat_input_modifier d text visible_text state).

(** *** The outcomes the management surface reports *)

Definition ValidationError (msg : pystr) : Prop :=
  msg = py "Error: All fields are required".

Definition DuplicateCommandError (command_ msg : pystr) : Prop :=
  msg = py "Error: Command " ++ command_ ++ py " already exists".

Definition NotFoundError (msg : pystr) : Prop :=
  msg = py "Error: Please select a prompt to update"
  \/ msg = py "Error: Please select a prompt to delete".

(** *** Sequences of management calls *)

Inductive operation :=
| Create (title_ command_ content_ : pystr)
| Update (selected_prompt title_ command_ content_ : pystr)
| Delete (selected_prompt : pystr).

Definition run_operation (o : operation) : M (pystr * list pystr) :=
  match o with
  | Create t c x => create_prompt t c x
  | Update s t c x => update_prompt s t c x
  | Delete s => delete_prompt s
  end.

Fixpoint run_operations (ops : list operation) (w : world) : world :=
  match ops with
  | [] => w
  | o :: ops' => run_operations ops' (snd (run_operation o w))
  end.

(** The string arguments of a call are given back by a dump and a load. *)
Definition operation_json_safe (o : operation) : bool :=
  match o with
  | Create t c x => Json.json_safe t && Json.json_safe c && Json.json_safe x
  | Update s t c x =>
      Json.json_safe s && Json.json_safe t && Json.json_safe c && Json.json_safe x
  | Delete s => Json.json_safe s
  end.

(** A state whose dictionary and clock readings are given back by a
    dump and a load; the management calls keep it so. *)
Definition world_json_safe (w : world) : Prop :=
  PyDict.dict_wf (prompts_data w)
  /\ Json.store_json_safe (prompts_data w) = true
  /\ forall n, Json.json_safe (clock w n) = true.

(** At most one prompt holds a given command: the commands of the
    stored prompts, listed in iteration order, are pairwise distinct. *)
Definition commands_unique (d : store) : Prop :=
  NoDup (List.map command (PyDict.values d)).

(** The store invariant: a dictionary, with pairwise distinct commands. *)
Definition store_ok (d : store) : Prop :=
  PyDict.dict_wf d /\ commands_unique d.

(* ------------------------------------------------------------------ *)
(** ** The read-only views of the store *)

(** [get_available_commands()]: one line [command - title] per prompt,
    in iteration order, or a fixed message when there is none. *)
Definition get_available_commands : M pystr :=
  d <- read_prompts_data ;;
  let commands :=
    List.map (fun prompt => command prompt ++ py " - " ++ title prompt)
             (PyDict.values d) in
  ret (match commands with
       | _ :: _ => join [10%N] commands
       | [] => py "No prompts available"
       end).

(** The value stored under a command in [accessible]. *)
Definition accessible_entry (prompt : prompt) : PyDict.dict pystr :=
  [(py "title", title prompt); (py "content", content prompt);
   (py "command", command prompt)].

(** The loop of [get_accessible_prompts_json()]:
    [accessible[prompt['command']] = {...}] for every item in turn. *)
Definition accessible_prompts (d : store) : PyDict.dict (PyDict.dict pystr) :=
  fold_left (fun accessible kv =>
               PyDict.setitem (command (snd kv)) (accessible_entry (snd kv)) accessible)
            (PyDict.items d) [].

(** [_iterencode_dict] without indentation: the separators are a comma
    and a space between members, a colon and a space after a key. *)
Definition encode_dict_compact {V : Type} (encode_value : V -> pystr)
    (dct : PyDict.dict V) : pystr :=
  match dct with
  | [] => py "{}"
  | _ :: _ =>
      py "{"
      ++ join (py ", ")
           (List.map (Json.enc_member (fun _ => encode_value) 0) (PyDict.items dct))
      ++ py "}"
  end.

(** [get_accessible_prompts_json()] *)
Definition get_accessible_prompts_json : M pystr :=
  d <- read_prompts_data ;;
  ret (encode_dict_compact
         (encode_dict_compact Json.encode_basestring_ascii)
         (accessible_prompts d)).

(** *** Conditions on the state *)

(** An entry as the management calls store it: filed under its own
    title, which is not empty, with a command that starts with a slash
    and a content that is not empty. *)
Definition entry_normal (kv : pystr * prompt) : Prop :=
  title (snd kv) = fst kv
  /\ fst kv <> []
  /\ startswith (command (snd kv)) (py "/") = true
  /\ content (snd kv) <> [].

Definition store_normal (d : store) : Prop := Forall entry_normal d.

(** The file holds the dump of the dictionary in memory. *)
Definition file_in_sync (w : world) : Prop :=
  prompts_file w = Some (Json.dumps (prompts_data w)).

(* ================================================================== *)
(** * Properties *)

(* ------------------------------------------------------------------ *)
(** ** Strings *)

Module PyStrFacts.

Lemma eqb_eq (a b : pystr) : PyStr.eqb a b = true <-> a = b.
Proof.
  revert b; induction a as [|x a IH]; intros [|y b]; simpl;
    try (split; [discriminate | congruence]); try tauto.
  rewrite andb_true_iff, N.eqb_eq, IH.
  split; [intros [-> ->]; reflexivity | intros [= -> ->]; auto].
Qed.

Lemma eqb_refl (a : pystr) : PyStr.eqb a a = true.
Proof. apply eqb_eq; reflexivity. Qed.

Lemma eqb_neq (a b : pystr) : PyStr.eqb a b = false <-> a <> b.
Proof.
  rewrite <- eqb_eq. destruct (PyStr.eqb a b); split; congruence.
Qed.

Lemma eqb_sym (a b : pystr) : PyStr.eqb a b = PyStr.eqb b a.
Proof.
  destruct (PyStr.eqb a b) eqn:E.
  - apply eqb_eq in E; subst; symmetry; apply eqb_refl.
  - symmetry; apply eqb_neq; apply eqb_neq in E; congruence.
Qed.

Lemma truthy_false (s : pystr) : truthy s = false <-> s = [].
Proof. destruct s; simpl; split; congruence. Qed.

Lemma truthy_true (s : pystr) : truthy s = true <-> s <> [].
Proof. destruct s; simpl; split; congruence. Qed.

Lemma strip_prefix_Some (p s r : pystr) :
  strip_prefix p s = Some r <-> s = p ++ r.
Proof.
  revert s; induction p as [|x p IH]; intros s; simpl.
  - split; congruence.
  - destruct s as [|y s]; [split; discriminate|].
    destruct (N.eqb_spec x y) as [->|Hxy].
    + rewrite IH; split; [intros ->; reflexivity | intros [= ->]; reflexivity].
    + split; [discriminate | intros [= -> _]; congruence].
Qed.

Lemma strip_prefix_app (p r : pystr) : strip_prefix p (p ++ r) = Some r.
Proof. apply strip_prefix_Some; reflexivity. Qed.

Lemma startswith_true (s p : pystr) :
  startswith s p = true <-> exists r, s = p ++ r.
Proof.
  unfold startswith. destruct (strip_prefix p s) as [r|] eqn:E.
  - apply strip_prefix_Some in E. split; eauto.
  - split; [discriminate|]. intros [r Hr].
    apply strip_prefix_Some in Hr. congruence.
Qed.

(** [partition_at] cuts at an occurrence of the separator ... *)
Lemma partition_at_Some (sep s a b : pystr) :
  partition_at sep s = Some (a, b) -> s = a ++ sep ++ b.
Proof.
  revert a b; induction s as [|c s IH]; intros a b; simpl.
  - destruct (strip_prefix sep []) eqn:E; [|discriminate].
    intros [= <- <-]. apply strip_prefix_Some in E. exact E.
  - destruct (strip_prefix sep (c :: s)) eqn:E.
    + intros [= <- <-]. apply strip_prefix_Some in E. exact E.
    + destruct (partition_at sep s) as [[a' b']|]; [|discriminate].
      intros [= <- <-]. simpl. f_equal. apply IH. reflexivity.
Qed.

(** ... and fails only when there is none. *)
Lemma partition_at_None (sep s : pystr) :
  partition_at sep s = None -> forall a b, s <> a ++ sep ++ b.
Proof.
  induction s as [|c s IH]; simpl.
  - destruct (strip_prefix sep []) eqn:E; [discriminate|].
    intros _ a b H. destruct a; simpl in H.
    + apply strip_prefix_Some in H. congruence.
    + discriminate.
  - destruct (strip_prefix sep (c :: s)) eqn:E; [discriminate|].
    destruct (partition_at sep s) as [[a' b']|]; [discriminate|].
    intros _ a b H. destruct a as [|x a]; simpl in H.
    + apply strip_prefix_Some in H. congruence.
    + injection H as _ H. exact (IH eq_refl _ _ H).
Qed.

Lemma contains_true (sub s : pystr) :
  contains sub s = true <-> exists a b, s = a ++ sub ++ b.
Proof.
  unfold contains. destruct (partition_at sub s) as [[a b]|] eqn:E.
  - split; [intros _; exists a, b; apply partition_at_Some; exact E | reflexivity].
  - split; [discriminate|]. intros (a & b & H).
    exfalso; exact (partition_at_None _ _ E _ _ H).
Qed.

Lemma contains_false (sub s : pystr) :
  contains sub s = false <-> forall a b, s <> a ++ sub ++ b.
Proof.
  split.
  - intros H a b E. assert (contains sub s = true) by (apply contains_true; eauto).
    congruence.
  - intros H. destruct (contains sub s) eqn:E; [|reflexivity].
    apply contains_true in E. destruct E as (a & b & E). exfalso; eapply H; eauto.
Qed.

(** The part before the cut holds no occurrence of a one-code-point
    separator. *)
Lemma partition_at_char (c : codepoint) (s a b : pystr) :
  partition_at [c] s = Some (a, b) -> ~ In c a.
Proof.
  revert a b; induction s as [|x s IH]; intros a b; simpl.
  - discriminate.
  - destruct (N.eqb_spec c x) as [->|Hcx].
    + intros [= <- <-]. simpl. tauto.
    + destruct (partition_at [c] s) as [[a' b']|]; [|discriminate].
      intros [= <- <-]. simpl. intros [H|H]; [congruence|].
      eapply IH; eauto.
Qed.

Lemma partition_at_char_None (c : codepoint) (s : pystr) :
  partition_at [c] s = None -> ~ In c s.
Proof.
  intros H Hin. apply in_split in Hin. destruct Hin as (a & b & E).
  exact (partition_at_None _ _ H a b E).
Qed.

Lemma replace_rounds_S (k : nat) (old new s : pystr) :
  replace_rounds (S k) old new s =
  match partition_at old s with
  | Some (a, b) => a ++ new ++ replace_rounds k old new b
  | None => s
  end.
Proof. reflexivity. Qed.

Section Unbordered.
(** Replacement of a token whose first code point does not occur again
    inside it: such a token cannot overlap itself, so a text has one
    decomposition into token-free pieces separated by the token. *)
Variables (c0 : codepoint) (tl_ : pystr).
Hypothesis first_only : ~ In c0 tl_.
Let old := c0 :: tl_.

Lemma partition_at_free_prefix (a rest : pystr) :
  contains old a = false ->
  partition_at old (a ++ old ++ rest) = Some (a, rest).
Proof.
  induction a as [|x a IH]; intros Hfree.
  - unfold old. simpl. rewrite N.eqb_refl, strip_prefix_app. reflexivity.
  - assert (Hno : strip_prefix old ((x :: a) ++ old ++ rest) = None).
    { destruct (strip_prefix old ((x :: a) ++ old ++ rest)) as [r|] eqn:E; [|reflexivity].
      exfalso. apply strip_prefix_Some in E.
      apply app_eq_app in E. destruct E as (l & [[E1 E2]|[E1 E2]]).
      - (* the token lies inside [x :: a] *)
        rewrite contains_false in Hfree. apply (Hfree [] l). simpl. exact E1.
      - (* the token starts inside [x :: a] and runs into the next one *)
        destruct l as [|y l].
        + rewrite app_nil_r in E1.
          rewrite contains_false in Hfree. apply (Hfree [] []).
          simpl. rewrite app_nil_r. symmetry. exact E1.
        + unfold old in E1, E2. simpl in E1, E2.
          injection E1 as Hx Htl. injection E2 as Hy _.
          apply first_only. rewrite Htl, <- Hy. apply in_or_app. right. left. reflexivity. }
    change ((x :: a) ++ old ++ rest) with (x :: (a ++ old ++ rest)) in *.
    unfold partition_at; fold partition_at. rewrite Hno.
    rewrite IH; [reflexivity|].
    rewrite contains_false in *. intros a' b' E.
    apply (Hfree (x :: a') b'). simpl. f_equal. exact E.
Qed.

Lemma partition_at_free (s : pystr) :
  contains old s = false -> partition_at old s = None.
Proof.
  unfold contains. destruct (partition_at old s); [discriminate | reflexivity].
Qed.

Lemma replace_rounds_join (new : pystr) (pieces : list pystr) :
  Forall (fun s => contains old s = false) pieces ->
  forall n, List.length (join old pieces) <= n ->
  replace_rounds n old new (join old pieces) = join new pieces.
Proof.
  induction pieces as [|p rest IH]; intros Hfree n Hn.
  - simpl. destruct n; reflexivity.
  - inversion Hfree as [|? ? Hp Hrest]; subst.
    destruct rest as [|q rest].
    + simpl join. destruct n; [reflexivity|].
      rewrite replace_rounds_S, (partition_at_free _ Hp). reflexivity.
    + change (join old (p :: q :: rest)) with (p ++ old ++ join old (q :: rest)) in *.
      change (join new (p :: q :: rest)) with (p ++ new ++ join new (q :: rest)).
      assert (Hlen : S (List.length (join old (q :: rest))) <= n).
      { rewrite !length_app in Hn. unfold old in Hn at 1.
        change (List.length (c0 :: tl_)) with (S (List.length tl_)) in Hn. lia. }
      destruct n as [|n]; [lia|].
      rewrite replace_rounds_S, (partition_at_free_prefix _ _ Hp).
      rewrite IH; [reflexivity | assumption | lia].
Qed.

(** [s.replace(old, new)] is [new.join] of the token-free pieces. *)
Lemma replace_join (new : pystr) (pieces : list pystr) :
  Forall (fun s => contains old s = false) pieces ->
  replace (join old pieces) old new = join new pieces.
Proof.
  intros H. unfold replace. apply replace_rounds_join; auto.
Qed.

End Unbordered.

(** The cut of [partition_at] is the leftmost one. *)
Lemma partition_at_leftmost (old s a b : pystr) :
  old <> [] -> partition_at old s = Some (a, b) -> contains old a = false.
Proof.
  intros Hold. assert (Hnil : strip_prefix old [] = None).
  { destruct old; [congruence | reflexivity]. }
  revert a b; induction s as [|c s IH]; intros a b; simpl.
  - rewrite Hnil. discriminate.
  - destruct (strip_prefix old (c :: s)) eqn:E1.
    + intros [= <- <-]. unfold contains. simpl. rewrite Hnil. reflexivity.
    + destruct (partition_at old s) as [[a' b']|] eqn:E2; [|discriminate].
      intros [= <- <-]. specialize (IH _ _ eq_refl).
      unfold contains in *. simpl.
      destruct (strip_prefix old (c :: a')) as [r|] eqn:E3.
      * exfalso. apply strip_prefix_Some in E3.
        apply partition_at_Some in E2.
        assert (E4 : strip_prefix old (c :: s) = Some (r ++ old ++ b')).
        { apply strip_prefix_Some. rewrite E2.
          change (c :: a' ++ old ++ b') with ((c :: a') ++ old ++ b').
          rewrite E3, <- app_assoc. reflexivity. }
        congruence.
      * destruct (partition_at old a') as [[? ?]|]; [discriminate | reflexivity].
Qed.

(** Every text has a decomposition into token-free pieces. *)
Lemma pieces_exist_rounds (old : pystr) (Hold : old <> []) (n : nat) :
  forall s, List.length s <= n ->
  exists pieces, pieces <> [] /\ s = join old pieces
    /\ Forall (fun t => contains old t = false) pieces.
Proof.
  induction n as [|n IH]; intros s Hn.
  - destruct s; [|simpl in Hn; lia]. exists [[]]. split; [discriminate|].
    split; [reflexivity|]. constructor; [|constructor].
    unfold contains. simpl. destruct old; [congruence | reflexivity].
  - destruct (partition_at old s) as [[a b]|] eqn:E.
    + pose proof (partition_at_Some _ _ _ _ E) as Hs.
      pose proof (partition_at_leftmost _ _ _ _ Hold E) as Hfree.
      destruct (IH b) as (pieces & Hne & Hb & Hpieces).
      { subst s. rewrite !length_app in Hn.
        destruct old; [congruence|]. simpl in Hn. lia. }
      exists (a :: pieces). split; [discriminate|].
      split; [|constructor; assumption].
      destruct pieces as [|q pieces]; [congruence|].
      rewrite Hs, Hb. reflexivity.
    + exists [s]. split; [discriminate|]. split; [reflexivity|].
      constructor; [|constructor].
      unfold contains. rewrite E. reflexivity.
Qed.

Lemma pieces_exist (old s : pystr) :
  old <> [] ->
  exists pieces, pieces <> [] /\ s = join old pieces
    /\ Forall (fun t => contains old t = false) pieces.
Proof. intros H. apply (pieces_exist_rounds old H (List.length s)). lia. Qed.

End PyStrFacts.

(* ------------------------------------------------------------------ *)
(** ** Dictionaries *)

Module PyDictFacts.
Import PyStrFacts.
Section Facts.
Context {V : Type}.
Implicit Types (d : PyDict.dict V) (k : pystr) (v : V).

Lemma get_In k v d : PyDict.get k d = Some v -> In (k, v) d.
Proof.
  induction d as [|[k' v'] d IH]; simpl; [discriminate|].
  destruct (PyStr.eqb k' k) eqn:E.
  - apply eqb_eq in E. intros [= ->]. subst. left; reflexivity.
  - intros H. right. auto.
Qed.

Lemma get_None k d : PyDict.get k d = None <-> ~ In k (PyDict.keys d).
Proof.
  induction d as [|[k' v'] d IH]; simpl; [tauto|].
  destruct (PyStr.eqb k' k) eqn:E.
  - apply eqb_eq in E. split; [discriminate | intros H; exfalso; apply H; auto].
  - apply eqb_neq in E. rewrite IH. tauto.
Qed.

Lemma In_get k v d : PyDict.dict_wf d -> In (k, v) d -> PyDict.get k d = Some v.
Proof.
  unfold PyDict.dict_wf.
  induction d as [|[k' v'] d IH]; simpl; [tauto|].
  intros Hwf. inversion Hwf as [|? ? Hnotin Hwf']; subst.
  intros [[= -> ->]|Hin].
  - rewrite eqb_refl. reflexivity.
  - destruct (PyStr.eqb k' k) eqn:E; [|auto].
    apply eqb_eq in E. subst. exfalso. apply Hnotin.
    change k with (fst (k, v)). apply in_map. exact Hin.
Qed.

Lemma mem_true k d : PyDict.mem k d = true <-> In k (PyDict.keys d).
Proof.
  unfold PyDict.mem. destruct (PyDict.get k d) eqn:E.
  - split; [intros _ | reflexivity].
    apply get_In in E. change k with (fst (k, v)). apply in_map. exact E.
  - apply get_None in E. split; [discriminate | tauto].
Qed.

Lemma get_setitem_eq k v d : PyDict.get k (PyDict.setitem k v d) = Some v.
Proof.
  induction d as [|[k' v'] d IH]; simpl.
  - rewrite eqb_refl. reflexivity.
  - destruct (PyStr.eqb k' k) eqn:E; simpl; rewrite E; auto.
Qed.

Lemma get_setitem_neq k k0 v d :
  k <> k0 -> PyDict.get k0 (PyDict.setitem k v d) = PyDict.get k0 d.
Proof.
  intros Hne. induction d as [|[k' v'] d IH]; simpl.
  - apply eqb_neq in Hne. rewrite Hne. reflexivity.
  - destruct (PyStr.eqb k' k) eqn:E; simpl.
    + apply eqb_eq in E. subst k'.
      apply eqb_neq in Hne. rewrite Hne. reflexivity.
    + rewrite IH. reflexivity.
Qed.

Lemma keys_setitem_present k v d :
  In k (PyDict.keys d) -> PyDict.keys (PyDict.setitem k v d) = PyDict.keys d.
Proof.
  induction d as [|[k' v'] d IH]; simpl; [tauto|].
  destruct (PyStr.eqb k' k) eqn:E; simpl; [reflexivity|].
  apply eqb_neq in E. intros [H|H]; [congruence|]. rewrite IH; auto.
Qed.

Lemma keys_setitem_absent k v d :
  ~ In k (PyDict.keys d) -> PyDict.keys (PyDict.setitem k v d) = PyDict.keys d ++ [k].
Proof.
  induction d as [|[k' v'] d IH]; simpl; [reflexivity|].
  intros H. destruct (PyStr.eqb k' k) eqn:E; simpl.
  - apply eqb_eq in E. tauto.
  - rewrite IH; tauto.
Qed.

Lemma setitem_absent k v d :
  ~ In k (PyDict.keys d) -> PyDict.setitem k v d = d ++ [(k, v)].
Proof.
  induction d as [|[k' v'] d IH]; simpl; [reflexivity|].
  intros H. destruct (PyStr.eqb k' k) eqn:E; simpl.
  - apply eqb_eq in E. tauto.
  - rewrite IH; tauto.
Qed.

Lemma wf_setitem k v d : PyDict.dict_wf d -> PyDict.dict_wf (PyDict.setitem k v d).
Proof.
  unfold PyDict.dict_wf. intros Hwf.
  destruct (in_dec (list_eq_dec N.eq_dec) k (PyDict.keys d)) as [Hin|Hnin].
  - rewrite keys_setitem_present; auto.
  - rewrite keys_setitem_absent; auto.
    apply NoDup_app; [assumption | repeat constructor; simpl; tauto |].
    intros x Hx [<-|[]]. tauto.
Qed.

Lemma In_delitem kv k d : In kv (PyDict.delitem k d) -> In kv d.
Proof.
  induction d as [|[k' v'] d IH]; simpl; [tauto|].
  destruct (PyStr.eqb k' k); simpl; tauto.
Qed.

Lemma keys_delitem_incl k k0 d :
  In k0 (PyDict.keys (PyDict.delitem k d)) -> In k0 (PyDict.keys d).
Proof.
  induction d as [|[k' v'] d IH]; simpl; [tauto|].
  destruct (PyStr.eqb k' k); simpl; tauto.
Qed.

Lemma wf_delitem k d : PyDict.dict_wf d -> PyDict.dict_wf (PyDict.delitem k d).
Proof.
  unfold PyDict.dict_wf.
  induction d as [|[k' v'] d IH]; simpl; [auto|].
  intros Hwf. inversion Hwf as [|? ? Hnotin Hwf']; subst.
  destruct (PyStr.eqb k' k); simpl; [assumption|].
  constructor; [|auto]. intros H. apply Hnotin. eapply keys_delitem_incl; eauto.
Qed.

Lemma get_delitem_eq k d :
  PyDict.dict_wf d -> PyDict.get k (PyDict.delitem k d) = None.
Proof.
  unfold PyDict.dict_wf.
  induction d as [|[k' v'] d IH]; simpl; [reflexivity|].
  intros Hwf. inversion Hwf as [|? ? Hnotin Hwf']; subst.
  destruct (PyStr.eqb k' k) eqn:E; simpl.
  - apply eqb_eq in E. subst. apply get_None. exact Hnotin.
  - rewrite E. auto.
Qed.

Lemma get_delitem_neq k k0 d :
  k <> k0 -> PyDict.get k0 (PyDict.delitem k d) = PyDict.get k0 d.
Proof.
  intros Hne. induction d as [|[k' v'] d IH]; simpl; [reflexivity|].
  destruct (PyStr.eqb k' k) eqn:E; simpl.
  - apply eqb_eq in E. subst k'. apply eqb_neq in Hne. rewrite Hne. reflexivity.
  - rewrite IH. reflexivity.
Qed.

End Facts.
End PyDictFacts.

(* ------------------------------------------------------------------ *)
(** ** The resolver *)

Module ResolverFacts.
Import PyStrFacts.

Lemma placeholder_unbordered :
  exists c0 tl_, placeholder = c0 :: tl_ /\ ~ In c0 tl_.
Proof.
  exists 123%N, (py "input}"). split; [reflexivity|].
  simpl. intuition discriminate.
Qed.

Lemma replace_placeholder (new : pystr) (pieces : list pystr) :
  Forall (fun s => contains placeholder s = false) pieces ->
  replace (join placeholder pieces) placeholder new = join new pieces.
Proof.
  destruct placeholder_unbordered as (c0 & tl_ & -> & H).
  apply replace_join. exact H.
Qed.

Lemma scan_prompts_None (cmd ui : pystr) (prompts : list prompt) :
  scan_prompts cmd ui prompts = None <->
  forall q, In q prompts -> command q <> cmd.
Proof.
  induction prompts as [|p rest IH]; simpl.
  - split; [intros _ q [] | reflexivity].
  - destruct (PyStr.eqb (command p) cmd) eqn:E.
    + apply eqb_eq in E. split; [discriminate|]. intros H.
      exfalso. apply (H p); auto.
    + apply eqb_neq in E. rewrite IH. split.
      * intros H q [<-|Hq]; auto.
      * intros H q Hq. apply H. auto.
Qed.

(** The loop returns at the first prompt, in iteration order, that holds
    the command. *)
Lemma scan_prompts_first (cmd ui : pystr) (before after : list prompt) (p : prompt) :
  (forall q, In q before -> command q <> cmd) ->
  command p = cmd ->
  scan_prompts cmd ui (before ++ p :: after) = Some (expand p ui, expand p ui).
Proof.
  intros Hbefore Hp. induction before as [|q before IH]; simpl.
  - rewrite Hp, eqb_refl. reflexivity.
  - assert (E : PyStr.eqb (command q) cmd = false).
    { apply eqb_neq. apply Hbefore. left; reflexivity. }
    rewrite E. apply IH. intros q' Hq'. apply Hbefore. right; exact Hq'.
Qed.

Lemma scan_prompts_Some (cmd ui : pystr) (prompts : list prompt) (r : pystr * pystr) :
  scan_prompts cmd ui prompts = Some r ->
  exists before p after,
    prompts = before ++ p :: after
    /\ (forall q, In q before -> command q <> cmd)
    /\ command p = cmd /\ r = (expand p ui, expand p ui).
Proof.
  induction prompts as [|p rest IH]; simpl; [discriminate|].
  destruct (PyStr.eqb (command p) cmd) eqn:E.
  - apply eqb_eq in E. intros [= <-].
    exists [], p, rest. repeat split; auto.
  - apply eqb_neq in E. intros H.
    destruct (IH H) as (before & p' & after & -> & Hb & Hp & Hr).
    exists (p :: before), p', after. repeat split; auto.
    intros q [<-|Hq]; auto.
Qed.

(** Under command uniqueness the prompt that holds the command is the
    one the loop returns at. *)
Lemma scan_prompts_unique (d : store) (cmd ui : pystr) (p : prompt) :
  commands_unique d -> In p (PyDict.values d) -> command p = cmd ->
  scan_prompts cmd ui (PyDict.values d) = Some (expand p ui, expand p ui).
Proof.
  unfold commands_unique. intros Hnd Hin Hcmd.
  apply in_split in Hin. destruct Hin as (before & after & Hval).
  rewrite Hval in *. apply scan_prompts_first; [|assumption].
  intros q Hq Hc. rewrite map_app in Hnd. simpl in Hnd.
  apply NoDup_remove_2 in Hnd. apply Hnd.
  apply in_or_app. left. rewrite Hcmd, <- Hc. apply in_map. exact Hq.
Qed.

(** How [text.split(' ', 1)] cuts. *)
Lemma split_at_first_space (text : pystr) :
  (~ In 32%N text /\ command_part text = text /\ user_input_part text = [])
  \/ (exists cmd rem, text = cmd ++ 32%N :: rem /\ ~ In 32%N cmd
        /\ command_part text = cmd /\ user_input_part text = rem).
Proof.
  unfold command_part, user_input_part, split_1.
  change (py " ") with [32%N].
  destruct (partition_at [32%N] text) as [[a b]|] eqn:E.
  - right. exists a, b. simpl. repeat split.
    + apply partition_at_Some in E. exact E.
    + eapply partition_at_char; eauto.
  - left. simpl. repeat split. apply partition_at_char_None. exact E.
Qed.

Lemma command_part_prefix (text : pystr) :
  exists r, text = command_part text ++ r.
Proof.
  destruct (split_at_first_space text) as [(_ & -> & _)|(cmd & rem & Ht & _ & -> & _)].
  - exists []. rewrite app_nil_r. reflexivity.
  - eexists. exact Ht.
Qed.

Lemma resolve_chat_input_modifier {State : Type} (d : store)
    (text visible_text : pystr) (state : State) :
  chat_input_modifier d text visible_text state =
  if snd (resolve d text)
  then (fst (resolve d text), fst (resolve d text))
  else (text, visible_text).
Proof.
  unfold chat_input_modifier, resolve.
  destruct (startswith text (py "/")); [|reflexivity].
  destruct (scan_prompts _ _ _) as [[r1 r2]|] eqn:E; [|reflexivity].
  apply scan_prompts_Some in E.
  destruct E as (? & p & ? & _ & _ & _ & [= -> ->]). reflexivity.
Qed.

End ResolverFacts.

(* ================================================================== *)
(** * The resolver's contract *)

Section ResolverClaims.
Import PyStrFacts ResolverFacts.

(** C1, as written, fails on two kinds of store that [setup] can load.
    When two prompts hold the command, the resolver takes the first one
    in iteration order: here the second prompt holds [/foo] with the
    content [Hello {input}!], yet [/foo bar] resolves from the first.
    And a stored command without a leading slash is never looked up:
    the input [foo bar] is passed through although a prompt holds
    [foo]. *)
Lemma resolve_replaces_placeholder_counterexample :
  let plain := mkPrompt (py "a") (py "/foo") (py "Plain") current_user
                        (py "2024-01-01T00:00:00") (py "2024-01-01T00:00:00") in
  let hello := mkPrompt (py "b") (py "/foo") (py "Hello {input}!") current_user
                        (py "2024-01-01T00:00:00") (py "2024-01-01T00:00:00") in
  let bare := mkPrompt (py "c") (py "foo") (py "Hello {input}!") current_user
                       (py "2024-01-01T00:00:00") (py "2024-01-01T00:00:00") in
  let d := [(py "a", plain); (py "b", hello)] in
  (In hello (PyDict.values d)
   /\ command hello = command_part (py "/foo bar")
   /\ user_input_part (py "/foo bar") = py "bar"
   /\ contains placeholder (content hello) = true
   /\ replace (content hello) placeholder (py "bar") = py "Hello bar!"
   /\ resolve d (py "/foo bar") = (py "Plain" ++ [10; 10]%N ++ py "bar", true)
   /\ resolve d (py "/foo bar") <> (py "Hello bar!", true))
  /\ (In bare (PyDict.values [(py "c", bare)])
      /\ command bare = command_part (py "foo bar")
      /\ user_input_part (py "foo bar") = py "bar"
      /\ contains placeholder (content bare) = true
      /\ resolve [(py "c", bare)] (py "foo bar") = (py "foo bar", false)).
Proof.
  cbv zeta. split.
  - repeat split; try reflexivity.
    + right. left. reflexivity.
    + intros H. vm_compute in H. discriminate H.
  - repeat split; try reflexivity. left. reflexivity.
Qed.

(** C1, amended.  For every store and every input that starts with a
    slash: let [p] be the first prompt, in iteration order, whose
    command is the command part of the input.  When the remainder is
    not empty and the content of [p] contains the token [{input}], the
    resolver returns the content with every occurrence of the token
    replaced by the remainder, and reports a match.  "Every occurrence
    replaced" is stated on the decomposition of the content into
    token-free pieces separated by the token: the result is the same
    pieces separated by the remainder.  The chat hook hands that text
    on in both positions. *)
Theorem resolve_replaces_placeholder :
  forall (d : store) (text : pystr) (before after : list prompt) (p : prompt)
         (pieces : list pystr),
    PyDict.values d = before ++ p :: after ->
    (forall q, In q before -> command q <> command_part text) ->
    startswith text (py "/") = true ->
    command p = command_part text ->
    user_input_part text <> [] ->
    contains placeholder (content p) = true ->
    content p = join placeholder pieces ->
    Forall (fun s => contains placeholder s = false) pieces ->
    resolve d text = (join (user_input_part text) pieces, true)
    /\ forall (State : Type) (visible_text : pystr) (state : State),
         chat_input_modifier d text visible_text state
         = (join (user_input_part text) pieces, join (user_input_part text) pieces).
Proof.
  intros d text before after p pieces Hval Hfirst Hslash Hcmd Hrem Htok Hdec Hfree.
  assert (Hexp : expand p (user_input_part text) = join (user_input_part text) pieces).
  { unfold expand. rewrite Htok. apply truthy_true in Hrem. rewrite Hrem. simpl.
    rewrite Hdec. apply replace_placeholder. exact Hfree. }
  assert (Hres : resolve d text = (join (user_input_part text) pieces, true)).
  { unfold resolve. rewrite Hslash, Hval.
    rewrite (scan_prompts_first _ (user_input_part text) before after p Hfirst Hcmd).
    rewrite Hexp. reflexivity. }
  split; [exact Hres|]. intros State visible_text state.
  rewrite resolve_chat_input_modifier, Hres. reflexivity.
Qed.

(** The example of the specification: [/foo bar] against the prompt
    with command [/foo] and content [Hello {input}!], here followed by
    a second prompt that holds the same command. *)
Lemma resolve_replaces_placeholder_witness :
  let p := mkPrompt (py "greeting") (py "/foo") (py "Hello {input}!")
                    current_user (py "2024-01-01T00:00:00") (py "2024-01-01T00:00:00") in
  let q := mkPrompt (py "later") (py "/foo") (py "Plain")
                    current_user (py "2024-01-01T00:00:00") (py "2024-01-01T00:00:00") in
  let d := [(py "greeting", p); (py "later", q)] in
  resolve d (py "/foo bar") = (py "Hello bar!", true)
  /\ forall (State : Type) (visible_text : pystr) (state : State),
       chat_input_modifier d (py "/foo bar") visible_text state
       = (py "Hello bar!", py "Hello bar!").
Proof.
  intros p q d.
  apply (resolve_replaces_placeholder d (py "/foo bar") [] [q] p
           [py "Hello "; py "!"]).
  - reflexivity.
  - intros q0 [].
  - reflexivity.
  - reflexivity.
  - discriminate.
  - reflexivity.
  - reflexivity.
  - repeat constructor.
Defined.

(** C3, as written, fails on the same two kinds of store.  Here the
    second prompt holds [/foo] with a content without the token, yet
    [/foo bar] resolves from the first prompt, whose content has the
    token; and the input [foo bar] is passed through although a prompt
    holds the command [foo]. *)
Lemma resolve_appends_remainder_counterexample :
  let hello := mkPrompt (py "a") (py "/foo") (py "Hello {input}!") current_user
                        (py "2024-01-01T00:00:00") (py "2024-01-01T00:00:00") in
  let plain := mkPrompt (py "b") (py "/foo") (py "Plain") current_user
                        (py "2024-01-01T00:00:00") (py "2024-01-01T00:00:00") in
  let bare := mkPrompt (py "c") (py "foo") (py "Plain") current_user
                       (py "2024-01-01T00:00:00") (py "2024-01-01T00:00:00") in
  let d := [(py "a", hello); (py "b", plain)] in
  (In plain (PyDict.values d)
   /\ command plain = command_part (py "/foo bar")
   /\ user_input_part (py "/foo bar") = py "bar"
   /\ contains placeholder (content plain) = false
   /\ resolve d (py "/foo bar") = (py "Hello bar!", true)
   /\ resolve d (py "/foo bar") <> (content plain ++ [10; 10]%N ++ py "bar", true))
  /\ (In bare (PyDict.values [(py "c", bare)])
      /\ command bare = command_part (py "foo bar")
      /\ user_input_part (py "foo bar") = py "bar"
      /\ contains placeholder (content bare) = false
      /\ resolve [(py "c", bare)] (py "foo bar") = (py "foo bar", false)).
Proof.
  cbv zeta. split.
  - repeat split; try reflexivity.
    + right. left. reflexivity.
    + intros H. vm_compute in H. discriminate H.
  - repeat split; try reflexivity. left. reflexivity.
Qed.

(** C3, amended.  For every store and every input that starts with a
    slash: let [p] be the first prompt, in iteration order, whose
    command is the command part of the input.  When the remainder is
    not empty and the content of [p] does not contain the token, the
    resolver returns the content, a blank line, and the remainder, and
    reports a match.  The chat hook hands that text on in both
    positions. *)
Theorem resolve_appends_remainder :
  forall (d : store) (text : pystr) (before after : list prompt) (p : prompt),
    PyDict.values d = before ++ p :: after ->
    (forall q, In q before -> command q <> command_part text) ->
    startswith text (py "/") = true ->
    command p = command_part text ->
    user_input_part text <> [] ->
    contains placeholder (content p) = false ->
    resolve d text = (content p ++ [10; 10]%N ++ user_input_part text, true)
    /\ forall (State : Type) (visible_text : pystr) (state : State),
         chat_input_modifier d text visible_text state
         = (content p ++ [10; 10]%N ++ user_input_part text,
            content p ++ [10; 10]%N ++ user_input_part text).
Proof.
  intros d text before after p Hval Hfirst Hslash Hcmd Hrem Htok.
  assert (Hexp : expand p (user_input_part text)
                 = content p ++ [10; 10]%N ++ user_input_part text).
  { unfold expand. rewrite Htok. apply truthy_true in Hrem. rewrite Hrem. reflexivity. }
  assert (Hres : resolve d text
                 = (content p ++ [10; 10]%N ++ user_input_part text, true)).
  { unfold resolve. rewrite Hslash, Hval.
    rewrite (scan_prompts_first _ (user_input_part text) before after p Hfirst Hcmd).
    rewrite Hexp. reflexivity. }
  split; [exact Hres|]. intros State visible_text state.
  rewrite resolve_chat_input_modifier, Hres. reflexivity.
Qed.

Lemma resolve_appends_remainder_witness :
  let p := mkPrompt (py "summary") (py "/foo") (py "Summarize:")
                    current_user (py "2024-01-01T00:00:00") (py "2024-01-01T00:00:00") in
  let q := mkPrompt (py "later") (py "/foo") (py "Hello {input}!")
                    current_user (py "2024-01-01T00:00:00") (py "2024-01-01T00:00:00") in
  let d := [(py "summary", p); (py "later", q)] in
  resolve d (py "/foo bar")
  = (py "Summarize:" ++ [10; 10]%N ++ py "bar", true)
  /\ forall (State : Type) (visible_text : pystr) (state : State),
       chat_input_modifier d (py "/foo bar") visible_text state
       = (py "Summarize:" ++ [10; 10]%N ++ py "bar",
          py "Summarize:" ++ [10; 10]%N ++ py "bar").
Proof.
  intros p q d.
  apply (resolve_appends_remainder d (py "/foo bar") [] [q] p).
  - reflexivity.
  - intros q0 [].
  - reflexivity.
  - reflexivity.
  - discriminate.
  - reflexivity.
Defined.

(** C2, as written, fails: the source cuts at the first space character
    only.  On the input [/foo<TAB>bar] the words of the specification
    give the command [/foo] and the remainder [bar]; the code takes the
    whole text as the command, leaves the remainder empty, and so does
    not match a stored [/foo]. *)
Lemma split_any_whitespace_counterexample :
  let text := py "/foo" ++ [9%N] ++ py "bar" in
  let p := mkPrompt (py "greeting") (py "/foo") (py "Hello")
                    current_user (py "2024-01-01T00:00:00") (py "2024-01-01T00:00:00") in
  startswith text (py "/") = true
  /\ spec_command_part text = py "/foo"
  /\ spec_remainder_part text = py "bar"
  /\ command_part text <> spec_command_part text
  /\ user_input_part text <> spec_remainder_part text
  /\ resolve [(py "greeting", p)] text = (text, false).
Proof.
  cbv zeta. repeat split; try reflexivity; vm_compute; discriminate.
Qed.

(** C2, amended.  For every input that starts with a slash the command
    is the text up to the first space character (U+0020) and the
    remainder is everything after that space, or empty when the text
    holds no space; the resolver reports a match exactly when some
    stored prompt holds a command equal, code point by code point, to
    that command part. *)
Theorem resolve_splits_at_first_space :
  forall (d : store) (text : pystr),
    startswith text (py "/") = true ->
    ((~ In 32%N text /\ command_part text = text /\ user_input_part text = [])
     \/ (exists cmd rem, text = cmd ++ 32%N :: rem /\ ~ In 32%N cmd
           /\ command_part text = cmd /\ user_input_part text = rem))
    /\ (snd (resolve d text) = true <->
        exists p, In p (PyDict.values d) /\ command p = command_part text).
Proof.
  intros d text Hslash. split; [apply split_at_first_space|].
  unfold resolve. rewrite Hslash.
  destruct (scan_prompts _ _ _) as [[r1 r2]|] eqn:E; simpl.
  - apply scan_prompts_Some in E.
    destruct E as (before & p & after & Hval & _ & Hp & _).
    split; [intros _ | reflexivity].
    exists p. split; [|exact Hp]. rewrite Hval. apply in_or_app. right. left. reflexivity.
  - split; [discriminate|]. intros (p & Hin & Hp).
    exfalso. exact (proj1 (scan_prompts_None _ _ _) E p Hin Hp).
Qed.

Lemma resolve_splits_at_first_space_witness :
  let p := mkPrompt (py "greeting") (py "/foo") (py "Hello")
                    current_user (py "2024-01-01T00:00:00") (py "2024-01-01T00:00:00") in
  let text := py "/foo bar baz" in
  ((~ In 32%N text /\ command_part text = text /\ user_input_part text = [])
   \/ (exists cmd rem, text = cmd ++ 32%N :: rem /\ ~ In 32%N cmd
         /\ command_part text = cmd /\ user_input_part text = rem))
  /\ (snd (resolve [(py "greeting", p)] text) = true <->
      exists q, In q (PyDict.values [(py "greeting", p)]) /\ command q = command_part text).
Proof.
  intros p text.
  apply (resolve_splits_at_first_space [(py "greeting", p)] text).
  reflexivity.
Defined.

(** C7, as written, fails: when no command matches, the second value
    returned is the visible-text argument, not the input text. *)
Lemma unmatched_pair_counterexample :
  ~ (forall (d : store) (text visible_text : pystr) (state : unit),
       ~ matches d text ->
       chat_input_modifier d text visible_text state = (text, text)).
Proof.
  intros H. specialize (H [] (py "hello") (py "HELLO") tt).
  assert (Hno : ~ matches [] (py "hello")) by (intros [Hs _]; discriminate Hs).
  specialize (H Hno). discriminate H.
Qed.

(** C7, amended.  When a stored command matches, both returned values
    are the resolved content of the first prompt, in iteration order,
    that holds the command; when none matches (in particular when the
    text does not start with a slash) the first returned value is the
    input text and the second is the visible-text argument, both
    unchanged, whatever the store holds. *)
Theorem chat_input_modifier_contract :
  forall (State : Type) (d : store) (text visible_text : pystr) (state : State),
    (matches d text ->
     exists before p after,
       PyDict.values d = before ++ p :: after
       /\ (forall q, In q before -> command q <> command_part text)
       /\ command p = command_part text
       /\ chat_input_modifier d text visible_text state
          = (expand p (user_input_part text), expand p (user_input_part text)))
    /\ (~ matches d text ->
        chat_input_modifier d text visible_text state = (text, visible_text)).
Proof.
  intros State d text visible_text state. unfold matches, chat_input_modifier.
  destruct (startswith text (py "/")) eqn:Hslash.
  - destruct (scan_prompts _ _ _) as [r|] eqn:E.
    + apply scan_prompts_Some in E.
      destruct E as (before & p & after & Hval & Hb & Hp & ->).
      split.
      * intros _. exists before, p, after. auto.
      * intros Hno. exfalso. apply Hno. split; [reflexivity|].
        exists p. split; [|exact Hp]. rewrite Hval. apply in_or_app. right. left. reflexivity.
    + split; [|reflexivity].
      intros (_ & p & Hin & Hp). exfalso.
      exact (proj1 (scan_prompts_None _ _ _) E p Hin Hp).
  - split; [|reflexivity]. intros [Hs _]. discriminate Hs.
Qed.

End ResolverClaims.

(* ------------------------------------------------------------------ *)
(** ** The store *)

Module StoreFacts.
Import PyStrFacts PyDictFacts.

Lemma normalize_command_slash (c : pystr) :
  startswith (normalize_command c) (py "/") = true.
Proof.
  unfold normalize_command. destruct (startswith c (py "/")) eqn:E; [exact E|].
  reflexivity.
Qed.

(** A command written with or without its leading slash normalizes to
    the same stored command. *)
Lemma normalize_command_mix (c : pystr) :
  startswith c (py "/") = false ->
  normalize_command (py "/" ++ c) = normalize_command c.
Proof. intros H. unfold normalize_command. rewrite H. reflexivity. Qed.

Lemma normalize_command_idem (c : pystr) :
  normalize_command (normalize_command c) = normalize_command c.
Proof.
  unfold normalize_command at 1. rewrite normalize_command_slash. reflexivity.
Qed.

Lemma command_taken_true (c own : pystr) (d : store) :
  command_taken c own d = true <->
  exists k q, In (k, q) d /\ command q = c /\ k <> own.
Proof.
  unfold command_taken, PyDict.items. rewrite existsb_exists. split.
  - intros ([k q] & Hin & H). simpl in H. apply andb_true_iff in H.
    destruct H as [H1 H2]. apply eqb_eq in H1. apply negb_true_iff, eqb_neq in H2.
    exists k, q. auto.
  - intros (k & q & Hin & Hc & Hk). exists (k, q). split; [exact Hin|]. simpl.
    apply andb_true_iff. split; [apply eqb_eq; exact Hc|].
    apply negb_true_iff, eqb_neq. exact Hk.
Qed.

Lemma command_taken_false (c own : pystr) (d : store) :
  command_taken c own d = false <->
  forall k q, In (k, q) d -> command q = c -> k = own.
Proof.
  split.
  - intros H k q Hin Hc. destruct (list_eq_dec N.eq_dec k own) as [|Hne]; [assumption|].
    assert (command_taken c own d = true).
    { apply command_taken_true. exists k, q. auto. }
    congruence.
  - intros H. destruct (command_taken c own d) eqn:E; [|reflexivity].
    apply command_taken_true in E. destruct E as (k & q & Hin & Hc & Hk).
    exfalso. apply Hk. eapply H; eauto.
Qed.

Lemma In_setitem (k : pystr) (v : prompt) (d : store) (kv : pystr * prompt) :
  In kv (PyDict.setitem k v d) -> kv = (k, v) \/ In kv d.
Proof.
  induction d as [|[k' v'] d IH]; simpl.
  - intros [<-|[]]. auto.
  - destruct (PyStr.eqb k' k) eqn:E; simpl.
    + apply eqb_eq in E. subst. intros [<-|H]; auto.
    + intros [<-|H]; auto. destruct (IH H); auto.
Qed.

Lemma setitem_setitem (k : pystr) (v v' : prompt) (d : store) :
  PyDict.setitem k v' (PyDict.setitem k v d) = PyDict.setitem k v' d.
Proof.
  induction d as [|[k0 v0] d IH]; simpl.
  - rewrite eqb_refl. reflexivity.
  - destruct (PyStr.eqb k0 k) eqn:E; simpl; rewrite E; [reflexivity|].
    rewrite IH. reflexivity.
Qed.

Lemma In_values (p : prompt) (d : store) :
  In p (PyDict.values d) <-> exists k, In (k, p) d.
Proof.
  unfold PyDict.values. rewrite in_map_iff. split.
  - intros ([k q] & <- & H). exists k. exact H.
  - intros (k & H). exists (k, p). auto.
Qed.

(** Assignment keeps the commands pairwise distinct when no other key
    holds the command assigned. *)
Lemma commands_unique_setitem (k : pystr) (v : prompt) (d : store) :
  PyDict.dict_wf d -> commands_unique d ->
  command_taken (command v) k d = false ->
  commands_unique (PyDict.setitem k v d).
Proof.
  unfold commands_unique, PyDict.dict_wf.
  induction d as [|[k0 v0] d IH]; intros Hwf Hu Hfree.
  - simpl. repeat constructor. simpl. tauto.
  - rewrite command_taken_false in Hfree.
    simpl in Hwf, Hu. inversion Hwf as [|? ? Hk0 Hwf']; subst.
    inversion Hu as [|? ? Hc0 Hu']; subst.
    simpl. destruct (PyStr.eqb k0 k) eqn:E; simpl.
    + apply eqb_eq in E. subst k0. constructor; [|assumption].
      intros Hin. apply in_map_iff in Hin. destruct Hin as (q & Hq & Hin).
      apply In_values in Hin. destruct Hin as (k' & Hin).
      assert (k' = k) by (apply (Hfree k' q); [right; exact Hin | exact Hq]).
      subst k'. apply Hk0. change k with (fst (k, q)). apply in_map. exact Hin.
    + apply eqb_neq in E. constructor.
      * intros Hin. apply in_map_iff in Hin. destruct Hin as (q & Hq & Hin).
        apply In_values in Hin. destruct Hin as (k' & Hin).
        apply In_setitem in Hin. destruct Hin as [[= -> ->]|Hin].
        -- apply E. apply (Hfree k0 v0); [left; reflexivity | symmetry; exact Hq].
        -- apply Hc0. rewrite <- Hq. apply in_map. apply In_values. eauto.
      * apply IH; auto. apply command_taken_false.
        intros k' q Hin Hq. apply (Hfree k' q); [right; exact Hin | exact Hq].
Qed.

Lemma commands_unique_delitem (k : pystr) (d : store) :
  commands_unique d -> commands_unique (PyDict.delitem k d).
Proof.
  unfold commands_unique.
  induction d as [|[k0 v0] d IH]; simpl; intros Hu; [constructor|].
  inversion Hu as [|? ? Hc0 Hu']; subst.
  destruct (PyStr.eqb k0 k); simpl; [assumption|].
  constructor; [|auto]. intros Hin. apply Hc0.
  apply in_map_iff in Hin. destruct Hin as (q & Hq & Hin).
  apply In_values in Hin. destruct Hin as (k' & Hin). apply In_delitem in Hin.
  rewrite <- Hq. apply in_map. apply In_values. eauto.
Qed.

Lemma In_delitem_key (k k' : pystr) (q : prompt) (d : store) :
  PyDict.dict_wf d -> In (k', q) (PyDict.delitem k d) -> k' <> k.
Proof.
  intros Hwf Hin Heq. subst k'.
  pose proof (wf_delitem k d Hwf) as Hwf'.
  pose proof (In_get _ _ _ Hwf' Hin) as Hget.
  rewrite get_delitem_eq in Hget; [discriminate | exact Hwf].
Qed.

Lemma command_taken_delitem (c k own : pystr) (d : store) :
  PyDict.dict_wf d ->
  command_taken c k d = false -> command_taken c own (PyDict.delitem k d) = false.
Proof.
  intros Hwf H. rewrite command_taken_false in *. intros k' q Hin Hq.
  exfalso. apply (In_delitem_key _ _ _ _ Hwf Hin).
  apply (H k' q); [eapply In_delitem; eauto | exact Hq].
Qed.

Lemma create_prompt_ok (t c x : pystr) (w : world) :
  store_ok (prompts_data w) -> store_ok (prompts_data (snd (create_prompt t c x w))).
Proof.
  intros [Hwf Hu]. unfold create_prompt.
  destruct (negb (truthy t) || negb (truthy c) || negb (truthy x)); [split; assumption|].
  cbv [bind read_prompts_data]. simpl.
  destruct (command_taken (normalize_command c) t (prompts_data w)) eqn:E;
    simpl; [split; assumption|].
  split; [apply wf_setitem; assumption|].
  apply commands_unique_setitem; assumption.
Qed.

Lemma update_prompt_ok (s t c x : pystr) (w : world) :
  store_ok (prompts_data w) -> store_ok (prompts_data (snd (update_prompt s t c x w))).
Proof.
  intros [Hwf Hu]. unfold update_prompt. cbv [bind read_prompts_data]. simpl.
  destruct (if truthy s then PyDict.get s (prompts_data w) else None) as [sel|];
    simpl; [|split; assumption].
  destruct (negb (truthy t) || negb (truthy c) || negb (truthy x));
    simpl; [split; assumption|].
  destruct (command_taken (normalize_command c) s (prompts_data w)) eqn:E;
    simpl; [split; assumption|].
  destruct (PyStr.eqb s t) eqn:Est; simpl.
  - apply eqb_eq in Est. subst t.
    split; [apply wf_setitem; assumption|].
    apply commands_unique_setitem; assumption.
  - rewrite setitem_setitem.
    split; [apply wf_setitem, wf_delitem; assumption|].
    apply commands_unique_setitem.
    + apply wf_delitem; assumption.
    + apply commands_unique_delitem; assumption.
    + simpl. apply command_taken_delitem; assumption.
Qed.

Lemma delete_prompt_ok (s : pystr) (w : world) :
  store_ok (prompts_data w) -> store_ok (prompts_data (snd (delete_prompt s w))).
Proof.
  intros [Hwf Hu]. unfold delete_prompt. cbv [bind read_prompts_data]. simpl.
  destruct (negb (truthy s) || negb (PyDict.mem s (prompts_data w)));
    simpl; [split; assumption|].
  split; [apply wf_delitem; assumption | apply commands_unique_delitem; assumption].
Qed.

End StoreFacts.

(* ================================================================== *)
(** * The store's contract *)

Section StoreClaims.
Import PyStrFacts PyDictFacts StoreFacts.

(** C4.  Command uniqueness is an invariant of the store: from any
    dictionary in which no two prompts hold the same command, every
    sequence of create, update and delete calls, whether they succeed or
    report an error, leaves a dictionary in which no two prompts hold
    the same command. *)
Theorem command_uniqueness_invariant :
  forall (ops : list operation) (w : world),
    PyDict.dict_wf (prompts_data w) ->
    commands_unique (prompts_data w) ->
    PyDict.dict_wf (prompts_data (run_operations ops w))
    /\ commands_unique (prompts_data (run_operations ops w)).
Proof.
  induction ops as [|o ops IH]; intros w Hwf Hu.
  - split; assumption.
  - simpl. assert (Hok : store_ok (prompts_data (snd (run_operation o w)))).
    { destruct o; simpl.
      - apply create_prompt_ok. split; assumption.
      - apply update_prompt_ok. split; assumption.
      - apply delete_prompt_ok. split; assumption. }
    destruct Hok. apply IH; assumption.
Qed.

Lemma command_uniqueness_invariant_witness :
  let w0 := mkWorld [] None 0 (fun n => py "2024-01-01T00:00:0" ++ [N.of_nat (48 + n)]) 0 in
  let ops := [Create (py "a") (py "foo") (py "x");
              Create (py "b") (py "/foo") (py "y");
              Create (py "b") (py "bar") (py "y");
              Update (py "b") (py "c") (py "foo") (py "z");
              Update (py "a") (py "b") (py "/baz") (py "z");
              Delete (py "nothing");
              Delete (py "c")] in
  PyDict.dict_wf (prompts_data (run_operations ops w0))
  /\ commands_unique (prompts_data (run_operations ops w0)).
Proof.
  intros w0 ops. apply (command_uniqueness_invariant ops w0).
  - constructor.
  - constructor.
Defined.

(** C6.  A call of [create_prompt] with an empty title, an empty
    command or an empty content reports that all fields are required
    and changes nothing: the dictionary, the file and the count of
    writes to the file are as before. *)
Theorem create_prompt_requires_all_fields :
  forall (title_ command_ content_ : pystr) (w : world),
    title_ = [] \/ command_ = [] \/ content_ = [] ->
    ValidationError (fst (fst (create_prompt title_ command_ content_ w)))
    /\ snd (fst (create_prompt title_ command_ content_ w)) = PyDict.keys (prompts_data w)
    /\ snd (create_prompt title_ command_ content_ w) = w.
Proof.
  intros t c x w H. unfold create_prompt.
  assert (E : negb (truthy t) || negb (truthy c) || negb (truthy x) = true).
  { destruct H as [-> | [-> | ->]]; simpl;
      rewrite ?orb_true_r; reflexivity. }
  rewrite E. repeat split.
Qed.

Lemma create_prompt_requires_all_fields_witness :
  let p := mkPrompt (py "a") (py "/foo") (py "x") current_user (py "t0") (py "t1") in
  let w := mkWorld [(py "a", p)] (Some (Json.dumps [(py "a", p)])) 1 (fun _ => py "t2") 2 in
  ValidationError (fst (fst (create_prompt (py "b") [] (py "y") w)))
  /\ snd (fst (create_prompt (py "b") [] (py "y") w)) = PyDict.keys (prompts_data w)
  /\ snd (create_prompt (py "b") [] (py "y") w) = w.
Proof.
  intros p w. apply (create_prompt_requires_all_fields (py "b") [] (py "y") w).
  right. left. reflexivity.
Defined.

Lemma create_prompt_success (t c x : pystr) (w : world) :
  t <> [] -> c <> [] -> x <> [] ->
  command_taken (normalize_command c) t (prompts_data w) = false ->
  let d' := PyDict.setitem t (created_prompt t c x w) (prompts_data w) in
  create_prompt t c x w =
  ((py "Prompt '" ++ t ++ py "' created successfully!", PyDict.keys d'),
   mkWorld d' (Some (Json.dumps d')) (S (writes w)) (clock w) (S (S (ticks w)))).
Proof.
  intros Ht Hc Hx Hfree. unfold create_prompt.
  apply truthy_true in Ht, Hc, Hx. rewrite Ht, Hc, Hx.
  change (negb true || negb true || negb true) with false.
  cbv [bind read_prompts_data]. cbv beta iota. rewrite Hfree. reflexivity.
Qed.

Lemma create_prompt_duplicate (t c x : pystr) (w : world) :
  t <> [] -> c <> [] -> x <> [] ->
  command_taken (normalize_command c) t (prompts_data w) = true ->
  create_prompt t c x w =
  ((py "Error: Command " ++ normalize_command c ++ py " already exists",
    PyDict.keys (prompts_data w)), w).
Proof.
  intros Ht Hc Hx Htaken. unfold create_prompt.
  apply truthy_true in Ht, Hc, Hx. rewrite Ht, Hc, Hx.
  change (negb true || negb true || negb true) with false.
  cbv [bind read_prompts_data]. cbv beta iota. rewrite Htaken. reflexivity.
Qed.

Lemma update_prompt_success (s t c x : pystr) (sel : prompt) (w : world) :
  s <> [] -> PyDict.get s (prompts_data w) = Some sel ->
  t <> [] -> c <> [] -> x <> [] ->
  command_taken (normalize_command c) s (prompts_data w) = false ->
  let d1 := if negb (PyStr.eqb s t)
            then PyDict.setitem t sel (PyDict.delitem s (prompts_data w))
            else prompts_data w in
  let d' := PyDict.setitem t
              (update_fields sel t (normalize_command c) x (clock w (ticks w))) d1 in
  update_prompt s t c x w =
  ((py "Prompt '" ++ t ++ py "' updated successfully!", PyDict.keys d'),
   mkWorld d' (Some (Json.dumps d')) (S (writes w)) (clock w) (S (ticks w))).
Proof.
  intros Hs Hsel Ht Hc Hx Hfree. unfold update_prompt.
  cbv [bind read_prompts_data]. cbv beta iota.
  apply truthy_true in Hs, Ht, Hc, Hx. rewrite Hs, Hsel, Ht, Hc, Hx.
  change (negb true || negb true || negb true) with false.
  cbv beta iota. rewrite Hfree. reflexivity.
Qed.

(** C5.  After a first prompt was created, creating a second one under
    another title with a command that normalizes to the same stored
    command (with or without the leading slash, on either side) reports
    that the command already exists and changes nothing: the first
    prompt is still stored as created, nothing is stored under the
    second title, the file is not written, and a store that was empty
    before the first call holds the first prompt alone. *)
Theorem create_prompt_rejects_duplicate_command :
  forall (w0 : world) (t1 c1 x1 t2 c2 x2 : pystr),
    t1 <> [] -> c1 <> [] -> x1 <> [] ->
    (forall k q, In (k, q) (prompts_data w0) ->
                 command q = normalize_command c1 -> k = t1) ->
    t2 <> [] -> c2 <> [] -> x2 <> [] ->
    t2 <> t1 ->
    normalize_command c2 = normalize_command c1 ->
    let first := created_prompt t1 c1 x1 w0 in
    let w1 := snd (create_prompt t1 c1 x1 w0) in
    let r := create_prompt t2 c2 x2 w1 in
    DuplicateCommandError (normalize_command c2) (fst (fst r))
    /\ snd r = w1
    /\ PyDict.get t1 (prompts_data (snd r)) = Some first
    /\ PyDict.get t2 (prompts_data (snd r)) = PyDict.get t2 (prompts_data w0)
    /\ (prompts_data w0 = [] -> prompts_data (snd r) = [(t1, first)]).
Proof.
  intros w0 t1 c1 x1 t2 c2 x2 Ht1 Hc1 Hx1 Hfree Ht2 Hc2 Hx2 Hne Hnorm first w1 r.
  apply command_taken_false in Hfree.
  assert (Hw1 : prompts_data w1 = PyDict.setitem t1 first (prompts_data w0)).
  { unfold w1. rewrite (create_prompt_success t1 c1 x1 w0 Ht1 Hc1 Hx1 Hfree).
    reflexivity. }
  assert (Hget : PyDict.get t1 (prompts_data w1) = Some first).
  { rewrite Hw1. apply get_setitem_eq. }
  assert (Htaken : command_taken (normalize_command c2) t2 (prompts_data w1) = true).
  { apply command_taken_true. exists t1, first. repeat split.
    - apply get_In. exact Hget.
    - rewrite Hnorm. reflexivity.
    - congruence. }
  assert (Hr : r = ((py "Error: Command " ++ normalize_command c2 ++ py " already exists",
                     PyDict.keys (prompts_data w1)), w1)).
  { unfold r. apply create_prompt_duplicate; assumption. }
  rewrite Hr. simpl fst. simpl snd. repeat split.
  - exact Hget.
  - rewrite Hw1. apply get_setitem_neq. congruence.
  - intros Hempty. rewrite Hw1, Hempty. reflexivity.
Qed.

Lemma create_prompt_rejects_duplicate_command_witness :
  let w0 := mkWorld [] None 0 (fun n => py "2024-01-01T00:00:0" ++ [N.of_nat (48 + n)]) 0 in
  let first := created_prompt (py "first") (py "foo") (py "Hello") w0 in
  let w1 := snd (create_prompt (py "first") (py "foo") (py "Hello") w0) in
  let r := create_prompt (py "second") (py "/foo") (py "Bye") w1 in
  DuplicateCommandError (normalize_command (py "/foo")) (fst (fst r))
  /\ snd r = w1
  /\ PyDict.get (py "first") (prompts_data (snd r)) = Some first
  /\ PyDict.get (py "second") (prompts_data (snd r))
     = PyDict.get (py "second") (prompts_data w0)
  /\ (prompts_data w0 = [] -> prompts_data (snd r) = [(py "first", first)]).
Proof.
  intros w0.
  apply (create_prompt_rejects_duplicate_command w0
           (py "first") (py "foo") (py "Hello") (py "second") (py "/foo") (py "Bye"));
    try discriminate.
  - intros k q [].
  - reflexivity.
Defined.

(** C10.  A call of [create_prompt] whose title is already a key, with
    a content and a command that are not empty and a command that no
    prompt under another title holds, succeeds: the entry under that
    title becomes a new record, with the creator set to the current
    user, [created] set to the clock reading taken for it and
    [modified] to the next reading, and none of the fields of the
    previous record kept.  The key keeps its place, the other entries
    are untouched, and the file holds the new dictionary. *)
Theorem create_prompt_overwrites_existing_title :
  forall (w : world) (t c x : pystr) (old : prompt),
    PyDict.get t (prompts_data w) = Some old ->
    t <> [] -> c <> [] -> x <> [] ->
    (forall k q, In (k, q) (prompts_data w) ->
                 command q = normalize_command c -> k = t) ->
    let r := create_prompt t c x w in
    fst (fst r) = py "Prompt '" ++ t ++ py "' created successfully!"
    /\ PyDict.get t (prompts_data (snd r))
       = Some (mkPrompt t (normalize_command c) x current_user
                        (clock w (ticks w)) (clock w (S (ticks w))))
    /\ PyDict.keys (prompts_data (snd r)) = PyDict.keys (prompts_data w)
    /\ (forall k, k <> t ->
          PyDict.get k (prompts_data (snd r)) = PyDict.get k (prompts_data w))
    /\ prompts_file (snd r) = Some (Json.dumps (prompts_data (snd r))).
Proof.
  intros w t c x old Hold Ht Hc Hx Hfree r.
  apply command_taken_false in Hfree.
  unfold r. rewrite (create_prompt_success t c x w Ht Hc Hx Hfree).
  cbn [fst snd prompts_data prompts_file]. repeat split.
  - apply get_setitem_eq.
  - apply keys_setitem_present. apply mem_true. unfold PyDict.mem. rewrite Hold. reflexivity.
  - intros k Hk. apply get_setitem_neq. congruence.
Qed.

Lemma create_prompt_overwrites_existing_title_witness :
  let old := mkPrompt (py "a") (py "/old") (py "old text") (py "someone")
                      (py "2023-01-01T00:00:00") (py "2023-06-01T00:00:00") in
  let other := mkPrompt (py "b") (py "/bar") (py "y") current_user
                        (py "2023-01-02T00:00:00") (py "2023-01-02T00:00:00") in
  let w := mkWorld [(py "a", old); (py "b", other)] None 0
                   (fun n => py "2024-01-01T00:00:0" ++ [N.of_nat (48 + n)]) 0 in
  let r := create_prompt (py "a") (py "foo") (py "new text") w in
  fst (fst r) = py "Prompt 'a' created successfully!"
  /\ PyDict.get (py "a") (prompts_data (snd r))
     = Some (mkPrompt (py "a") (py "/foo") (py "new text") current_user
                      (py "2024-01-01T00:00:00") (py "2024-01-01T00:00:01"))
  /\ PyDict.keys (prompts_data (snd r)) = [py "a"; py "b"]
  /\ (forall k, k <> py "a" ->
        PyDict.get k (prompts_data (snd r)) = PyDict.get k (prompts_data w))
  /\ prompts_file (snd r) = Some (Json.dumps (prompts_data (snd r))).
Proof.
  intros old other w.
  apply (create_prompt_overwrites_existing_title w (py "a") (py "foo") (py "new text") old);
    try discriminate.
  - reflexivity.
  - intros k q [[= <- <-]|[[= <- <-]|[]]]; [reflexivity | discriminate].
Defined.

(** C8, as written, fails in its last clause: the command stored by an
    update is not always the command argument.  An argument without a
    leading slash is stored with the slash put in front. *)
Lemma update_prompt_command_counterexample :
  let p := mkPrompt (py "a") (py "/old") (py "old text") current_user
                    (py "2023-01-01T00:00:00") (py "2023-01-01T00:00:00") in
  let w := mkWorld [(py "a", p)] None 0 (fun _ => py "2024-01-01T00:00:00") 0 in
  let r := update_prompt (py "a") (py "c") (py "foo") (py "new text") w in
  fst (fst r) = py "Prompt 'c' updated successfully!"
  /\ option_map command (PyDict.get (py "c") (prompts_data (snd r))) = Some (py "/foo")
  /\ option_map command (PyDict.get (py "c") (prompts_data (snd r))) <> Some (py "foo").
Proof.
  cbv zeta. split; [reflexivity|]. split; [reflexivity|].
  intros H. vm_compute in H. discriminate H.
Qed.

(** C8, amended.  A valid update of the prompt stored under [t] that
    renames it to a title [t'] that was not a key: afterwards nothing is
    stored under [t]; the prompt is stored under [t'] and under no other
    key; its creator and its creation time are those stored before; its
    modification time is the clock reading taken by the update; its
    title and content are the new arguments and its command is the new
    command argument in normalized form (the argument itself when it
    starts with a slash, the argument with a slash put in front
    otherwise).  The renamed entry moves to the end of the iteration
    order, the other entries are untouched, and the file holds the new
    dictionary. *)
Theorem update_prompt_renames_key :
  forall (w : world) (t t' c x : pystr) (p : prompt),
    PyDict.dict_wf (prompts_data w) ->
    PyDict.get t (prompts_data w) = Some p ->
    t <> [] -> t' <> [] -> c <> [] -> x <> [] ->
    t' <> t ->
    PyDict.get t' (prompts_data w) = None ->
    (forall k q, In (k, q) (prompts_data w) ->
                 command q = normalize_command c -> k = t) ->
    let r := update_prompt t t' c x w in
    let p' := mkPrompt t' (normalize_command c) x (creator p) (created p)
                       (clock w (ticks w)) in
    fst (fst r) = py "Prompt '" ++ t' ++ py "' updated successfully!"
    /\ PyDict.get t (prompts_data (snd r)) = None
    /\ PyDict.get t' (prompts_data (snd r)) = Some p'
    /\ (forall k, PyDict.get k (prompts_data (snd r)) = Some p' -> k = t')
    /\ (forall k, k <> t -> k <> t' ->
          PyDict.get k (prompts_data (snd r)) = PyDict.get k (prompts_data w))
    /\ prompts_data (snd r) = PyDict.delitem t (prompts_data w) ++ [(t', p')]
    /\ prompts_file (snd r) = Some (Json.dumps (prompts_data (snd r))).
Proof.
  intros w t t' c x p Hwf Hp Ht Ht' Hc Hx Hne Hnew Hfree r p'.
  pose proof Hfree as Hfree'. apply command_taken_false in Hfree.
  unfold r. rewrite (update_prompt_success t t' c x p w Ht Hp Ht' Hc Hx Hfree).
  assert (Eq : PyStr.eqb t t' = false) by (apply eqb_neq; congruence).
  rewrite Eq. cbn [negb fst snd prompts_data prompts_file].
  rewrite setitem_setitem.
  change (update_fields p t' (normalize_command c) x (clock w (ticks w))) with p'.
  assert (Hget_t : PyDict.get t (PyDict.setitem t' p' (PyDict.delitem t (prompts_data w))) = None).
  { rewrite get_setitem_neq by assumption. apply get_delitem_eq. exact Hwf. }
  assert (Hother : forall k, k <> t -> k <> t' ->
            PyDict.get k (PyDict.setitem t' p' (PyDict.delitem t (prompts_data w)))
            = PyDict.get k (prompts_data w)).
  { intros k Hk Hk'. rewrite get_setitem_neq by congruence.
    apply get_delitem_neq. congruence. }
  repeat split.
  - exact Hget_t.
  - apply get_setitem_eq.
  - intros k Hk.
    destruct (list_eq_dec N.eq_dec k t') as [|Hkt']; [assumption|].
    destruct (list_eq_dec N.eq_dec k t) as [->|Hkt]; [congruence|].
    rewrite Hother in Hk by assumption.
    exfalso. apply Hkt. apply (Hfree' k p'); [apply get_In; exact Hk | reflexivity].
  - exact Hother.
  - apply setitem_absent. intros Hin. apply keys_delitem_incl in Hin.
    apply get_None in Hnew. contradiction.
Qed.

Lemma update_prompt_renames_key_witness :
  let p := mkPrompt (py "a") (py "/old") (py "old text") (py "someone")
                    (py "2023-01-01T00:00:00") (py "2023-06-01T00:00:00") in
  let other := mkPrompt (py "b") (py "/bar") (py "y") current_user
                        (py "2023-01-02T00:00:00") (py "2023-01-02T00:00:00") in
  let w := mkWorld [(py "a", p); (py "b", other)] None 0
                   (fun n => py "2024-01-01T00:00:0" ++ [N.of_nat (48 + n)]) 0 in
  let r := update_prompt (py "a") (py "c") (py "foo") (py "new text") w in
  let p' := mkPrompt (py "c") (py "/foo") (py "new text") (py "someone")
                     (py "2023-01-01T00:00:00") (py "2024-01-01T00:00:00") in
  fst (fst r) = py "Prompt 'c' updated successfully!"
  /\ PyDict.get (py "a") (prompts_data (snd r)) = None
  /\ PyDict.get (py "c") (prompts_data (snd r)) = Some p'
  /\ (forall k, PyDict.get k (prompts_data (snd r)) = Some p' -> k = py "c")
  /\ (forall k, k <> py "a" -> k <> py "c" ->
        PyDict.get k (prompts_data (snd r)) = PyDict.get k (prompts_data w))
  /\ prompts_data (snd r) = [(py "b", other); (py "c", p')]
  /\ prompts_file (snd r) = Some (Json.dumps (prompts_data (snd r))).
Proof.
  intros p other w.
  apply (update_prompt_renames_key w (py "a") (py "c") (py "foo") (py "new text") p);
    try discriminate.
  - repeat constructor; simpl; intuition discriminate.
  - reflexivity.
  - reflexivity.
  - intros k q [[= <- <-]|[[= <- <-]|[]]]; [reflexivity | discriminate].
Defined.

End StoreClaims.

(* ------------------------------------------------------------------ *)
(** ** The JSON codec *)

Module JsonFacts.
Import PyStrFacts PyDictFacts Json.
Local Open Scope N_scope.

Ltac div_lia := zify; Z.to_euclidean_division_equations; lia.

Lemma lor_low (a b n : N) : b < 2 ^ n -> N.lor (a * 2 ^ n) b = a * 2 ^ n + b.
Proof.
  intros Hb.
  assert (Hland : N.land (a * 2 ^ n) b = 0).
  { apply N.bits_inj. intros m. rewrite N.land_spec, N.bits_0.
    destruct (N.ltb_spec m n) as [Hm|Hm].
    - rewrite N.mul_pow2_bits_low by assumption. reflexivity.
    - rewrite <- (N.mod_small b (2 ^ n)) by assumption.
      rewrite N.mod_pow2_bits_high by assumption. apply andb_false_r. }
  rewrite <- N.lxor_lor by assumption. symmetry. apply N.add_nocarry_lxor. assumption.
Qed.

Lemma hex_value_digit d : d < 16 -> hex_value (hex_digit d) = Some d.
Proof.
  intros H. unfold hex_value, hex_digit.
  destruct (N.ltb_spec d 10).
  - replace ((48 <=? 48 + d) && (48 + d <=? 57)) with true.
    + f_equal. lia.
    + symmetry. apply andb_true_iff. split; apply N.leb_le; lia.
  - replace ((48 <=? 87 + d) && (87 + d <=? 57)) with false.
    + replace ((97 <=? 87 + d) && (87 + d <=? 102)) with true.
      * f_equal. lia.
      * symmetry. apply andb_true_iff. split; apply N.leb_le; lia.
    + symmetry. apply andb_false_iff. right. apply N.leb_gt. lia.
Qed.

Lemma hex4_u_escape n : n < 65536 ->
  hex4 (hex_digit (N.shiftr n 12 mod 16)) (hex_digit (N.shiftr n 8 mod 16))
            (hex_digit (N.shiftr n 4 mod 16)) (hex_digit (n mod 16)) = Some n.
Proof.
  intros Hn. unfold hex4.
  rewrite !hex_value_digit by (apply N.mod_lt; discriminate).
  f_equal. rewrite !N.shiftr_div_pow2, !N.shiftl_mul_pow2.
  change (2 ^ 4) with 16. change (2 ^ 12) with 4096. change (2 ^ 8) with 256.
  assert (H16 : forall a b, b < 16 -> N.lor (a * 16) b = a * 16 + b).
  { intros a b Hb. apply (lor_low a b 4). exact Hb. }
  rewrite !H16 by (try (apply N.mod_lt; discriminate)).
  div_lia.
Qed.

Lemma surrogates_roundtrip c : 65536 <= c -> c < 1114112 ->
  let n := c - 65536 in
  let s1 := N.lor 55296 (N.land (N.shiftr n 10) 1023) in
  let s2 := N.lor 56320 (N.land n 1023) in
  s1 < 65536 /\ s2 < 65536 /\
  is_high_surrogate s1 = true /\ is_low_surrogate s2 = true /\
  join_surrogates s1 s2 = c.
Proof.
  intros Hlo Hhi n s1 s2.
  assert (E1 : s1 = 55296 + n / 1024).
  { unfold s1. change 1023 with (N.ones 10). rewrite N.land_ones, N.shiftr_div_pow2.
    change (2 ^ 10) with 1024. rewrite N.mod_small by (unfold n; div_lia).
    change 55296 with (54 * 2 ^ 10). apply lor_low. change (2 ^ 10) with 1024. unfold n; div_lia. }
  assert (E2 : s2 = 56320 + n mod 1024).
  { unfold s2. change 1023 with (N.ones 10). rewrite N.land_ones.
    change (2 ^ 10) with 1024.
    change 56320 with (55 * 2 ^ 10). apply lor_low. change (2 ^ 10) with 1024. div_lia. }
  assert (Hn : n < 1048576) by (unfold n; lia).
  repeat split.
  - rewrite E1. div_lia.
  - rewrite E2. div_lia.
  - unfold is_high_surrogate. apply andb_true_iff. split; apply N.leb_le; rewrite E1; div_lia.
  - unfold is_low_surrogate. apply andb_true_iff. split; apply N.leb_le; rewrite E2; div_lia.
  - unfold join_surrogates. change 1023 with (N.ones 10). rewrite !N.land_ones, N.shiftl_mul_pow2.
    rewrite lor_low by (apply N.mod_lt; discriminate).
    change (2 ^ 10) with 1024. rewrite E1, E2. unfold n. div_lia.
Qed.

Lemma scanstring_u (h1 h2 h3 h4 : codepoint) (s3 : pystr) :
  scanstring (backslash :: letter_u :: h1 :: h2 :: h3 :: h4 :: s3) =
  match hex4 h1 h2 h3 h4 with
  | None => None
  | Some u =>
      if is_high_surrogate u then
        match s3 with
        | b :: l :: l1 :: l2 :: l3 :: l4 :: s4 =>
            if (b =? backslash) && (l =? letter_u) then
              match hex4 l1 l2 l3 l4 with
              | None => None
              | Some u2 =>
                  if is_low_surrogate u2
                  then push (join_surrogates u u2) (scanstring s4)
                  else push u (scanstring s3)
              end
            else push u (scanstring s3)
        | _ => push u (scanstring s3)
        end
      else push u (scanstring s3)
  end.
Proof. reflexivity. Qed.

Lemma escape_char_shape (c : codepoint) :
  c < 1114112 -> escape_shape c (escape_char c).
Proof.
  intros Hc. unfold escape_char.
  destruct (N.eqb_spec c 92) as [->|H92]; [apply (shape_simple _ 92); [discriminate | reflexivity]|].
  destruct (N.eqb_spec c 34) as [->|H34]; [apply (shape_simple _ 34); [discriminate | reflexivity]|].
  destruct (N.eqb_spec c 8) as [->|H8]; [apply (shape_simple _ 98); [discriminate | reflexivity]|].
  destruct (N.eqb_spec c 12) as [->|H12]; [apply (shape_simple _ 102); [discriminate | reflexivity]|].
  destruct (N.eqb_spec c 10) as [->|H10]; [apply (shape_simple _ 110); [discriminate | reflexivity]|].
  destruct (N.eqb_spec c 13) as [->|H13]; [apply (shape_simple _ 114); [discriminate | reflexivity]|].
  destruct (N.eqb_spec c 9) as [->|H9]; [apply (shape_simple _ 116); [discriminate | reflexivity]|].
  destruct ((32 <=? c) && (c <=? 126)) eqn:Hprint.
  { apply andb_true_iff in Hprint. destruct Hprint as [Hlo _]. apply N.leb_le in Hlo.
    apply shape_plain; assumption. }
  destruct (N.ltb_spec c 65536) as [Hbmp|Hastral]; [apply shape_u; assumption|].
  destruct (surrogates_roundtrip c Hastral Hc) as (A & B & C & D & E).
  apply shape_pair; assumption.
Qed.

Lemma scanstring_u_escape (u : N) (t : pystr) :
  u < 65536 ->
  (is_high_surrogate u = true -> no_low_escape t) ->
  scanstring (u_escape u ++ t) = push u (scanstring t).
Proof.
  intros Hu Hnext. unfold u_escape.
  change ([backslash; letter_u; hex_digit (N.shiftr u 12 mod 16);
           hex_digit (N.shiftr u 8 mod 16); hex_digit (N.shiftr u 4 mod 16);
           hex_digit (u mod 16)] ++ t)
    with (backslash :: letter_u :: hex_digit (N.shiftr u 12 mod 16)
            :: hex_digit (N.shiftr u 8 mod 16) :: hex_digit (N.shiftr u 4 mod 16)
            :: hex_digit (u mod 16) :: t).
  rewrite scanstring_u, hex4_u_escape by assumption.
  destruct (is_high_surrogate u) eqn:Hhigh; [|reflexivity].
  specialize (Hnext eq_refl).
  destruct t as [|b [|l [|l1 [|l2 [|l3 [|l4 s4]]]]]]; try reflexivity.
  destruct (N.eqb_spec b backslash) as [->|]; [|reflexivity].
  destruct (N.eqb_spec l letter_u) as [->|]; [|reflexivity].
  destruct (Hnext _ _ _ _ _ eq_refl) as (u2 & -> & ->). reflexivity.
Qed.

Lemma scanstring_pair (s1 s2 : N) (t : pystr) :
  s1 < 65536 -> s2 < 65536 ->
  is_high_surrogate s1 = true -> is_low_surrogate s2 = true ->
  scanstring (u_escape s1 ++ u_escape s2 ++ t) = push (join_surrogates s1 s2) (scanstring t).
Proof.
  intros H1 H2 Hhigh Hlow. unfold u_escape.
  cbn [app]. rewrite scanstring_u, hex4_u_escape by assumption.
  rewrite Hhigh. rewrite !N.eqb_refl. cbn [andb].
  rewrite hex4_u_escape by assumption. rewrite Hlow. reflexivity.
Qed.

Lemma scanstring_escape (c : codepoint) (e t : pystr) :
  escape_shape c e ->
  (is_high_surrogate c = true -> no_low_escape t) ->
  scanstring (e ++ t) = push c (scanstring t).
Proof.
  intros Hshape Hnext. destruct Hshape as [H34 H92 H32|e He Hsimple|Hu|s1 s2 Hc H1 H2 Hh Hl Hj].
  - cbn [app]. cbn [scanstring]. unfold quote, backslash.
    apply N.eqb_neq in H34, H92. rewrite H34, H92.
    replace (c <=? 31) with false; [reflexivity|].
    symmetry. apply N.leb_gt. lia.
  - cbn [app]. cbn [scanstring]. unfold letter_u.
    apply N.eqb_neq in He. change (backslash =? quote) with false.
    change (backslash =? backslash) with true. cbv iota.
    rewrite He, Hsimple. reflexivity.
  - apply scanstring_u_escape; assumption.
  - rewrite <- app_assoc, <- Hj. apply scanstring_pair; assumption.
Qed.

Lemma high_not_low (u : N) : is_high_surrogate u = true -> is_low_surrogate u = false.
Proof.
  unfold is_high_surrogate, is_low_surrogate. intros H.
  apply andb_true_iff in H. destruct H as [_ H]. apply N.leb_le in H.
  apply andb_false_iff. left. apply N.leb_gt. lia.
Qed.

Lemma no_low_escape_encoded (s tail : pystr) :
  forallb valid_codepoint s = true ->
  (forall lo rest, s = lo :: rest -> is_low_surrogate lo = false) ->
  no_low_escape (List.flat_map escape_char s ++ quote :: tail).
Proof.
  intros Hvalid Hhead l1 l2 l3 l4 s4 E.
  destruct s as [|c s]; [discriminate E|].
  simpl in Hvalid. apply andb_true_iff in Hvalid. destruct Hvalid as [Hc _].
  apply N.ltb_lt in Hc. cbn [List.flat_map] in E. rewrite <- app_assoc in E.
  destruct (escape_char_shape c Hc) as [H34 H92 H32|e He Hsimple|Hu|s1 s2 Hc' H1 H2 Hh Hl Hj].
  - injection E as E _. unfold backslash in E. congruence.
  - injection E as E _. unfold letter_u in E. congruence.
  - unfold u_escape in E. injection E as <- <- <- <- _.
    exists c. split; [apply hex4_u_escape; assumption | eapply Hhead; reflexivity].
  - unfold u_escape in E. injection E as <- <- <- <- _.
    exists s1. split; [apply hex4_u_escape; assumption | apply high_not_low; assumption].
Qed.

Lemma scanstring_roundtrip (s tail : pystr) :
  json_safe s = true ->
  scanstring (List.flat_map escape_char s ++ quote :: tail) = Some (s, tail).
Proof.
  unfold json_safe. induction s as [|c s IH]; intros Hsafe.
  - reflexivity.
  - apply andb_true_iff in Hsafe. destruct Hsafe as [Hvalid Hfree].
    cbn [forallb] in Hvalid. apply andb_true_iff in Hvalid. destruct Hvalid as [Hc Hvalid].
    cbn [surrogate_pair_free] in Hfree. apply andb_true_iff in Hfree.
    destruct Hfree as [Hpair Hfree].
    cbn [List.flat_map]. rewrite <- app_assoc.
    rewrite (scanstring_escape c (escape_char c)).
    + rewrite IH; [reflexivity|]. apply andb_true_iff. split; assumption.
    + apply escape_char_shape. apply N.ltb_lt. exact Hc.
    + intros Hhigh. apply no_low_escape_encoded; [assumption|].
      intros lo rest ->. rewrite Hhigh in Hpair. simpl in Hpair.
      apply negb_true_iff in Hpair. exact Hpair.
Qed.

Lemma parse_string_value_roundtrip (s tail : pystr) :
  json_safe s = true ->
  parse_string_value (encode_basestring_ascii s ++ tail) = Some (s, tail).
Proof.
  intros H. unfold encode_basestring_ascii, parse_string_value.
  cbn [app]. change (quote =? quote) with true. cbv iota.
  rewrite <- app_assoc. apply scanstring_roundtrip. exact H.
Qed.

Lemma skip_whitespace_stop (c : codepoint) (s : pystr) :
  is_whitespace c = false -> skip_whitespace (c :: s) = c :: s.
Proof. intros H. simpl. rewrite H. reflexivity. Qed.

Lemma skip_whitespace_indent (level : nat) (s : pystr) :
  skip_whitespace (newline_indent level ++ s) = skip_whitespace s.
Proof.
  unfold newline_indent. cbn [app skip_whitespace].
  change (is_whitespace 10) with true. cbv iota.
  induction (2 * level)%nat as [|n IH]; [reflexivity|]. exact IH.
Qed.

Lemma join_length (sep : pystr) (l : list pystr) :
  Forall (fun p => p <> []) l -> (List.length l <= List.length (join sep l))%nat.
Proof.
  induction l as [|p l IH]; intros H; [simpl; lia|].
  inversion H as [|? ? Hp Hl]; subst.
  destruct l as [|q l].
  - simpl. destruct p; [congruence | simpl; lia].
  - change (join sep (p :: q :: l)) with (p ++ sep ++ join sep (q :: l)).
    rewrite !length_app. specialize (IH Hl).
    destruct p; [congruence|]. simpl in *. lia.
Qed.

Section Objects.
Context {V W : Type}.
Variable enc : nat -> V -> pystr.
Variable pv : pystr -> option (W * pystr).
Variable f : V -> W.
Variable good : V -> Prop.
Hypothesis pv_enc : forall level v tail,
  good v -> pv (enc level v ++ tail) = Some (f v, tail).
Hypothesis enc_head : forall level v tail,
  skip_whitespace (enc level v ++ tail) = enc level v ++ tail.

Local Abbreviation enc_member := (Json.enc_member enc).
Local Abbreviation good_member := (Json.good_member good).
Local Abbreviation parsed := (Json.parsed f).
Local Abbreviation parse_object_value := (Json.parse_object_value pv).

Lemma parse_members_step (turns level : nat) (rval : PyDict.dict W)
    (kv : pystr * V) (tail : pystr) :
  good_member kv ->
  parse_members pv (S turns) rval (enc_member level kv ++ tail) =
  match skip_whitespace tail with
  | c3 :: s5 =>
      if c3 =? 125 then Some (PyDict.setitem (fst kv) (f (snd kv)) rval, s5)
      else if c3 =? 44 then
        parse_members pv turns (PyDict.setitem (fst kv) (f (snd kv)) rval)
                      (skip_whitespace s5)
      else None
  | [] => None
  end.
Proof.
  intros [Hk Hv]. unfold Json.enc_member, encode_basestring_ascii.
  rewrite <- !app_assoc. cbn [app parse_members].
  change (quote =? quote) with true. cbv iota.
  rewrite <- app_assoc.
  change ([quote] ++ py ": " ++ enc level (snd kv) ++ tail)
    with (quote :: (py ": " ++ enc level (snd kv) ++ tail)).
  rewrite scanstring_roundtrip by assumption.
  change (py ": " ++ enc level (snd kv) ++ tail)
    with (58 :: 32 :: (enc level (snd kv) ++ tail)).
  rewrite skip_whitespace_stop by reflexivity.
  change (58 =? 58) with true. cbv iota.
  change (skip_whitespace (32 :: enc level (snd kv) ++ tail))
    with (skip_whitespace (enc level (snd kv) ++ tail)).
  rewrite enc_head, pv_enc by assumption. reflexivity.
Qed.

Lemma enc_member_nonempty (level : nat) (kv : pystr * V) : enc_member level kv <> [].
Proof. unfold Json.enc_member, encode_basestring_ascii. discriminate. Qed.

Lemma enc_member_head (level : nat) (kv : pystr * V) (tail : pystr) :
  skip_whitespace (enc_member level kv ++ tail) = enc_member level kv ++ tail.
Proof. unfold Json.enc_member, encode_basestring_ascii. reflexivity. Qed.

Lemma join_members_head (level : nat) (sep : pystr) (ms : list (pystr * V)) (tail : pystr) :
  ms <> [] ->
  skip_whitespace (join sep (List.map (enc_member level) ms) ++ tail)
  = join sep (List.map (enc_member level) ms) ++ tail.
Proof.
  destruct ms as [|m [|m2 ms]]; intros H; [congruence| |].
  - simpl. apply enc_member_head.
  - change (join sep (List.map (enc_member level) (m :: m2 :: ms)))
      with (enc_member level m ++ sep ++ join sep (List.map (enc_member level) (m2 :: ms))).
    rewrite <- app_assoc. apply enc_member_head.
Qed.

Lemma parse_members_encoded (level closing : nat) (ms : list (pystr * V)) :
  Forall good_member ms -> ms <> [] ->
  forall (turns : nat) (rval : PyDict.dict W) (rest : pystr),
    (List.length ms <= turns)%nat ->
    parse_members pv turns rval
      (join (py "," ++ newline_indent level) (List.map (enc_member level) ms)
         ++ newline_indent closing ++ py "}" ++ rest)
    = Some (parsed rval ms, rest).
Proof.
  induction ms as [|m ms IH]; intros Hgood Hne turns rval rest Hturns; [congruence|].
  inversion Hgood as [|? ? Hm Hms]; subst.
  destruct turns as [|turns]; [simpl in Hturns; lia|].
  destruct ms as [|m2 ms].
  - cbn [List.map join]. rewrite parse_members_step by assumption.
    rewrite skip_whitespace_indent.
    change (py "}" ++ rest) with (125 :: rest).
    rewrite skip_whitespace_stop by reflexivity. reflexivity.
  - change (join (py "," ++ newline_indent level)
              (List.map (enc_member level) (m :: m2 :: ms)))
      with (enc_member level m ++ (py "," ++ newline_indent level)
              ++ join (py "," ++ newline_indent level)
                   (List.map (enc_member level) (m2 :: ms))).
    rewrite <- !app_assoc. rewrite parse_members_step by assumption.
    change (py "," ++ newline_indent level ++ ?x) with (44 :: (newline_indent level ++ x)).
    cbn [app]. change (py ",") with [44]. cbn [app].
    rewrite skip_whitespace_stop by reflexivity.
    change (44 =? 125) with false. change (44 =? 44) with true. cbv iota.
    rewrite skip_whitespace_indent.
    rewrite join_members_head by discriminate.
    change (parsed rval (m :: m2 :: ms))
      with (parsed (PyDict.setitem (fst m) (f (snd m)) rval) (m2 :: ms)).
    apply IH; [assumption | discriminate | simpl in *; lia].
Qed.

Lemma join_members_quote (level : nat) (sep : pystr) (ms : list (pystr * V)) (tail : pystr) :
  ms <> [] ->
  exists y, join sep (List.map (enc_member level) ms) ++ tail = quote :: y.
Proof.
  destruct ms as [|m [|m2 ms]]; intros H; [congruence| |].
  - simpl. unfold Json.enc_member, encode_basestring_ascii. eexists. reflexivity.
  - change (join sep (List.map (enc_member level) (m :: m2 :: ms)))
      with (enc_member level m ++ sep ++ join sep (List.map (enc_member level) (m2 :: ms))).
    unfold Json.enc_member at 1, encode_basestring_ascii. eexists. reflexivity.
Qed.

Lemma parse_object_value_encoded (level : nat) (dct : PyDict.dict V) (rest : pystr) :
  Forall good_member dct ->
  parse_object_value (encode_dict enc level dct ++ rest) = Some (parsed [] dct, rest).
Proof.
  intros Hgood. destruct dct as [|m ms]; [reflexivity|].
  unfold encode_dict, PyDict.items.
  set (body := join (py "," ++ newline_indent (S level))
                 (List.map (enc_member (S level)) (m :: ms))).
  rewrite <- !app_assoc.
  change (py "{" ++ ?x) with (123 :: x). cbn [app Json.parse_object_value].
  change (py "{" ++ newline_indent (S level) ++ body ++ newline_indent level ++ py "}" ++ rest)
    with (123 :: (newline_indent (S level) ++ body ++ newline_indent level ++ py "}" ++ rest)).
  cbn [Json.parse_object_value]. change (123 =? 123) with true. cbv iota.
  unfold parse_object. rewrite skip_whitespace_indent.
  unfold body at 1. rewrite join_members_head by discriminate. fold body.
  destruct (join_members_quote (S level) (py "," ++ newline_indent (S level)) (m :: ms)
              (newline_indent level ++ py "}" ++ rest)) as (y & Hy); [discriminate|].
  fold body in Hy. rewrite Hy. change (quote =? 125) with false. cbv iota.
  rewrite <- Hy. unfold body. apply parse_members_encoded; [assumption | discriminate |].
  rewrite !length_app.
  pose proof (join_length (py "," ++ newline_indent (S level))
                (List.map (enc_member (S level)) (m :: ms))) as Hlen.
  rewrite length_map in Hlen.
  assert (Hne : Forall (fun p => p <> []) (List.map (enc_member (S level)) (m :: ms))).
  { apply Forall_forall. intros p Hp. apply in_map_iff in Hp.
    destruct Hp as (kv & <- & _). apply enc_member_nonempty. }
  specialize (Hlen Hne). lia.
Qed.

Lemma parsed_fresh (ms : list (pystr * V)) (rval : PyDict.dict W) :
  NoDup (PyDict.keys rval ++ List.map fst ms) ->
  parsed rval ms = rval ++ List.map (fun kv => (fst kv, f (snd kv))) ms.
Proof.
  revert rval. induction ms as [|m ms IH]; intros rval Hnd.
  - simpl. rewrite app_nil_r. reflexivity.
  - unfold Json.parsed. cbn [fold_left]. fold (parsed (PyDict.setitem (fst m) (f (snd m)) rval) ms).
    assert (Hfresh : ~ In (fst m) (PyDict.keys rval)).
    { cbn [List.map] in Hnd. apply NoDup_remove_2 in Hnd.
      intros Hin. apply Hnd. apply in_or_app. left. exact Hin. }
    rewrite setitem_absent by assumption.
    rewrite IH.
    + rewrite <- app_assoc. reflexivity.
    + unfold PyDict.keys in *. rewrite map_app. cbn [List.map fst].
      rewrite <- app_assoc. exact Hnd.
Qed.

End Objects.

Lemma parse_fields_value_roundtrip (level : nat) (p : prompt) (tail : pystr) :
  prompt_json_safe p = true ->
  parse_fields_value (encode_fields level p ++ tail) = Some (prompt_fields p, tail).
Proof.
  intros Hsafe. unfold prompt_json_safe in Hsafe.
  do 5 (apply andb_true_iff in Hsafe; destruct Hsafe as [Hsafe ?]).
  unfold parse_fields_value.
  unfold encode_fields.
  rewrite (parse_object_value_encoded (fun _ s => encode_basestring_ascii s)
             parse_string_value (fun s => s) (fun s => json_safe s = true)).
  - reflexivity.
  - intros _ v t Hv. apply parse_string_value_roundtrip. exact Hv.
  - intros _ v t. reflexivity.
  - unfold prompt_fields.
    repeat (constructor; [split; [reflexivity | assumption]|]). constructor.
Qed.

Lemma store_of_document_fields (d : store) :
  store_of_document (List.map (fun kv => (fst kv, prompt_fields (snd kv))) d) = Some d.
Proof.
  induction d as [|[k p] d IH]; [reflexivity|].
  cbn [List.map store_of_document fst snd]. rewrite IH.
  destruct p; reflexivity.
Qed.

Lemma loads_dumps (d : store) :
  PyDict.dict_wf d -> store_json_safe d = true ->
  loads (dumps d) = Some d.
Proof.
  intros Hwf Hsafe.
  assert (Hparse : parse_object_value parse_fields_value (dumps d ++ [])
                   = Some (List.map (fun kv => (fst kv, prompt_fields (snd kv))) d, [])).
  { unfold dumps.
    rewrite (parse_object_value_encoded encode_fields parse_fields_value prompt_fields
               (fun p => prompt_json_safe p = true)).
    - rewrite parsed_fresh; [reflexivity|]. exact Hwf.
    - intros level p t Hp. apply parse_fields_value_roundtrip. exact Hp.
    - intros level p t. reflexivity.
    - unfold store_json_safe in Hsafe. rewrite forallb_forall in Hsafe.
      apply Forall_forall. intros kv Hin. specialize (Hsafe kv Hin).
      apply andb_true_iff in Hsafe. exact Hsafe. }
  rewrite app_nil_r in Hparse. unfold loads.
  assert (Hhead : skip_whitespace (dumps d) = dumps d).
  { unfold dumps, encode_dict. destruct d; reflexivity. }
  rewrite Hhead, Hparse. cbn [skip_whitespace]. apply store_of_document_fields.
Qed.

End JsonFacts.

(* ------------------------------------------------------------------ *)
(** ** Persistence *)

Module PersistenceFacts.
Import PyStrFacts PyDictFacts StoreFacts JsonFacts Json.

Lemma save_setup_roundtrip (w : world) :
  PyDict.dict_wf (prompts_data w) ->
  store_json_safe (prompts_data w) = true ->
  prompts_data (snd (setup (snd (save_prompts w)))) = prompts_data w.
Proof.
  intros Hwf Hsafe. unfold setup, save_prompts, bind, read_prompts_data, write_file, read_file.
  cbn [fst snd prompts_file]. rewrite loads_dumps by assumption. reflexivity.
Qed.

Lemma json_safe_cons (c : codepoint) (s : pystr) :
  valid_codepoint c = true -> is_high_surrogate c = false ->
  json_safe s = true -> json_safe (c :: s) = true.
Proof.
  unfold json_safe. intros Hc Hhigh Hs.
  apply andb_true_iff in Hs. destruct Hs as [Hv Hf].
  cbn [forallb surrogate_pair_free]. rewrite Hc, Hv, Hf, Hhigh.
  destruct s; reflexivity.
Qed.

Lemma json_safe_normalize (c : pystr) :
  json_safe c = true -> json_safe (normalize_command c) = true.
Proof.
  intros H. unfold normalize_command. destruct (startswith c (py "/")); [exact H|].
  change (py "/" ++ c) with (47%N :: c). apply json_safe_cons; auto.
Qed.

Lemma store_json_safe_setitem (k : pystr) (v : prompt) (d : store) :
  store_json_safe d = true -> json_safe k = true -> prompt_json_safe v = true ->
  store_json_safe (PyDict.setitem k v d) = true.
Proof.
  unfold store_json_safe. intros Hd Hk Hv. rewrite forallb_forall in *.
  intros kv Hin. apply In_setitem in Hin. destruct Hin as [->|Hin]; [|auto].
  cbn [fst snd]. rewrite Hk, Hv. reflexivity.
Qed.

Lemma store_json_safe_delitem (k : pystr) (d : store) :
  store_json_safe d = true -> store_json_safe (PyDict.delitem k d) = true.
Proof.
  unfold store_json_safe. intros Hd. rewrite forallb_forall in *.
  intros kv Hin. apply Hd. eapply In_delitem; eauto.
Qed.

Lemma store_json_safe_get (k : pystr) (p : prompt) (d : store) :
  store_json_safe d = true -> PyDict.get k d = Some p -> prompt_json_safe p = true.
Proof.
  unfold store_json_safe. intros Hd Hget. rewrite forallb_forall in Hd.
  apply get_In in Hget. specialize (Hd _ Hget). cbn [fst snd] in Hd.
  apply andb_true_iff in Hd. tauto.
Qed.

Lemma prompt_json_safe_intro (t c x u cr m : pystr) :
  json_safe t = true -> json_safe c = true -> json_safe x = true ->
  json_safe u = true -> json_safe cr = true -> json_safe m = true ->
  prompt_json_safe (mkPrompt t c x u cr m) = true.
Proof.
  intros Ht Hc Hx Hu Hcr Hm. unfold prompt_json_safe. cbn.
  rewrite Ht, Hc, Hx, Hu, Hcr, Hm. reflexivity.
Qed.

Lemma run_operation_json_safe (o : operation) (w : world) :
  operation_json_safe o = true ->
  world_json_safe w -> world_json_safe (snd (run_operation o w)).
Proof.
  intros Ho (Hwf & Hsafe & Hclock). destruct o as [t c x|s t c x|s]; simpl in Ho |- *.
  - apply andb_true_iff in Ho. destruct Ho as [Ho Hx].
    apply andb_true_iff in Ho. destruct Ho as [Ht Hc].
    unfold create_prompt.
    destruct (negb (truthy t) || negb (truthy c) || negb (truthy x));
      [repeat split; assumption|].
    cbv [bind read_prompts_data]. cbv beta iota.
    destruct (command_taken (normalize_command c) t (prompts_data w));
      [repeat split; assumption|].
    cbn. repeat split; [apply wf_setitem; assumption | | assumption].
    apply store_json_safe_setitem; [assumption | assumption |].
    apply prompt_json_safe_intro; auto using json_safe_normalize.
  - do 3 (apply andb_true_iff in Ho; destruct Ho as [Ho ?]).
    unfold update_prompt. cbv [bind read_prompts_data]. cbv beta iota.
    destruct (if truthy s then PyDict.get s (prompts_data w) else None) as [sel|] eqn:Hsel;
      [|repeat split; assumption].
    assert (Hselsafe : prompt_json_safe sel = true).
    { destruct (truthy s); [|discriminate].
      eapply store_json_safe_get; eauto. }
    destruct (negb (truthy t) || negb (truthy c) || negb (truthy x));
      [repeat split; assumption|].
    destruct (command_taken (normalize_command c) s (prompts_data w));
      [repeat split; assumption|].
    assert (Hnew : prompt_json_safe
              (update_fields sel t (normalize_command c) x (clock w (ticks w))) = true).
    { unfold prompt_json_safe in Hselsafe.
      do 5 (apply andb_true_iff in Hselsafe; destruct Hselsafe as [Hselsafe ?]).
      apply prompt_json_safe_intro; auto using json_safe_normalize. }
    cbn. destruct (PyStr.eqb s t); cbn.
    + repeat split; [apply wf_setitem; assumption | | assumption].
      apply store_json_safe_setitem; assumption.
    + repeat split; [apply wf_setitem, wf_setitem, wf_delitem; assumption | | assumption].
      apply store_json_safe_setitem; [|assumption|assumption].
      apply store_json_safe_setitem; [|assumption|assumption].
      apply store_json_safe_delitem; assumption.
  - unfold delete_prompt. cbv [bind read_prompts_data]. cbv beta iota.
    destruct (negb (truthy s) || negb (PyDict.mem s (prompts_data w)));
      [repeat split; assumption|].
    cbn. repeat split; [apply wf_delitem; assumption | | assumption].
    apply store_json_safe_delitem; assumption.
Qed.

Lemma run_operations_json_safe (ops : list operation) :
  forall w, forallb operation_json_safe ops = true ->
  world_json_safe w -> world_json_safe (run_operations ops w).
Proof.
  induction ops as [|o ops IH]; intros w Hops Hw; [exact Hw|].
  cbn [forallb] in Hops. apply andb_true_iff in Hops. destruct Hops as [Ho Hops].
  cbn [run_operations]. apply IH; [assumption|].
  apply run_operation_json_safe; assumption.
Qed.

End PersistenceFacts.

(* ================================================================== *)
(** * Persistence round trip *)

Section PersistenceClaims.
Import PersistenceFacts Json.

(** C9, as written, fails.  The content made of the two code points
    U+D83D and U+DE00 is a Python string; [json.dump] writes it as two
    [\u] escapes and [json.load] reads the two escapes back as the one
    code point U+1F600.  The dictionary produced by creating a prompt
    with that content is therefore not the one found after saving and
    loading. *)
Lemma save_then_setup_counterexample :
  let w0 := mkWorld [] None 0 (fun _ => py "2024-01-01T00:00:00") 0 in
  let w := run_operations [Create (py "t") (py "/c") [55357; 56832]%N] w0 in
  option_map content (PyDict.get (py "t") (prompts_data w)) = Some [55357; 56832]%N
  /\ option_map content
       (PyDict.get (py "t") (prompts_data (snd (setup (snd (save_prompts w))))))
     = Some [128512%N]
  /\ prompts_data (snd (setup (snd (save_prompts w)))) <> prompts_data w.
Proof.
  cbv zeta. split; [reflexivity|]. split; [vm_compute; reflexivity|].
  intros H. vm_compute in H. discriminate H.
Qed.

(** C9, amended.  Start from a dictionary and a clock whose strings hold
    valid code points and no high surrogate immediately followed by a
    low surrogate, and run any sequence of create, update and delete
    calls whose arguments are such strings.  Saving the resulting
    dictionary and loading it again yields that same dictionary: the
    same titles in the same order and, under each, the same title,
    command, content, creator and timestamps. *)
Theorem save_then_setup_roundtrip :
  forall (ops : list operation) (w0 : world),
    PyDict.dict_wf (prompts_data w0) ->
    store_json_safe (prompts_data w0) = true ->
    (forall n, json_safe (clock w0 n) = true) ->
    forallb operation_json_safe ops = true ->
    let w := run_operations ops w0 in
    prompts_data (snd (setup (snd (save_prompts w)))) = prompts_data w.
Proof.
  intros ops w0 Hwf Hsafe Hclock Hops w.
  destruct (run_operations_json_safe ops w0 Hops) as (Hwf' & Hsafe' & _).
  { repeat split; assumption. }
  apply save_setup_roundtrip; assumption.
Qed.

Lemma save_then_setup_roundtrip_witness :
  let w0 := mkWorld [] None 0 (fun _ => py "2024-01-01T00:00:00") 0 in
  let ops := [Create (py "greeting") (py "foo") [72; 105; 10; 233; 128512; 55357; 34]%N;
              Create (py "other") (py "/bar") (py "{input}");
              Update (py "greeting") (py "hello") (py "foo") (py "Hi {input}")] in
  let w := run_operations ops w0 in
  prompts_data (snd (setup (snd (save_prompts w)))) = prompts_data w.
Proof.
  intros w0 ops.
  apply (save_then_setup_roundtrip ops w0).
  - constructor.
  - reflexivity.
  - intros n. reflexivity.
  - reflexivity.
Defined.

End PersistenceClaims.

(* ================================================================== *)
(** * Further properties of the management calls *)

Module ManagementFacts.
Import PyStrFacts PyDictFacts StoreFacts.

Lemma delete_prompt_missing (s : pystr) (w : world) :
  s = [] \/ PyDict.get s (prompts_data w) = None ->
  delete_prompt s w =
  ((py "Error: Please select a prompt to delete", PyDict.keys (prompts_data w)), w).
Proof.
  intros H. unfold delete_prompt. cbv [bind read_prompts_data]. cbv beta iota.
  assert (E : negb (truthy s) || negb (PyDict.mem s (prompts_data w)) = true).
  { destruct H as [-> | H]; [reflexivity|].
    unfold PyDict.mem. rewrite H. apply orb_true_r. }
  rewrite E. reflexivity.
Qed.

Lemma delete_prompt_success (s : pystr) (p : prompt) (w : world) :
  s <> [] -> PyDict.get s (prompts_data w) = Some p ->
  let d' := PyDict.delitem s (prompts_data w) in
  delete_prompt s w =
  ((py "Prompt '" ++ s ++ py "' deleted successfully!", PyDict.keys d'),
   mkWorld d' (Some (Json.dumps d')) (S (writes w)) (clock w) (ticks w)).
Proof.
  intros Hs Hp. unfold delete_prompt. cbv [bind read_prompts_data]. cbv beta iota.
  apply truthy_true in Hs. unfold PyDict.mem. rewrite Hs, Hp. reflexivity.
Qed.

Lemma update_prompt_missing (s t c x : pystr) (w : world) :
  s = [] \/ PyDict.get s (prompts_data w) = None ->
  update_prompt s t c x w =
  ((py "Error: Please select a prompt to update", PyDict.keys (prompts_data w)), w).
Proof.
  intros H. unfold update_prompt. cbv [bind read_prompts_data]. cbv beta iota.
  assert (E : (if truthy s then PyDict.get s (prompts_data w) else None) = None).
  { destruct H as [-> | H]; [reflexivity|]. rewrite H. destruct (truthy s); reflexivity. }
  rewrite E. reflexivity.
Qed.

Lemma update_prompt_empty_field (s t c x : pystr) (p : prompt) (w : world) :
  s <> [] -> PyDict.get s (prompts_data w) = Some p ->
  t = [] \/ c = [] \/ x = [] ->
  update_prompt s t c x w =
  ((py "Error: All fields are required", PyDict.keys (prompts_data w)), w).
Proof.
  intros Hs Hp H. unfold update_prompt. cbv [bind read_prompts_data]. cbv beta iota.
  apply truthy_true in Hs. rewrite Hs, Hp.
  assert (E : negb (truthy t) || negb (truthy c) || negb (truthy x) = true).
  { destruct H as [-> | [-> | ->]]; simpl; rewrite ?orb_true_r; reflexivity. }
  rewrite E. reflexivity.
Qed.

Lemma update_prompt_duplicate (s t c x : pystr) (p : prompt) (w : world) :
  s <> [] -> PyDict.get s (prompts_data w) = Some p ->
  t <> [] -> c <> [] -> x <> [] ->
  command_taken (normalize_command c) s (prompts_data w) = true ->
  update_prompt s t c x w =
  ((py "Error: Command " ++ normalize_command c ++ py " already exists",
    PyDict.keys (prompts_data w)), w).
Proof.
  intros Hs Hp Ht Hc Hx Htaken. unfold update_prompt.
  cbv [bind read_prompts_data]. cbv beta iota.
  apply truthy_true in Hs, Ht, Hc, Hx. rewrite Hs, Hp, Ht, Hc, Hx.
  change (negb true || negb true || negb true) with false.
  cbv beta iota. rewrite Htaken. reflexivity.
Qed.

Lemma keys_delitem (k : pystr) (d : store) :
  PyDict.dict_wf d ->
  PyDict.keys (PyDict.delitem k d)
  = List.filter (fun k' => negb (PyStr.eqb k' k)) (PyDict.keys d).
Proof.
  unfold PyDict.dict_wf.
  induction d as [|[k0 v0] d IH]; intros Hwf; [reflexivity|].
  simpl in Hwf. inversion Hwf as [|? ? Hk0 Hwf']; subst.
  simpl. destruct (PyStr.eqb k0 k) eqn:E; simpl.
  - apply eqb_eq in E. subst k0.
    symmetry. apply forallb_filter_id. apply forallb_forall. intros k' Hk'.
    apply negb_true_iff, eqb_neq. intros ->. contradiction.
  - f_equal. apply IH. exact Hwf'.
Qed.

Lemma length_delitem (k : pystr) (p : prompt) (d : store) :
  PyDict.get k d = Some p ->
  List.length d = S (List.length (PyDict.delitem k d)).
Proof.
  induction d as [|[k0 v0] d IH]; simpl; [discriminate|].
  destruct (PyStr.eqb k0 k); simpl; [reflexivity|].
  intros H. rewrite (IH H). reflexivity.
Qed.

Lemma length_setitem_present (k : pystr) (v : prompt) (d : store) :
  In k (PyDict.keys d) -> List.length (PyDict.setitem k v d) = List.length d.
Proof.
  intros H. rewrite <- (length_map fst (PyDict.setitem k v d)), <- (length_map fst d).
  change (List.map fst (PyDict.setitem k v d)) with (PyDict.keys (PyDict.setitem k v d)).
  rewrite keys_setitem_present by assumption. reflexivity.
Qed.

Lemma delitem_absent (k : pystr) (d : store) :
  ~ In k (PyDict.keys d) -> PyDict.delitem k d = d.
Proof.
  induction d as [|[k0 v0] d IH]; simpl; [reflexivity|].
  intros H. destruct (PyStr.eqb k0 k) eqn:E.
  - apply eqb_eq in E. tauto.
  - f_equal. apply IH. tauto.
Qed.

Lemma delitem_app_last (k : pystr) (v : prompt) (d : store) :
  ~ In k (PyDict.keys d) -> PyDict.delitem k (d ++ [(k, v)]) = d.
Proof.
  induction d as [|[k0 v0] d IH]; simpl.
  - rewrite eqb_refl. reflexivity.
  - intros H. destruct (PyStr.eqb k0 k) eqn:E.
    + apply eqb_eq in E. tauto.
    + f_equal. apply IH. tauto.
Qed.

End ManagementFacts.

Section ManagementCoverage.
Import PyStrFacts PyDictFacts StoreFacts ManagementFacts.

(** X1.  Deleting with no selection, or with a title that is not a key,
    reports that a prompt must be selected and changes nothing. *)
Theorem delete_prompt_unknown_title :
  forall (s : pystr) (w : world),
    s = [] \/ PyDict.get s (prompts_data w) = None ->
    fst (fst (delete_prompt s w)) = py "Error: Please select a prompt to delete"
    /\ snd (fst (delete_prompt s w)) = PyDict.keys (prompts_data w)
    /\ snd (delete_prompt s w) = w.
Proof.
  intros s w H. rewrite (delete_prompt_missing s w H). repeat split.
Qed.

Lemma delete_prompt_unknown_title_witness :
  let p := mkPrompt (py "a") (py "/foo") (py "x") current_user (py "t0") (py "t1") in
  let w := mkWorld [(py "a", p)] (Some (Json.dumps [(py "a", p)])) 1 (fun _ => py "t2") 2 in
  fst (fst (delete_prompt (py "b") w)) = py "Error: Please select a prompt to delete"
  /\ snd (fst (delete_prompt (py "b") w)) = PyDict.keys (prompts_data w)
  /\ snd (delete_prompt (py "b") w) = w.
Proof.
  intros p w. apply (delete_prompt_unknown_title (py "b") w). right. reflexivity.
Defined.

(** X2.  Deleting a stored title removes that entry and nothing else:
    the title is no longer a key, every other title keeps its prompt
    and its place in the iteration order, the list returned is the new
    list of titles, and the file is written once with the new
    dictionary. *)
Theorem delete_prompt_removes_entry :
  forall (s : pystr) (p : prompt) (w : world),
    PyDict.dict_wf (prompts_data w) ->
    s <> [] ->
    PyDict.get s (prompts_data w) = Some p ->
    let r := delete_prompt s w in
    fst (fst r) = py "Prompt '" ++ s ++ py "' deleted successfully!"
    /\ PyDict.get s (prompts_data (snd r)) = None
    /\ (forall k, k <> s ->
          PyDict.get k (prompts_data (snd r)) = PyDict.get k (prompts_data w))
    /\ PyDict.keys (prompts_data (snd r))
       = List.filter (fun k => negb (PyStr.eqb k s)) (PyDict.keys (prompts_data w))
    /\ snd (fst r) = PyDict.keys (prompts_data (snd r))
    /\ prompts_file (snd r) = Some (Json.dumps (prompts_data (snd r)))
    /\ writes (snd r) = S (writes w).
Proof.
  intros s p w Hwf Hs Hp r. unfold r.
  rewrite (delete_prompt_success s p w Hs Hp).
  cbn [fst snd prompts_data prompts_file writes]. repeat split.
  - apply get_delitem_eq. exact Hwf.
  - intros k Hk. apply get_delitem_neq. congruence.
  - apply keys_delitem. exact Hwf.
Qed.

Lemma delete_prompt_removes_entry_witness :
  let a := mkPrompt (py "a") (py "/foo") (py "x") current_user (py "t0") (py "t0") in
  let b := mkPrompt (py "b") (py "/bar") (py "y") current_user (py "t1") (py "t1") in
  let c := mkPrompt (py "c") (py "/baz") (py "z") current_user (py "t2") (py "t2") in
  let w := mkWorld [(py "a", a); (py "b", b); (py "c", c)] None 0 (fun _ => py "t3") 0 in
  let r := delete_prompt (py "b") w in
  fst (fst r) = py "Prompt 'b' deleted successfully!"
  /\ PyDict.get (py "b") (prompts_data (snd r)) = None
  /\ (forall k, k <> py "b" ->
        PyDict.get k (prompts_data (snd r)) = PyDict.get k (prompts_data w))
  /\ PyDict.keys (prompts_data (snd r)) = [py "a"; py "c"]
  /\ snd (fst r) = PyDict.keys (prompts_data (snd r))
  /\ prompts_file (snd r) = Some (Json.dumps (prompts_data (snd r)))
  /\ writes (snd r) = 1.
Proof.
  intros a b c w.
  apply (delete_prompt_removes_entry (py "b") b w).
  - repeat constructor; simpl; intuition discriminate.
  - discriminate.
  - reflexivity.
Defined.

(** X3.  An update whose selection is empty or is not a key reports that
    a prompt must be selected and changes nothing; this check comes
    first, so it is the answer also when the new fields are empty or
    the command is taken. *)
Theorem update_prompt_unknown_selection :
  forall (s t c x : pystr) (w : world),
    s = [] \/ PyDict.get s (prompts_data w) = None ->
    fst (fst (update_prompt s t c x w)) = py "Error: Please select a prompt to update"
    /\ snd (fst (update_prompt s t c x w)) = PyDict.keys (prompts_data w)
    /\ snd (update_prompt s t c x w) = w.
Proof.
  intros s t c x w H. rewrite (update_prompt_missing s t c x w H). repeat split.
Qed.

Lemma update_prompt_unknown_selection_witness :
  let p := mkPrompt (py "a") (py "/foo") (py "x") current_user (py "t0") (py "t1") in
  let w := mkWorld [(py "a", p)] None 0 (fun _ => py "t2") 0 in
  fst (fst (update_prompt (py "b") [] (py "/foo") [] w))
  = py "Error: Please select a prompt to update"
  /\ snd (fst (update_prompt (py "b") [] (py "/foo") [] w)) = PyDict.keys (prompts_data w)
  /\ snd (update_prompt (py "b") [] (py "/foo") [] w) = w.
Proof.
  intros p w. apply (update_prompt_unknown_selection (py "b") [] (py "/foo") [] w).
  right. reflexivity.
Defined.

(** X4.  An update of a stored prompt with an empty new title, command
    or content reports that all fields are required and changes
    nothing. *)
Theorem update_prompt_requires_all_fields :
  forall (s t c x : pystr) (p : prompt) (w : world),
    s <> [] -> PyDict.get s (prompts_data w) = Some p ->
    t = [] \/ c = [] \/ x = [] ->
    ValidationError (fst (fst (update_prompt s t c x w)))
    /\ snd (fst (update_prompt s t c x w)) = PyDict.keys (prompts_data w)
    /\ snd (update_prompt s t c x w) = w.
Proof.
  intros s t c x p w Hs Hp H.
  rewrite (update_prompt_empty_field s t c x p w Hs Hp H). repeat split.
Qed.

Lemma update_prompt_requires_all_fields_witness :
  let p := mkPrompt (py "a") (py "/foo") (py "x") current_user (py "t0") (py "t1") in
  let w := mkWorld [(py "a", p)] None 0 (fun _ => py "t2") 0 in
  ValidationError (fst (fst (update_prompt (py "a") (py "a") (py "/foo") [] w)))
  /\ snd (fst (update_prompt (py "a") (py "a") (py "/foo") [] w))
     = PyDict.keys (prompts_data w)
  /\ snd (update_prompt (py "a") (py "a") (py "/foo") [] w) = w.
Proof.
  intros p w.
  apply (update_prompt_requires_all_fields (py "a") (py "a") (py "/foo") [] p w).
  - discriminate.
  - reflexivity.
  - right. right. reflexivity.
Defined.

(** X5.  An update that gives a stored prompt a command which, once
    normalized, is the command of a prompt stored under another title
    reports that the command already exists and changes nothing. *)
Theorem update_prompt_rejects_duplicate_command :
  forall (s t c x k : pystr) (p q : prompt) (w : world),
    s <> [] -> PyDict.get s (prompts_data w) = Some p ->
    t <> [] -> c <> [] -> x <> [] ->
    k <> s -> PyDict.get k (prompts_data w) = Some q ->
    command q = normalize_command c ->
    DuplicateCommandError (normalize_command c) (fst (fst (update_prompt s t c x w)))
    /\ snd (fst (update_prompt s t c x w)) = PyDict.keys (prompts_data w)
    /\ snd (update_prompt s t c x w) = w.
Proof.
  intros s t c x k p q w Hs Hp Ht Hc Hx Hk Hq Hcmd.
  assert (Htaken : command_taken (normalize_command c) s (prompts_data w) = true).
  { apply command_taken_true. exists k, q. repeat split; auto. apply get_In. exact Hq. }
  rewrite (update_prompt_duplicate s t c x p w Hs Hp Ht Hc Hx Htaken). repeat split.
Qed.

Lemma update_prompt_rejects_duplicate_command_witness :
  let a := mkPrompt (py "a") (py "/foo") (py "x") current_user (py "t0") (py "t0") in
  let b := mkPrompt (py "b") (py "/bar") (py "y") current_user (py "t1") (py "t1") in
  let w := mkWorld [(py "a", a); (py "b", b)] None 0 (fun _ => py "t3") 0 in
  let r := update_prompt (py "a") (py "a") (py "bar") (py "x") w in
  DuplicateCommandError (normalize_command (py "bar")) (fst (fst r))
  /\ snd (fst r) = PyDict.keys (prompts_data w)
  /\ snd r = w.
Proof.
  intros a b w.
  apply (update_prompt_rejects_duplicate_command
           (py "a") (py "a") (py "bar") (py "x") (py "b") a b w);
    try discriminate; reflexivity.
Defined.

(** X6.  A valid update that keeps the title rewrites the entry where it
    stands: the list of titles and their order are unchanged, the
    prompts under the other titles are untouched, and the entry holds
    the new content, the new command in normalized form, the creator
    and creation time it had, and the clock reading as modification
    time.  The prompt's own command is no obstacle: only commands held
    under other titles are refused. *)
Theorem update_prompt_in_place :
  forall (s c x : pystr) (p : prompt) (w : world),
    s <> [] -> PyDict.get s (prompts_data w) = Some p ->
    c <> [] -> x <> [] ->
    (forall k q, In (k, q) (prompts_data w) ->
                 command q = normalize_command c -> k = s) ->
    let r := update_prompt s s c x w in
    fst (fst r) = py "Prompt '" ++ s ++ py "' updated successfully!"
    /\ PyDict.keys (prompts_data (snd r)) = PyDict.keys (prompts_data w)
    /\ PyDict.get s (prompts_data (snd r))
       = Some (mkPrompt s (normalize_command c) x (creator p) (created p)
                        (clock w (ticks w)))
    /\ (forall k, k <> s ->
          PyDict.get k (prompts_data (snd r)) = PyDict.get k (prompts_data w))
    /\ prompts_file (snd r) = Some (Json.dumps (prompts_data (snd r))).
Proof.
  intros s c x p w Hs Hp Hc Hx Hfree r.
  apply command_taken_false in Hfree.
  unfold r. rewrite (update_prompt_success s s c x p w Hs Hp Hs Hc Hx Hfree).
  rewrite eqb_refl. cbn [negb fst snd prompts_data prompts_file]. repeat split.
  - apply keys_setitem_present. apply mem_true. unfold PyDict.mem. rewrite Hp. reflexivity.
  - apply get_setitem_eq.
  - intros k Hk. apply get_setitem_neq. congruence.
Qed.

Lemma update_prompt_in_place_witness :
  let a := mkPrompt (py "a") (py "/foo") (py "x") (py "someone") (py "t0") (py "t0") in
  let b := mkPrompt (py "b") (py "/bar") (py "y") current_user (py "t1") (py "t1") in
  let w := mkWorld [(py "a", a); (py "b", b)] None 0 (fun _ => py "t3") 0 in
  let r := update_prompt (py "a") (py "a") (py "/foo") (py "new") w in
  fst (fst r) = py "Prompt 'a' updated successfully!"
  /\ PyDict.keys (prompts_data (snd r)) = [py "a"; py "b"]
  /\ PyDict.get (py "a") (prompts_data (snd r))
     = Some (mkPrompt (py "a") (py "/foo") (py "new") (py "someone") (py "t0") (py "t3"))
  /\ (forall k, k <> py "a" ->
        PyDict.get k (prompts_data (snd r)) = PyDict.get k (prompts_data w))
  /\ prompts_file (snd r) = Some (Json.dumps (prompts_data (snd r))).
Proof.
  intros a b w.
  apply (update_prompt_in_place (py "a") (py "/foo") (py "new") a w); try discriminate.
  - reflexivity.
  - intros k q [[= <- <-]|[[= <- <-]|[]]]; [reflexivity | discriminate].
Defined.

(** X7.  A valid update that renames a prompt to a title under which
    another prompt is stored replaces that other prompt without any
    notice: the call reports success, the dictionary has one entry
    less, nothing is stored under the old title, and the entry under
    the new title, at the place the replaced prompt had, carries the
    creator and creation time of the renamed prompt. *)
Theorem update_prompt_onto_existing_title :
  forall (s t c x : pystr) (p other : prompt) (w : world),
    PyDict.dict_wf (prompts_data w) ->
    s <> [] -> PyDict.get s (prompts_data w) = Some p ->
    t <> [] -> c <> [] -> x <> [] ->
    t <> s -> PyDict.get t (prompts_data w) = Some other ->
    (forall k q, In (k, q) (prompts_data w) ->
                 command q = normalize_command c -> k = s) ->
    let r := update_prompt s t c x w in
    fst (fst r) = py "Prompt '" ++ t ++ py "' updated successfully!"
    /\ S (List.length (prompts_data (snd r))) = List.length (prompts_data w)
    /\ PyDict.get s (prompts_data (snd r)) = None
    /\ PyDict.get t (prompts_data (snd r))
       = Some (mkPrompt t (normalize_command c) x (creator p) (created p)
                        (clock w (ticks w)))
    /\ PyDict.keys (prompts_data (snd r))
       = List.filter (fun k => negb (PyStr.eqb k s)) (PyDict.keys (prompts_data w))
    /\ (forall k, k <> s -> k <> t ->
          PyDict.get k (prompts_data (snd r)) = PyDict.get k (prompts_data w)).
Proof.
  intros s t c x p other w Hwf Hs Hp Ht Hc Hx Hne Hother Hfree r.
  apply command_taken_false in Hfree.
  unfold r. rewrite (update_prompt_success s t c x p w Hs Hp Ht Hc Hx Hfree).
  assert (Eq : PyStr.eqb s t = false) by (apply eqb_neq; congruence).
  rewrite Eq. cbn [negb fst snd prompts_data]. rewrite setitem_setitem.
  assert (Hin : In t (PyDict.keys (PyDict.delitem s (prompts_data w)))).
  { apply mem_true. unfold PyDict.mem.
    rewrite get_delitem_neq by congruence. rewrite Hother. reflexivity. }
  repeat split.
  - rewrite length_setitem_present by assumption.
    symmetry. eapply length_delitem. exact Hp.
  - rewrite get_setitem_neq by assumption. apply get_delitem_eq. exact Hwf.
  - apply get_setitem_eq.
  - rewrite keys_setitem_present by assumption. apply keys_delitem. exact Hwf.
  - intros k Hk Hk'. rewrite get_setitem_neq by congruence.
    apply get_delitem_neq. congruence.
Qed.

Lemma update_prompt_onto_existing_title_witness :
  let a := mkPrompt (py "a") (py "/foo") (py "x") (py "someone") (py "t0") (py "t0") in
  let b := mkPrompt (py "b") (py "/bar") (py "y") current_user (py "t1") (py "t1") in
  let c := mkPrompt (py "c") (py "/baz") (py "z") current_user (py "t2") (py "t2") in
  let w := mkWorld [(py "a", a); (py "b", b); (py "c", c)] None 0 (fun _ => py "t3") 0 in
  let r := update_prompt (py "c") (py "a") (py "baz") (py "new") w in
  fst (fst r) = py "Prompt 'a' updated successfully!"
  /\ S (List.length (prompts_data (snd r))) = 3
  /\ PyDict.get (py "c") (prompts_data (snd r)) = None
  /\ PyDict.get (py "a") (prompts_data (snd r))
     = Some (mkPrompt (py "a") (py "/baz") (py "new") current_user (py "t2") (py "t3"))
  /\ PyDict.keys (prompts_data (snd r)) = [py "a"; py "b"]
  /\ (forall k, k <> py "c" -> k <> py "a" ->
        PyDict.get k (prompts_data (snd r)) = PyDict.get k (prompts_data w)).
Proof.
  intros a b c w.
  apply (update_prompt_onto_existing_title (py "c") (py "a") (py "baz") (py "new") c a w);
    try discriminate.
  - repeat constructor; simpl; intuition discriminate.
  - reflexivity.
  - reflexivity.
  - intros k q [[= <- <-]|[[= <- <-]|[[= <- <-]|[]]]]; [discriminate | discriminate | reflexivity].
Defined.

(** X8.  Creating a prompt under a title that is not yet a key, with
    fields that are not empty and a command no stored prompt holds,
    appends one entry at the end of the iteration order and leaves the
    others as they are.  The command stored is the argument when it
    starts with a slash and the argument with a slash put in front
    otherwise.  The list returned is the new list of titles and the
    file holds the new dictionary. *)
Theorem create_prompt_appends_entry :
  forall (t c x : pystr) (w : world),
    PyDict.get t (prompts_data w) = None ->
    t <> [] -> c <> [] -> x <> [] ->
    (forall k q, In (k, q) (prompts_data w) -> command q <> normalize_command c) ->
    let r := create_prompt t c x w in
    let p := mkPrompt t (normalize_command c) x current_user
                      (clock w (ticks w)) (clock w (S (ticks w))) in
    fst (fst r) = py "Prompt '" ++ t ++ py "' created successfully!"
    /\ prompts_data (snd r) = prompts_data w ++ [(t, p)]
    /\ (startswith c (py "/") = true -> command p = c)
    /\ (startswith c (py "/") = false -> command p = 47%N :: c)
    /\ snd (fst r) = PyDict.keys (prompts_data w) ++ [t]
    /\ prompts_file (snd r) = Some (Json.dumps (prompts_data (snd r))).
Proof.
  intros t c x w Hnew Ht Hc Hx Hfree r p.
  assert (Hfree' : command_taken (normalize_command c) t (prompts_data w) = false).
  { apply command_taken_false. intros k q Hin Hq. exfalso. exact (Hfree k q Hin Hq). }
  unfold r. rewrite (create_prompt_success t c x w Ht Hc Hx Hfree').
  apply get_None in Hnew.
  cbn [fst snd prompts_data prompts_file]. fold p.
  change (created_prompt t c x w) with p.
  rewrite (setitem_absent t p (prompts_data w) Hnew).
  repeat split.
  - intros H. unfold p, normalize_command. cbn [command]. rewrite H. reflexivity.
  - intros H. unfold p, normalize_command. cbn [command]. rewrite H. reflexivity.
  - unfold PyDict.keys. rewrite map_app. reflexivity.
Qed.

Lemma create_prompt_appends_entry_witness :
  let a := mkPrompt (py "a") (py "/foo") (py "x") current_user (py "t0") (py "t0") in
  let w := mkWorld [(py "a", a)] None 0
                   (fun n => py "2024-01-01T00:00:0" ++ [N.of_nat (48 + n)]) 0 in
  let r := create_prompt (py "b") (py "bar") (py "y") w in
  let p := mkPrompt (py "b") (py "/bar") (py "y") current_user
                    (py "2024-01-01T00:00:00") (py "2024-01-01T00:00:01") in
  fst (fst r) = py "Prompt 'b' created successfully!"
  /\ prompts_data (snd r) = [(py "a", a); (py "b", p)]
  /\ (startswith (py "bar") (py "/") = true -> command p = py "bar")
  /\ (startswith (py "bar") (py "/") = false -> command p = 47%N :: py "bar")
  /\ snd (fst r) = [py "a"; py "b"]
  /\ prompts_file (snd r) = Some (Json.dumps (prompts_data (snd r))).
Proof.
  intros a w.
  apply (create_prompt_appends_entry (py "b") (py "bar") (py "y") w); try discriminate.
  - reflexivity.
  - intros k q [[= <- <-]|[]]. discriminate.
Defined.

(** X9.  Creating a prompt under a new title and then deleting that
    title gives back the dictionary there was before the two calls. *)
Theorem create_then_delete_restores :
  forall (t c x : pystr) (w : world),
    PyDict.get t (prompts_data w) = None ->
    t <> [] -> c <> [] -> x <> [] ->
    (forall k q, In (k, q) (prompts_data w) -> command q <> normalize_command c) ->
    let w1 := snd (create_prompt t c x w) in
    let r := delete_prompt t w1 in
    fst (fst r) = py "Prompt '" ++ t ++ py "' deleted successfully!"
    /\ prompts_data (snd r) = prompts_data w
    /\ prompts_file (snd r) = Some (Json.dumps (prompts_data w)).
Proof.
  intros t c x w Hnew Ht Hc Hx Hfree w1 r.
  assert (Hfree' : command_taken (normalize_command c) t (prompts_data w) = false).
  { apply command_taken_false. intros k q Hin Hq. exfalso. exact (Hfree k q Hin Hq). }
  pose proof (create_prompt_success t c x w Ht Hc Hx Hfree') as Hcreate.
  cbv zeta in Hcreate.
  assert (Hw1 : prompts_data w1
                = prompts_data w ++ [(t, created_prompt t c x w)]).
  { unfold w1. rewrite Hcreate. cbn [snd prompts_data].
    apply setitem_absent. apply get_None. exact Hnew. }
  assert (Hget : PyDict.get t (prompts_data w1) = Some (created_prompt t c x w)).
  { unfold w1. rewrite Hcreate. cbn [snd prompts_data]. apply get_setitem_eq. }
  unfold r. rewrite (delete_prompt_success t _ w1 Ht Hget).
  cbn [fst snd prompts_data prompts_file]. rewrite Hw1.
  rewrite delitem_app_last by (apply get_None; exact Hnew).
  repeat split.
Qed.

Lemma create_then_delete_restores_witness :
  let a := mkPrompt (py "a") (py "/foo") (py "x") current_user (py "t0") (py "t0") in
  let w := mkWorld [(py "a", a)] None 0 (fun _ => py "t1") 0 in
  let w1 := snd (create_prompt (py "b") (py "bar") (py "y") w) in
  let r := delete_prompt (py "b") w1 in
  fst (fst r) = py "Prompt 'b' deleted successfully!"
  /\ prompts_data (snd r) = prompts_data w
  /\ prompts_file (snd r) = Some (Json.dumps (prompts_data w)).
Proof.
  intros a w.
  apply (create_then_delete_restores (py "b") (py "bar") (py "y") w); try discriminate.
  - reflexivity.
  - intros k q [[= <- <-]|[]]. discriminate.
Defined.

End ManagementCoverage.

(* ------------------------------------------------------------------ *)
(** ** What every management call keeps *)

Module InvariantFacts.
Import PyStrFacts PyDictFacts StoreFacts ManagementFacts JsonFacts PersistenceFacts.

Lemma store_normal_setitem (k : pystr) (v : prompt) (d : store) :
  store_normal d -> entry_normal (k, v) -> store_normal (PyDict.setitem k v d).
Proof.
  unfold store_normal. intros Hd Hkv. rewrite Forall_forall in *.
  intros kv Hin. apply In_setitem in Hin. destruct Hin as [->|Hin]; auto.
Qed.

Lemma store_normal_delitem (k : pystr) (d : store) :
  store_normal d -> store_normal (PyDict.delitem k d).
Proof.
  unfold store_normal. intros Hd. rewrite Forall_forall in *.
  intros kv Hin. apply Hd. eapply In_delitem; eauto.
Qed.

Lemma run_operation_normal (o : operation) (w : world) :
  store_normal (prompts_data w) ->
  store_normal (prompts_data (snd (run_operation o w))).
Proof.
  intros Hn. destruct o as [t c x|s t c x|s]; simpl.
  - unfold create_prompt.
    destruct (truthy t) eqn:Ht; [|exact Hn].
    destruct (truthy c) eqn:Hc; [|exact Hn].
    destruct (truthy x) eqn:Hx; [|exact Hn].
    cbn [negb orb]. cbv [bind read_prompts_data]. cbv beta iota.
    destruct (command_taken (normalize_command c) t (prompts_data w)); [exact Hn|].
    cbn. apply store_normal_setitem; [exact Hn|].
    repeat split; cbn [fst snd title command content].
    + apply truthy_true. exact Ht.
    + apply normalize_command_slash.
    + apply truthy_true. exact Hx.
  - unfold update_prompt. cbv [bind read_prompts_data]. cbv beta iota.
    destruct (if truthy s then PyDict.get s (prompts_data w) else None) as [sel|];
      [|exact Hn].
    destruct (truthy t) eqn:Ht; [|exact Hn].
    destruct (truthy c) eqn:Hc; [|exact Hn].
    destruct (truthy x) eqn:Hx; [|exact Hn].
    cbn [negb orb]. cbv beta iota.
    destruct (command_taken (normalize_command c) s (prompts_data w)); [exact Hn|].
    assert (Hnew : entry_normal
              (t, update_fields sel t (normalize_command c) x (clock w (ticks w)))).
    { repeat split; cbn [fst snd title command content update_fields].
      - apply truthy_true. exact Ht.
      - apply normalize_command_slash.
      - apply truthy_true. exact Hx. }
    cbn. destruct (PyStr.eqb s t); cbn.
    + apply store_normal_setitem; assumption.
    + rewrite setitem_setitem. apply store_normal_setitem; [|assumption].
      apply store_normal_delitem. exact Hn.
  - unfold delete_prompt. cbv [bind read_prompts_data]. cbv beta iota.
    destruct (negb (truthy s) || negb (PyDict.mem s (prompts_data w))); [exact Hn|].
    cbn. apply store_normal_delitem. exact Hn.
Qed.

Lemma run_operation_in_sync (o : operation) (w : world) :
  file_in_sync w -> file_in_sync (snd (run_operation o w)).
Proof.
  intros Hsync. destruct o as [t c x|s t c x|s]; simpl.
  - unfold create_prompt.
    destruct (negb (truthy t) || negb (truthy c) || negb (truthy x)); [exact Hsync|].
    cbv [bind read_prompts_data]. cbv beta iota.
    destruct (command_taken (normalize_command c) t (prompts_data w)); [exact Hsync|].
    reflexivity.
  - unfold update_prompt. cbv [bind read_prompts_data]. cbv beta iota.
    destruct (if truthy s then PyDict.get s (prompts_data w) else None) as [sel|];
      [|exact Hsync].
    destruct (negb (truthy t) || negb (truthy c) || negb (truthy x)); [exact Hsync|].
    destruct (command_taken (normalize_command c) s (prompts_data w)); [exact Hsync|].
    reflexivity.
  - unfold delete_prompt. cbv [bind read_prompts_data]. cbv beta iota.
    destruct (negb (truthy s) || negb (PyDict.mem s (prompts_data w))); [exact Hsync|].
    reflexivity.
Qed.

Lemma run_operations_in_sync (ops : list operation) :
  forall w, file_in_sync w -> file_in_sync (run_operations ops w).
Proof.
  induction ops as [|o ops IH]; intros w H; [exact H|].
  cbn [run_operations]. apply IH. apply run_operation_in_sync. exact H.
Qed.

Lemma setup_in_sync (w : world) :
  file_in_sync w -> PyDict.dict_wf (prompts_data w) ->
  Json.store_json_safe (prompts_data w) = true ->
  snd (setup w) = w.
Proof.
  unfold file_in_sync. intros Hsync Hwf Hsafe.
  destruct w as [d f n c k]. cbn [prompts_file prompts_data] in *. subst f.
  unfold setup, bind, read_file, write_prompts_data.
  cbn [prompts_file prompts_data writes clock ticks fst snd].
  rewrite loads_dumps by assumption. reflexivity.
Qed.

End InvariantFacts.

Section InvariantCoverage.
Import PyStrFacts PyDictFacts StoreFacts ManagementFacts JsonFacts PersistenceFacts
       InvariantFacts.

(** X10.  The shape of the stored entries is an invariant of the
    management calls: if every entry is filed under its own title, with
    a title and a content that are not empty and a command that starts
    with a slash, the same holds after every sequence of create, update
    and delete calls, whatever their arguments and outcomes. *)
Theorem stored_entries_stay_normal :
  forall (ops : list operation) (w : world),
    store_normal (prompts_data w) ->
    store_normal (prompts_data (run_operations ops w)).
Proof.
  induction ops as [|o ops IH]; intros w H; [exact H|].
  cbn [run_operations]. apply IH. apply run_operation_normal. exact H.
Qed.

Lemma stored_entries_stay_normal_witness :
  let w0 := mkWorld [] None 0 (fun _ => py "t") 0 in
  let ops := [Create (py "a") (py "foo") (py "x");
              Update (py "a") (py "b") (py "bar baz") (py "y");
              Create (py "") (py "q") (py "z");
              Delete (py "zzz")] in
  store_normal (prompts_data (run_operations ops w0)).
Proof.
  intros w0 ops. apply (stored_entries_stay_normal ops w0). constructor.
Defined.

(** X11.  Every management call has one of two outcomes.  Either its
    message starts with [Error: ] and the whole state, the file
    included, is exactly as before; or its message starts with
    [Prompt '], the file was written exactly once and it holds the dump
    of the dictionary now in memory.  In both cases the list returned
    with the message is the list of titles now in the dictionary. *)
Theorem management_call_outcomes :
  forall (o : operation) (w : world),
    let r := run_operation o w in
    snd (fst r) = PyDict.keys (prompts_data (snd r))
    /\ ((startswith (fst (fst r)) (py "Error: ") = true /\ snd r = w)
        \/ (startswith (fst (fst r)) (py "Prompt '") = true
            /\ writes (snd r) = S (writes w)
            /\ file_in_sync (snd r))).
Proof.
  intros o w.
  destruct o as [t c x|s t c x|s]; simpl.
  - unfold create_prompt.
    destruct (negb (truthy t) || negb (truthy c) || negb (truthy x));
      [split; [reflexivity | left; split; reflexivity]|].
    cbv [bind read_prompts_data]. cbv beta iota.
    destruct (command_taken (normalize_command c) t (prompts_data w));
      [split; [reflexivity | left; split; reflexivity]|].
    split; [reflexivity | right; repeat split].
  - unfold update_prompt. cbv [bind read_prompts_data]. cbv beta iota.
    destruct (if truthy s then PyDict.get s (prompts_data w) else None) as [sel|];
      [|split; [reflexivity | left; split; reflexivity]].
    destruct (negb (truthy t) || negb (truthy c) || negb (truthy x));
      [split; [reflexivity | left; split; reflexivity]|].
    destruct (command_taken (normalize_command c) s (prompts_data w));
      [split; [reflexivity | left; split; reflexivity]|].
    split; [reflexivity | right; repeat split].
  - unfold delete_prompt. cbv [bind read_prompts_data]. cbv beta iota.
    destruct (negb (truthy s) || negb (PyDict.mem s (prompts_data w)));
      [split; [reflexivity | left; split; reflexivity]|].
    split; [reflexivity | right; repeat split].
Qed.

(** X12.  Write-through: once the file holds the dump of the dictionary
    in memory, it still does after every sequence of management
    calls. *)
Theorem file_stays_in_sync :
  forall (ops : list operation) (w : world),
    file_in_sync w -> file_in_sync (run_operations ops w).
Proof.
  induction ops as [|o ops IH]; intros w H; [exact H|].
  cbn [run_operations]. apply IH. apply run_operation_in_sync. exact H.
Qed.

Lemma file_stays_in_sync_witness :
  let w0 := mkWorld [] (Some (py "{}")) 0 (fun _ => py "t") 0 in
  let ops := [Create (py "a") (py "foo") (py "x");
              Create (py "b") (py "foo") (py "y");
              Update (py "a") (py "b") (py "bar") (py "y");
              Delete (py "zzz")] in
  file_in_sync (run_operations ops w0).
Proof.
  intros w0 ops. apply (file_stays_in_sync ops w0). reflexivity.
Defined.

(** X13.  Restart: after any sequence of management calls, running
    [setup] again (a restart of the process) reads back from the file
    exactly the dictionary that was in memory, and writes nothing.  The
    sequence starts from a state whose file is in sync, and the strings
    involved hold no high surrogate immediately followed by a low
    one. *)
Theorem restart_recovers_dictionary :
  forall (ops : list operation) (w0 : world),
    file_in_sync w0 ->
    world_json_safe w0 ->
    forallb operation_json_safe ops = true ->
    snd (setup (run_operations ops w0)) = run_operations ops w0.
Proof.
  intros ops w0 Hsync Hsafe Hops.
  destruct (run_operations_json_safe ops w0 Hops Hsafe) as (Hwf & Hs & _).
  apply setup_in_sync; [apply run_operations_in_sync | |]; assumption.
Qed.

Lemma restart_recovers_dictionary_witness :
  let w0 := mkWorld [] (Some (py "{}")) 0 (fun _ => py "2024-01-01T00:00:00") 0 in
  let ops := [Create (py "a") (py "foo") (py "Hello {input}");
              Create (py "b") (py "bar") [233; 10; 128512]%N;
              Update (py "a") (py "c") (py "baz") (py "y")] in
  snd (setup (run_operations ops w0)) = run_operations ops w0.
Proof.
  intros w0 ops. apply (restart_recovers_dictionary ops w0).
  - reflexivity.
  - repeat split. constructor.
  - reflexivity.
Defined.

End InvariantCoverage.

(* ------------------------------------------------------------------ *)
(** ** The resolver and the views, together with the management calls *)

Module ViewFacts.
Import PyStrFacts PyDictFacts ResolverFacts StoreFacts ManagementFacts.

Lemma NoDup_map_inj {A B : Type} (f : A -> B) (l : list A) (x y : A) :
  NoDup (List.map f l) -> In x l -> In y l -> f x = f y -> x = y.
Proof.
  induction l as [|a l IH]; simpl; [tauto|].
  intros Hnd Hx Hy Hf. inversion Hnd as [|? ? Hnotin Hnd']; subst.
  destruct Hx as [->|Hx], Hy as [->|Hy]; auto.
  - exfalso. apply Hnotin. rewrite Hf. apply in_map. exact Hy.
  - exfalso. apply Hnotin. rewrite <- Hf. apply in_map. exact Hx.
Qed.

Lemma command_part_no_space (text : pystr) : ~ In 32%N (command_part text).
Proof.
  destruct (split_at_first_space text) as [(H & -> & _)|(cmd & rem & _ & H & -> & _)];
    exact H.
Qed.

Lemma command_part_slash (text : pystr) :
  startswith (command_part text) (py "/") = true -> startswith text (py "/") = true.
Proof.
  intros H. apply startswith_true in H. destruct H as (r & Hr).
  destruct (command_part_prefix text) as (r' & Ht).
  apply startswith_true. exists (r ++ r'). rewrite Ht, Hr, <- app_assoc. reflexivity.
Qed.

Lemma scan_prompts_app_other (cmd ui : pystr) (l : list prompt) (p : prompt) :
  command p <> cmd ->
  scan_prompts cmd ui (l ++ [p]) = scan_prompts cmd ui l.
Proof.
  intros Hne. induction l as [|q l IH]; simpl.
  - apply eqb_neq in Hne. rewrite Hne. reflexivity.
  - destruct (PyStr.eqb (command q) cmd); [reflexivity | exact IH].
Qed.

Lemma normalize_command_space (c : pystr) :
  In 32%N c -> In 32%N (normalize_command c).
Proof.
  intros H. unfold normalize_command. destruct (startswith c (py "/")); [exact H|].
  right. exact H.
Qed.

(** After the entry under [s] is removed, no stored prompt holds its
    command. *)
Lemma delitem_command_free (s : pystr) (p : prompt) (d : store) :
  PyDict.dict_wf d -> commands_unique d ->
  PyDict.get s d = Some p ->
  forall k q, In (k, q) (PyDict.delitem s d) -> command q <> command p.
Proof.
  intros Hwf Hu Hp k q Hin Hcmd.
  pose proof (In_delitem_key _ _ _ _ Hwf Hin) as Hk.
  apply In_delitem in Hin. apply get_In in Hp.
  unfold commands_unique, PyDict.values in Hu. rewrite map_map in Hu.
  assert (E : (k, q) = (s, p)).
  { apply (NoDup_map_inj (fun kv => command (snd kv)) d); assumption. }
  congruence.
Qed.

Lemma accessible_prompts_snoc (d : store) (kv : pystr * prompt) :
  accessible_prompts (d ++ [kv])
  = PyDict.setitem (command (snd kv)) (accessible_entry (snd kv)) (accessible_prompts d).
Proof. unfold accessible_prompts, PyDict.items. rewrite fold_left_app. reflexivity. Qed.

(** Whatever the prompt, a remainder that is not empty is part of the
    text it expands to. *)
Lemma expand_keeps_remainder (p : prompt) (ui : pystr) :
  ui <> [] -> contains ui (expand p ui) = true.
Proof.
  intros Hrem. unfold expand. pose proof Hrem as Ht. apply truthy_true in Ht. rewrite Ht.
  rewrite andb_true_r. apply contains_true.
  destruct (contains placeholder (content p)) eqn:Htok.
  - destruct (pieces_exist placeholder (content p)) as (pieces & Hne & Hdec & Hfree);
      [discriminate|].
    destruct pieces as [|p0 [|p1 rest]]; [congruence| |].
    + exfalso. inversion Hfree as [|? ? H0 _]; subst. simpl in Hdec.
      rewrite <- Hdec in H0. congruence.
    + rewrite Hdec, (replace_placeholder _ _ Hfree).
      exists p0, (join ui (p1 :: rest)). reflexivity.
  - exists (content p ++ [10; 10]%N), []. rewrite app_nil_r, <- app_assoc. reflexivity.
Qed.

End ViewFacts.

Section ViewCoverage.
Import PyStrFacts PyDictFacts ResolverFacts StoreFacts ManagementFacts ViewFacts.

(** X15.  For every store and every input that starts with a slash: if
    the input is exactly the command, free of spaces, of a stored
    prompt, or that command followed by one space, the chat hook
    returns, in both positions, the content exactly as stored of the
    first prompt in iteration order that holds the command.  A
    placeholder in that content is left in place. *)
Theorem resolve_without_remainder :
  forall (State : Type) (d : store) (text visible_text : pystr) (state : State)
         (before after : list prompt) (p : prompt),
    PyDict.values d = before ++ p :: after ->
    (forall q, In q before -> command q <> command p) ->
    startswith text (py "/") = true ->
    text = command p \/ text = command p ++ [32%N] ->
    ~ In 32%N (command p) ->
    chat_input_modifier d text visible_text state = (content p, content p).
Proof.
  intros State d text visible_text state before after p Hval Hfirst Hslash Htext Hnsp.
  assert (Hparts : command_part text = command p /\ user_input_part text = []).
  { destruct (split_at_first_space text) as [(Hno & Hc & Hr)|(cmd & rem & Ht & Hno & Hc & Hr)].
    - destruct Htext as [E|E].
      + rewrite Hc, Hr. auto.
      + exfalso. apply Hno. rewrite E. apply in_or_app. right. left. reflexivity.
    - rewrite Hc, Hr. destruct Htext as [E|E].
      + exfalso. apply Hnsp. rewrite <- E, Ht. apply in_or_app. right. left. reflexivity.
      + rewrite E in Ht. clear - Ht Hno Hnsp.
        revert cmd Ht Hno. induction (command p) as [|c l IH]; intros cmd Ht Hno.
        * destruct cmd as [|c' cmd]; [injection Ht as <-; auto|].
          injection Ht as <- Ht. exfalso. apply Hno. left. reflexivity.
        * destruct cmd as [|c' cmd].
          -- injection Ht as -> _. exfalso. apply Hnsp. left. reflexivity.
          -- injection Ht as <- Ht.
             destruct (IH (fun H => Hnsp (or_intror H)) cmd Ht
                          (fun H => Hno (or_intror H))) as [-> ->]. auto. }
  destruct Hparts as [Hc Hr]. unfold chat_input_modifier. rewrite Hslash, Hval.
  rewrite (scan_prompts_first (command_part text) (user_input_part text) before after p).
  - rewrite Hr. unfold expand. cbn [truthy]. rewrite andb_false_r. reflexivity.
  - rewrite Hc. exact Hfirst.
  - symmetry. exact Hc.
Qed.

Lemma resolve_without_remainder_witness :
  let p := mkPrompt (py "greeting") (py "/foo") (py "Hello {input}!")
                    current_user (py "t0") (py "t0") in
  let q := mkPrompt (py "later") (py "/foo") (py "Plain")
                    current_user (py "t1") (py "t1") in
  chat_input_modifier [(py "greeting", p); (py "later", q)] (py "/foo ") (py "shown") tt
  = (py "Hello {input}!", py "Hello {input}!").
Proof.
  intros p q.
  apply (resolve_without_remainder unit [(py "greeting", p); (py "later", q)]
           (py "/foo ") (py "shown") tt [] [q] p).
  - reflexivity.
  - intros q0 [].
  - reflexivity.
  - right. reflexivity.
  - simpl. intuition discriminate.
Defined.

(** X16.  For every store: when a stored command matches the input (the
    input starts with a slash and some stored prompt holds its command
    part) and the remainder is not empty, the text handed on contains
    the remainder: it is either put in the place of the placeholder or
    added at the end. *)
Theorem resolve_keeps_remainder :
  forall (State : Type) (d : store) (text visible_text : pystr) (state : State),
    matches d text ->
    user_input_part text <> [] ->
    contains (user_input_part text)
             (fst (chat_input_modifier d text visible_text state)) = true.
Proof.
  intros State d text visible_text state [Hslash (p & Hin & Hp)] Hrem.
  unfold chat_input_modifier. rewrite Hslash.
  destruct (scan_prompts (command_part text) (user_input_part text) (PyDict.values d))
    as [r|] eqn:E.
  - apply scan_prompts_Some in E. destruct E as (before & p' & after & _ & _ & _ & ->).
    cbn [fst]. apply expand_keeps_remainder. exact Hrem.
  - exfalso. exact (proj1 (scan_prompts_None _ _ _) E p Hin Hp).
Qed.

Lemma resolve_keeps_remainder_witness :
  let p := mkPrompt (py "greeting") (py "/foo") (py "{input} and {input}")
                    current_user (py "t0") (py "t0") in
  let q := mkPrompt (py "later") (py "/foo") (py "Plain")
                    current_user (py "t1") (py "t1") in
  contains (py "bar baz")
           (fst (chat_input_modifier [(py "greeting", p); (py "later", q)]
                   (py "/foo bar baz") (py "shown") tt))
  = true.
Proof.
  intros p q.
  apply (resolve_keeps_remainder unit [(py "greeting", p); (py "later", q)]
           (py "/foo bar baz") (py "shown") tt).
  - split; [reflexivity|]. exists q. split; [right; left; reflexivity | reflexivity].
  - discriminate.
Defined.

(** X17.  A command that contains a space is accepted and stored by
    [create_prompt], but the resolver can never select it: the command
    part of an input holds no space.  After such a prompt is created
    under a new title, the chat hook answers every input as it did
    before. *)
Theorem command_with_space_never_resolves :
  forall (State : Type) (t c x : pystr) (w : world),
    PyDict.get t (prompts_data w) = None ->
    t <> [] -> c <> [] -> x <> [] ->
    In 32%N c ->
    (forall k q, In (k, q) (prompts_data w) -> command q <> normalize_command c) ->
    let w1 := snd (create_prompt t c x w) in
    fst (fst (create_prompt t c x w)) = py "Prompt '" ++ t ++ py "' created successfully!"
    /\ PyDict.get t (prompts_data w1) = Some (created_prompt t c x w)
    /\ forall (text visible_text : pystr) (state : State),
         chat_input_modifier (prompts_data w1) text visible_text state
         = chat_input_modifier (prompts_data w) text visible_text state.
Proof.
  intros State t c x w Hnew Ht Hc Hx Hsp Hfree w1.
  assert (Hfree' : command_taken (normalize_command c) t (prompts_data w) = false).
  { apply command_taken_false. intros k q Hin Hq. exfalso. exact (Hfree k q Hin Hq). }
  pose proof (create_prompt_success t c x w Ht Hc Hx Hfree') as Hcreate.
  cbv zeta in Hcreate.
  assert (Hw1 : prompts_data w1 = prompts_data w ++ [(t, created_prompt t c x w)]).
  { unfold w1. rewrite Hcreate. cbn [snd prompts_data].
    apply setitem_absent. apply get_None. exact Hnew. }
  split; [rewrite Hcreate; reflexivity|]. split.
  - unfold w1. rewrite Hcreate. cbn [snd prompts_data]. apply get_setitem_eq.
  - intros text visible_text state. unfold chat_input_modifier. rewrite Hw1.
    unfold PyDict.values. rewrite map_app. cbn [List.map snd].
    rewrite scan_prompts_app_other; [reflexivity|].
    intros E. apply (command_part_no_space text). rewrite <- E.
    cbn [created_prompt command]. apply normalize_command_space. exact Hsp.
Qed.

Lemma command_with_space_never_resolves_witness :
  let a := mkPrompt (py "a") (py "/foo") (py "x") current_user (py "t0") (py "t0") in
  let w := mkWorld [(py "a", a)] None 0 (fun _ => py "t1") 0 in
  let w1 := snd (create_prompt (py "b") (py "my cmd") (py "y") w) in
  fst (fst (create_prompt (py "b") (py "my cmd") (py "y") w))
  = py "Prompt 'b' created successfully!"
  /\ PyDict.get (py "b") (prompts_data w1)
     = Some (created_prompt (py "b") (py "my cmd") (py "y") w)
  /\ forall (text visible_text : pystr) (state : unit),
       chat_input_modifier (prompts_data w1) text visible_text state
       = chat_input_modifier (prompts_data w) text visible_text state.
Proof.
  intros a w.
  apply (command_with_space_never_resolves unit (py "b") (py "my cmd") (py "y") w);
    try discriminate.
  - reflexivity.
  - simpl. tauto.
  - intros k q [[= <- <-]|[]]. discriminate.
Defined.

(** X18.  A caller sees its own write: right after a prompt was created
    in a store with pairwise distinct commands, every input whose
    command part is the stored command resolves to the new prompt. *)
Theorem created_prompt_resolves :
  forall (State : Type) (t c x : pystr) (w : world)
         (text visible_text : pystr) (state : State),
    PyDict.dict_wf (prompts_data w) -> commands_unique (prompts_data w) ->
    t <> [] -> c <> [] -> x <> [] ->
    (forall k q, In (k, q) (prompts_data w) ->
                 command q = normalize_command c -> k = t) ->
    command_part text = normalize_command c ->
    let w1 := snd (create_prompt t c x w) in
    let p := created_prompt t c x w in
    chat_input_modifier (prompts_data w1) text visible_text state
    = (expand p (user_input_part text), expand p (user_input_part text)).
Proof.
  intros State t c x w text visible_text state Hwf Hu Ht Hc Hx Hfree Hcmd w1 p.
  assert (Hok : store_ok (prompts_data w1)).
  { apply create_prompt_ok. split; assumption. }
  apply command_taken_false in Hfree.
  pose proof (create_prompt_success t c x w Ht Hc Hx Hfree) as Hcreate.
  cbv zeta in Hcreate.
  assert (Hin : In p (PyDict.values (prompts_data w1))).
  { unfold w1. rewrite Hcreate. cbn [snd prompts_data].
    apply In_values. exists t. apply get_In. apply get_setitem_eq. }
  unfold chat_input_modifier.
  assert (Hslash : startswith text (py "/") = true).
  { apply command_part_slash. rewrite Hcmd. apply normalize_command_slash. }
  rewrite Hslash.
  rewrite (scan_prompts_unique (prompts_data w1) _ (user_input_part text) p
             (proj2 Hok) Hin); [reflexivity|].
  symmetry. exact Hcmd.
Qed.

Lemma created_prompt_resolves_witness :
  let a := mkPrompt (py "a") (py "/foo") (py "x") current_user (py "t0") (py "t0") in
  let w := mkWorld [(py "a", a)] None 0 (fun _ => py "t1") 0 in
  let w1 := snd (create_prompt (py "b") (py "sum") (py "Summarize: {input}") w) in
  chat_input_modifier (prompts_data w1) (py "/sum this text") (py "shown") tt
  = (py "Summarize: this text", py "Summarize: this text").
Proof.
  intros a w.
  apply (created_prompt_resolves unit (py "b") (py "sum") (py "Summarize: {input}") w
           (py "/sum this text") (py "shown") tt); try discriminate.
  - repeat constructor. simpl. tauto.
  - repeat constructor. simpl. tauto.
  - intros k q [[= <- <-]|[]]. discriminate.
  - reflexivity.
Defined.

(** X19.  After a prompt was deleted from a store with pairwise distinct
    commands, its command no longer resolves: every input whose command
    part is that command is passed through unchanged. *)
Theorem deleted_prompt_no_longer_resolves :
  forall (State : Type) (s : pystr) (p : prompt) (w : world)
         (text visible_text : pystr) (state : State),
    PyDict.dict_wf (prompts_data w) -> commands_unique (prompts_data w) ->
    s <> [] -> PyDict.get s (prompts_data w) = Some p ->
    command_part text = command p ->
    chat_input_modifier (prompts_data (snd (delete_prompt s w))) text visible_text state
    = (text, visible_text).
Proof.
  intros State s p w text visible_text state Hwf Hu Hs Hp Hcmd.
  rewrite (delete_prompt_success s p w Hs Hp). cbn [snd prompts_data].
  unfold chat_input_modifier. destruct (startswith text (py "/")); [|reflexivity].
  assert (E : scan_prompts (command_part text) (user_input_part text)
                (PyDict.values (PyDict.delitem s (prompts_data w))) = None).
  { apply scan_prompts_None. intros q Hq. apply In_values in Hq. destruct Hq as (k & Hq).
    rewrite Hcmd. eapply delitem_command_free; eauto. }
  rewrite E. reflexivity.
Qed.

Lemma deleted_prompt_no_longer_resolves_witness :
  let a := mkPrompt (py "a") (py "/foo") (py "x") current_user (py "t0") (py "t0") in
  let b := mkPrompt (py "b") (py "/bar") (py "y") current_user (py "t1") (py "t1") in
  let w := mkWorld [(py "a", a); (py "b", b)] None 0 (fun _ => py "t2") 0 in
  chat_input_modifier (prompts_data (snd (delete_prompt (py "a") w)))
    (py "/foo some text") (py "shown") tt
  = (py "/foo some text", py "shown").
Proof.
  intros a b w.
  apply (deleted_prompt_no_longer_resolves unit (py "a") a w (py "/foo some text")
           (py "shown") tt).
  - repeat constructor; simpl; intuition discriminate.
  - repeat constructor; simpl; intuition discriminate.
  - discriminate.
  - reflexivity.
  - reflexivity.
Defined.

(** X20.  Deleting a prompt frees its command: in a store with pairwise
    distinct commands, once a prompt whose command starts with a slash
    (as every command stored by a create or an update does) is deleted,
    a prompt with that command can be created under any title that is
    not empty, and that command is what is stored. *)
Theorem delete_frees_command :
  forall (s t x : pystr) (p : prompt) (w : world),
    PyDict.dict_wf (prompts_data w) -> commands_unique (prompts_data w) ->
    s <> [] -> PyDict.get s (prompts_data w) = Some p ->
    startswith (command p) (py "/") = true ->
    t <> [] -> x <> [] ->
    let w1 := snd (delete_prompt s w) in
    let r := create_prompt t (command p) x w1 in
    fst (fst r) = py "Prompt '" ++ t ++ py "' created successfully!"
    /\ option_map command (PyDict.get t (prompts_data (snd r))) = Some (command p).
Proof.
  intros s t x p w Hwf Hu Hs Hp Hslash Ht Hx w1 r.
  assert (Hnorm : normalize_command (command p) = command p).
  { unfold normalize_command. rewrite Hslash. reflexivity. }
  assert (Hc : command p <> []).
  { intros E. rewrite E in Hslash. discriminate. }
  assert (Hw1 : prompts_data w1 = PyDict.delitem s (prompts_data w)).
  { unfold w1. rewrite (delete_prompt_success s p w Hs Hp). reflexivity. }
  assert (Hfree : command_taken (normalize_command (command p)) t (prompts_data w1) = false).
  { apply command_taken_false. intros k q Hin Hq. exfalso. rewrite Hw1 in Hin.
    rewrite Hnorm in Hq. exact (delitem_command_free s p _ Hwf Hu Hp k q Hin Hq). }
  unfold r. rewrite (create_prompt_success t (command p) x w1 Ht Hc Hx Hfree).
  cbn [fst snd prompts_data]. split; [reflexivity|].
  rewrite get_setitem_eq. cbn [option_map created_prompt command]. rewrite Hnorm. reflexivity.
Qed.

Lemma delete_frees_command_witness :
  let a := mkPrompt (py "a") (py "/foo") (py "x") current_user (py "t0") (py "t0") in
  let b := mkPrompt (py "b") (py "/bar") (py "y") current_user (py "t1") (py "t1") in
  let w := mkWorld [(py "a", a); (py "b", b)] None 0 (fun _ => py "t2") 0 in
  let w1 := snd (delete_prompt (py "a") w) in
  let r := create_prompt (py "b") (py "/foo") (py "z") w1 in
  fst (fst r) = py "Prompt 'b' created successfully!"
  /\ option_map command (PyDict.get (py "b") (prompts_data (snd r))) = Some (py "/foo").
Proof.
  intros a b w.
  apply (delete_frees_command (py "a") (py "b") (py "z") a w); try discriminate.
  - repeat constructor; simpl; intuition discriminate.
  - repeat constructor; simpl; intuition discriminate.
  - reflexivity.
  - reflexivity.
Defined.

(** X21.  Loading the details of a prompt right after it was created
    gives back the title, the command in normalized form and the
    content, and changes nothing; loading with no selection or an
    unknown title gives three empty strings. *)
Theorem create_then_load_details :
  forall (t c x : pystr) (w : world),
    t <> [] -> c <> [] -> x <> [] ->
    (forall k q, In (k, q) (prompts_data w) ->
                 command q = normalize_command c -> k = t) ->
    let w1 := snd (create_prompt t c x w) in
    load_prompt_details t w1 = ((t, normalize_command c, x), w1)
    /\ forall s, s = [] \/ PyDict.get s (prompts_data w1) = None ->
                 load_prompt_details s w1 = (([], [], []), w1).
Proof.
  intros t c x w Ht Hc Hx Hfree w1.
  apply command_taken_false in Hfree.
  pose proof (create_prompt_success t c x w Ht Hc Hx Hfree) as Hcreate.
  cbv zeta in Hcreate.
  assert (Hget : PyDict.get t (prompts_data w1) = Some (created_prompt t c x w)).
  { unfold w1. rewrite Hcreate. cbn [snd prompts_data]. apply get_setitem_eq. }
  split.
  - unfold load_prompt_details, bind, read_prompts_data.
    apply truthy_true in Ht. rewrite Ht, Hget. reflexivity.
  - intros s Hs. unfold load_prompt_details, bind, read_prompts_data.
    destruct Hs as [-> | Hs]; [reflexivity|].
    rewrite Hs. destruct (truthy s); reflexivity.
Qed.

Lemma create_then_load_details_witness :
  let w := mkWorld [] None 0 (fun _ => py "t1") 0 in
  let w1 := snd (create_prompt (py "b") (py "sum") (py "Summarize") w) in
  load_prompt_details (py "b") w1 = ((py "b", py "/sum", py "Summarize"), w1)
  /\ forall s, s = [] \/ PyDict.get s (prompts_data w1) = None ->
               load_prompt_details s w1 = (([], [], []), w1).
Proof.
  intros w.
  apply (create_then_load_details (py "b") (py "sum") (py "Summarize") w);
    try discriminate.
  intros k q [].
Defined.

(** X22.  The listing of [get_available_commands] is the fixed message
    [No prompts available] exactly when the dictionary is empty: no
    stored titles and commands can make the listing read like the
    message.  The call changes nothing. *)
Theorem available_commands_message :
  forall (w : world),
    (fst (get_available_commands w) = py "No prompts available"
     <-> prompts_data w = [])
    /\ snd (get_available_commands w) = w.
Proof.
  intros w. unfold get_available_commands, bind, read_prompts_data, ret.
  cbn [fst snd]. split; [|reflexivity].
  destruct (prompts_data w) as [|[k p] d]; [split; reflexivity|].
  split; [|discriminate]. intros E. exfalso.
  assert (Hc : contains (py " - ") (py "No prompts available") = true).
  { rewrite <- E. apply contains_true.
    cbn [PyDict.values List.map snd].
    destruct (List.map (fun prompt => command prompt ++ py " - " ++ title prompt)
                       (List.map snd d)) as [|l ls].
    - exists (command p), (title p). reflexivity.
    - exists (command p), (title p ++ [10%N] ++ join [10%N] (l :: ls)).
      change (join [10%N] ((command p ++ py " - " ++ title p) :: l :: ls))
        with ((command p ++ py " - " ++ title p) ++ [10%N] ++ join [10%N] (l :: ls)).
      rewrite <- !app_assoc. reflexivity. }
  vm_compute in Hc. discriminate Hc.
Qed.

(** X23.  In the mapping that [get_accessible_prompts_json] serializes,
    a command is a key exactly when some stored prompt holds it, and
    the value under it is taken from the last such prompt in iteration
    order (the resolver stops at the first one). *)
Theorem accessible_prompts_last_wins :
  forall (d : store) (c : pystr),
    PyDict.get c (accessible_prompts d)
    = option_map accessible_entry
        (List.find (fun p => PyStr.eqb (command p) c) (List.rev (PyDict.values d))).
Proof.
  intros d c. induction d as [|kv d IH] using rev_ind; [reflexivity|].
  rewrite accessible_prompts_snoc. unfold PyDict.values.
  rewrite map_app, rev_app_distr. cbn [List.map List.rev app List.find].
  destruct (PyStr.eqb (command (snd kv)) c) eqn:E.
  - apply eqb_eq in E. rewrite E. apply get_setitem_eq.
  - apply eqb_neq in E. rewrite get_setitem_neq by exact E. exact IH.
Qed.

(** X24.  When the stored commands are pairwise distinct, the mapping
    that [get_accessible_prompts_json] serializes has exactly one entry
    per stored prompt, in iteration order, under the prompt's command
    and with its title, content and command. *)
Theorem accessible_prompts_one_per_prompt :
  forall (d : store),
    commands_unique d ->
    accessible_prompts d
    = List.map (fun p => (command p, accessible_entry p)) (PyDict.values d).
Proof.
  unfold commands_unique.
  intros d. induction d as [|kv d IH] using rev_ind; intros Hu; [reflexivity|].
  rewrite accessible_prompts_snoc. unfold PyDict.values in *.
  rewrite !map_app in Hu. cbn [List.map] in Hu.
  rewrite IH by (apply NoDup_remove_1 in Hu; rewrite app_nil_r in Hu; exact Hu).
  rewrite !map_app. cbn [List.map].
  apply setitem_absent. unfold PyDict.keys. rewrite map_map. cbn [fst].
  apply NoDup_remove_2 in Hu. rewrite app_nil_r in Hu. exact Hu.
Qed.

Lemma accessible_prompts_one_per_prompt_witness :
  let a := mkPrompt (py "a") (py "/foo") (py "x") current_user (py "t0") (py "t0") in
  let b := mkPrompt (py "b") (py "/bar") (py "y") current_user (py "t1") (py "t1") in
  accessible_prompts [(py "a", a); (py "b", b)]
  = [(py "/foo", accessible_entry a); (py "/bar", accessible_entry b)].
Proof.
  intros a b.
  apply (accessible_prompts_one_per_prompt [(py "a", a); (py "b", b)]).
  repeat constructor; simpl; intuition discriminate.
Defined.

End ViewCoverage.

Section PersistenceCoverage.
Import PyDictFacts JsonFacts.

(** X25.  The file written by [save_prompts] determines the dictionary:
    two dictionaries (of strings without a high surrogate immediately
    followed by a low one) that are saved as the same text are the same
    dictionary, titles, order and fields. *)
Theorem saved_file_determines_dictionary :
  forall (w1 w2 : world),
    PyDict.dict_wf (prompts_data w1) -> Json.store_json_safe (prompts_data w1) = true ->
    PyDict.dict_wf (prompts_data w2) -> Json.store_json_safe (prompts_data w2) = true ->
    prompts_file (snd (save_prompts w1)) = prompts_file (snd (save_prompts w2)) ->
    prompts_data w1 = prompts_data w2.
Proof.
  intros w1 w2 Hwf1 Hs1 Hwf2 Hs2 E.
  unfold save_prompts, bind, read_prompts_data, write_file in E.
  cbn [snd prompts_file] in E. injection E as E.
  assert (H : Json.loads (Json.dumps (prompts_data w1))
              = Json.loads (Json.dumps (prompts_data w2))) by (rewrite E; reflexivity).
  rewrite !loads_dumps in H by assumption. congruence.
Qed.

Lemma saved_file_determines_dictionary_witness :
  let a := mkPrompt (py "a") (py "/foo") (py "x") current_user (py "t0") (py "t0") in
  let w1 := mkWorld [(py "a", a)] None 0 (fun _ => py "t1") 0 in
  let w2 := mkWorld [(py "a", a)] (Some (py "{}")) 3 (fun _ => py "t2") 5 in
  prompts_data w1 = prompts_data w2.
Proof.
  intros a w1 w2.
  apply (saved_file_determines_dictionary w1 w2).
  - repeat constructor. simpl. tauto.
  - reflexivity.
  - repeat constructor. simpl. tauto.
  - reflexivity.
  - reflexivity.
Defined.

End PersistenceCoverage.
